(** * Benchmarking: comparison and aggregation engine of the five benchmark scripts

    Shallow embedding of [scripts/benchmark_classification.py],
    [scripts/benchmark_hscode.py], [scripts/benchmark_invoice.py],
    [scripts/benchmark_parser.py] and [scripts/benchmark_summary.py].

    Conventions of the embedding:
    - a loaded JSON document is a value of [json]; a Python [dict] is an
      association list in insertion order;
    - a Python [float] is an IEEE 754 binary64 value, [spec_float] with
      precision 53 and maximal exponent 1024, with round-to-nearest-even
      arithmetic;
    - Python text is a [string] whose characters are the code points 0..255;
    - a Python exception is the [Raise] case of [outcome]; [try]/[except] is
      [try_except];
    - the interpreter's [float(text)] parser and its [repr] of floats and of
      text are fields of the class [PyBuiltins]; the theorems hold for every
      instance, and [CPython.builtins] is the one the closed examples run
      on. *)

From Stdlib Require Import ZArith List String Ascii Bool Arith Lia.
From Stdlib Require Import Floats.SpecFloat.
From Stdlib Require Import DecimalString.
Import ListNotations.

Local Open Scope string_scope.
Local Open Scope Z_scope.

Set Implicit Arguments.
Set Warnings "-register-all".

(** ** Exceptions *)

Inductive pyexn : Type :=
| AttributeError
| TypeError
| KeyError
| IndexError
| ValueError
| OverflowError
| ZeroDivisionError.

Inductive outcome (A : Type) : Type :=
| Ok (a : A)
| Raise (e : pyexn).

Arguments Ok {A} a.
Arguments Raise {A} e.

Definition bind {A B : Type} (c : outcome A) (k : A -> outcome B) : outcome B :=
  match c with
  | Ok a => k a
  | Raise e => Raise e
  end.

Notation "x <- c ;; k" := (bind c (fun x => k))
  (at level 61, c at next level, right associativity).

(** [try: c except Exception: h] *)
Definition try_except {A : Type} (c : outcome A) (h : pyexn -> outcome A) : outcome A :=
  match c with
  | Ok a => Ok a
  | Raise e => h e
  end.

Definition is_ok {A : Type} (c : outcome A) : bool :=
  match c with
  | Ok _ => true
  | Raise _ => false
  end.

(** [for x in xs: acc = f(acc, x)] where the body may raise. *)
Fixpoint foldM {A S : Type} (f : S -> A -> outcome S) (xs : list A) (s : S) : outcome S :=
  match xs with
  | [] => Ok s
  | x :: xs' => s' <- f s x ;; foldM f xs' s'
  end.

Fixpoint mapM {A B : Type} (f : A -> outcome B) (xs : list A) : outcome (list B) :=
  match xs with
  | [] => Ok []
  | x :: xs' => y <- f x ;; ys <- mapM f xs' ;; Ok (y :: ys)
  end.

(** ** Text *)

Definition chars (s : string) : list ascii := list_ascii_of_string s.

Definition text (l : list ascii) : string := string_of_list_ascii l.

Definition str_len (s : string) : nat := String.length s.

(** The characters [str.strip()] removes, among the code points 0..255. *)
Definition is_space (c : ascii) : bool :=
  let n := nat_of_ascii c in
  ((9 <=? n) && (n <=? 13) || (28 <=? n) && (n <=? 32) || (n =? 133) || (n =? 160))%nat.

Fixpoint lstrip (s : string) : string :=
  match s with
  | EmptyString => EmptyString
  | String c s' => if is_space c then lstrip s' else s
  end.

Fixpoint rstrip (s : string) : string :=
  match s with
  | EmptyString => EmptyString
  | String c s' =>
      match rstrip s' with
      | EmptyString => if is_space c then EmptyString else String c EmptyString
      | r => String c r
      end
  end.

(** [s.strip()] *)
Definition strip (s : string) : string := rstrip (lstrip s).

(** [\d] of a [str] pattern: a decimal digit. *)
Definition is_decimal (c : ascii) : bool :=
  let n := nat_of_ascii c in ((48 <=? n) && (n <=? 57))%nat.

(** [c.isdigit()]: the decimal digits and the superscripts two, three, one. *)
Definition char_isdigit (c : ascii) : bool :=
  let n := nat_of_ascii c in
  (is_decimal c || (n =? 178) || (n =? 179) || (n =? 185))%nat.

(** [s.isdigit()]: false on the empty string. *)
Definition isdigit (s : string) : bool :=
  match chars s with
  | [] => false
  | cs => forallb char_isdigit cs
  end.

(** [s[:k]] for an [int] k; a negative k counts from the end. *)
Definition slice_to (s : string) (k : Z) : string :=
  if 0 <=? k then text (firstn (Z.to_nat k) (chars s))
  else text (firstn (str_len s - Z.to_nat (- k)) (chars s)).

Fixpoint join (sep : string) (l : list string) : string :=
  match l with
  | [] => ""
  | [x] => x
  | x :: l' => x ++ sep ++ join sep l'
  end.

(** [str(n)] for an [int]. *)
Definition str_of_int (n : Z) : string := NilZero.string_of_int (Z.to_int n).

(** ** Floats *)

Definition prec : Z := 53.
Definition emax : Z := 1024.

Definition fdiv : spec_float -> spec_float -> spec_float := SFdiv prec emax.
Definition fmul : spec_float -> spec_float -> spec_float := SFmul prec emax.
Definition fsub : spec_float -> spec_float -> spec_float := SFsub prec emax.

(** The binary64 value nearest to an integer. *)
Definition Z2SF (n : Z) : spec_float := binary_normalize prec emax n 0 false.

(** The binary64 value nearest to the decimal [num / den], as a literal or
    the JSON loader reads it. *)
Definition dec64 (num den : Z) : spec_float := fdiv (Z2SF num) (Z2SF den).

Definition f_zero : spec_float := S754_zero false.
Definition f_one : spec_float := Z2SF 1.
Definition f_two : spec_float := Z2SF 2.
Definition f_hundred : spec_float := Z2SF 100.

(** An integer as an exact, unrounded significand. *)
Definition exactZ (n : Z) : spec_float :=
  match n with
  | Z0 => S754_zero false
  | Zpos p => S754_finite false p 0
  | Zneg p => S754_finite true p 0
  end.

Definition is_nan (f : spec_float) : bool :=
  match f with
  | S754_nan => true
  | _ => false
  end.

Definition is_inf (f : spec_float) : bool :=
  match f with
  | S754_infinity _ => true
  | _ => false
  end.

(** [a / b] on floats. *)
Definition float_truediv (a b : spec_float) : outcome spec_float :=
  if SFeqb b f_zero then Raise ZeroDivisionError else Ok (fdiv a b).

(** [a / b] on two [int]s: the correctly rounded quotient.  The operands
    here are list lengths and hit counts, so the quotient is far from the
    overflow threshold. *)
Definition int_truediv (a b : Z) : outcome spec_float :=
  if b =? 0 then Raise ZeroDivisionError else Ok (fdiv (exactZ a) (exactZ b)).

(** [max(a, b, c)] on floats: the first argument is kept unless a later one
    is strictly greater. *)
Definition float_max3 (a b c : spec_float) : spec_float :=
  let m := if SFltb a b then b else a in
  if SFltb m c then c else m.

(** ** JSON values *)

Inductive json : Type :=
| JNull
| JBool (b : bool)
| JInt (n : Z)
| JFloat (f : spec_float)
| JStr (s : string)
| JList (l : list json)
| JDict (d : list (string * json)).

(** ** Dictionaries *)

Fixpoint dict_get {V : Type} (k : string) (d : list (string * V)) : option V :=
  match d with
  | [] => None
  | (k', v) :: d' => if String.eqb k k' then Some v else dict_get k d'
  end.

(** [d[k] = v]: an existing key keeps its position. *)
Fixpoint dict_set {V : Type} (k : string) (v : V) (d : list (string * V)) : list (string * V) :=
  match d with
  | [] => [(k, v)]
  | (k', v') :: d' =>
      if String.eqb k k' then (k, v) :: d' else (k', v') :: dict_set k v d'
  end.

Definition dict_keys {V : Type} (d : list (string * V)) : list string := map fst d.

Definition dict_mem {V : Type} (k : string) (d : list (string * V)) : bool :=
  match dict_get k d with
  | Some _ => true
  | None => false
  end.

(** ** Python values: equality, truth, coercions *)

Inductive pynum : Type :=
| NInt (n : Z)
| NFloat (f : spec_float).

(** [bool] is a subclass of [int]: [True == 1]. *)
Definition as_number (x : json) : option pynum :=
  match x with
  | JBool b => Some (NInt (if b then 1 else 0))
  | JInt n => Some (NInt n)
  | JFloat f => Some (NFloat f)
  | _ => None
  end.

(** [n == f] for an [int] and a [float]: the exact values are compared. *)
Definition int_eq_float (n : Z) (f : spec_float) : bool :=
  match f with
  | S754_zero _ => n =? 0
  | S754_finite s m e =>
      let sm := if s then Zneg m else Zpos m in
      if 0 <=? e then n =? sm * 2 ^ e else n * 2 ^ (- e) =? sm
  | _ => false
  end.

Definition num_eq (a b : pynum) : bool :=
  match a, b with
  | NInt m, NInt n => m =? n
  | NFloat f, NFloat g => SFeqb f g
  | NInt n, NFloat f => int_eq_float n f
  | NFloat f, NInt n => int_eq_float n f
  end.

(** [x == y] on loaded JSON values.  Dictionaries compare as mappings, lists
    element by element; a NaN is different from itself.  Values are compared
    by content: the two documents are loaded from two files and share no
    object. *)
Fixpoint py_eq (x y : json) {struct x} : bool :=
  match x, y with
  | JNull, JNull => true
  | JStr a, JStr b => String.eqb a b
  | JList a, JList b =>
      (fix all2 (a b : list json) {struct a} : bool :=
         match a, b with
         | [], [] => true
         | u :: a', v :: b' => py_eq u v && all2 a' b'
         | _, _ => false
         end) a b
  | JDict a, JDict b =>
      Nat.eqb (List.length a) (List.length b) &&
      (fix all (a : list (string * json)) {struct a} : bool :=
         match a with
         | [] => true
         | (k, u) :: a' =>
             match dict_get k b with
             | Some v => py_eq u v
             | None => false
             end && all a'
         end) a
  | _, _ =>
      match as_number x, as_number y with
      | Some m, Some n => num_eq m n
      | _, _ => false
      end
  end.

(** [x is None] *)
Definition is_none (x : json) : bool :=
  match x with
  | JNull => true
  | _ => false
  end.

(** [bool(x)] *)
Definition truthy (x : json) : bool :=
  match x with
  | JNull => false
  | JBool b => b
  | JInt n => negb (n =? 0)
  | JFloat f => negb (SFeqb f f_zero)
  | JStr s => negb (String.eqb s "")
  | JList l => negb (Nat.eqb (List.length l) 0)
  | JDict d => negb (Nat.eqb (List.length d) 0)
  end.

(** [x or y] *)
Definition py_or (x y : json) : json := if truthy x then x else y.

(** [x.get(k, default)]: only a [dict] has the method. *)
Definition py_get (x : json) (k : string) (default : json) : outcome json :=
  match x with
  | JDict d =>
      Ok match dict_get k d with
         | Some v => v
         | None => default
         end
  | _ => Raise AttributeError
  end.

(** [len(x)] *)
Definition py_len (x : json) : outcome nat :=
  match x with
  | JStr s => Ok (str_len s)
  | JList l => Ok (List.length l)
  | JDict d => Ok (List.length d)
  | _ => Raise TypeError
  end.

(** [x[i]] for an index [i] of a [range]. *)
Definition py_item (x : json) (i : nat) : outcome json :=
  match x with
  | JList l =>
      match nth_error l i with
      | Some v => Ok v
      | None => Raise IndexError
      end
  | JStr s =>
      match nth_error (chars s) i with
      | Some c => Ok (JStr (String c EmptyString))
      | None => Raise IndexError
      end
  | JDict _ => Raise KeyError
  | _ => Raise TypeError
  end.

(** [for v in x]: the values the loop visits. *)
Definition py_iter (x : json) : outcome (list json) :=
  match x with
  | JList l => Ok l
  | JStr s => Ok (map (fun c => JStr (String c EmptyString)) (chars s))
  | JDict d => Ok (map (fun kv => JStr (fst kv)) d)
  | _ => Raise TypeError
  end.

Definition is_infix (k s : string) : bool :=
  match index 0 k s with
  | Some _ => true
  | None => false
  end.

(** [k in x] for a text key [k]. *)
Definition py_contains (k : string) (x : json) : outcome bool :=
  match x with
  | JDict d => Ok (dict_mem k d)
  | JList l => Ok (existsb (py_eq (JStr k)) l)
  | JStr s => Ok (is_infix k s)
  | _ => Raise TypeError
  end.

(** [x[k]] for a text key [k]. *)
Definition py_getitem (x : json) (k : string) : outcome json :=
  match x with
  | JDict d =>
      match dict_get k d with
      | Some v => Ok v
      | None => Raise KeyError
      end
  | _ => Raise TypeError
  end.

(** [s.split(sep)] for a one-character separator. *)
Fixpoint split_chars (sep : ascii) (cur : list ascii) (l : list ascii) : list string :=
  match l with
  | [] => [text (rev cur)]
  | c :: l' =>
      if Ascii.eqb c sep then text (rev cur) :: split_chars sep [] l'
      else split_chars sep (c :: cur) l'
  end.

Definition str_split (sep : ascii) (s : string) : list string := split_chars sep [] (chars s).

(** ** Builtins left to the interpreter *)

Class PyBuiltins : Type := {
  (** [float(s)] for text [s]; [None] stands for [ValueError] *)
  float_of_text : string -> option spec_float;
  (** [repr(f)] for a float *)
  repr_float : spec_float -> string;
  (** [repr(s)] for text: quoted and escaped *)
  repr_text : string -> string
}.

Section Coercions.
Context {B : PyBuiltins}.

Fixpoint py_repr (x : json) : string :=
  match x with
  | JNull => "None"
  | JBool true => "True"
  | JBool false => "False"
  | JInt n => str_of_int n
  | JFloat f => repr_float f
  | JStr s => repr_text s
  | JList l => "[" ++ join ", " (map py_repr l) ++ "]"
  | JDict d =>
      "{" ++ join ", " (map (fun kv => repr_text (fst kv) ++ ": " ++ py_repr (snd kv)) d) ++ "}"
  end.

(** [str(x)] *)
Definition py_str (x : json) : string :=
  match x with
  | JStr s => s
  | _ => py_repr x
  end.

(** [float(x)]; an [int] too large for a binary64 raises [OverflowError]. *)
Definition py_float (x : json) : outcome spec_float :=
  match x with
  | JNull => Raise TypeError
  | JBool b => Ok (if b then f_one else f_zero)
  | JInt n => let f := Z2SF n in if is_inf f then Raise OverflowError else Ok f
  | JFloat f => Ok f
  | JStr s =>
      match float_of_text s with
      | Some f => Ok f
      | None => Raise ValueError
      end
  | JList _ => Raise TypeError
  | JDict _ => Raise TypeError
  end.

End Coercions.

(** ** The builtins as CPython computes them, on text of code points 0..255 *)

Module CPython.

Definition backslash : ascii := ascii_of_nat 92.
Definition single_quote : ascii := ascii_of_nat 39.
Definition double_quote : ascii := ascii_of_nat 34.

Definition hex_digit (n : nat) : ascii := nth n (chars "0123456789abcdef") zero.

(** [c.isprintable()] *)
Definition printable (c : ascii) : bool :=
  let n := nat_of_ascii c in
  negb ((n <? 32) || (127 <=? n) && (n <=? 160) || (n =? 173))%nat.

Definition escape (quote c : ascii) : list ascii :=
  let n := nat_of_ascii c in
  if Ascii.eqb c quote || Ascii.eqb c backslash then [backslash; c]
  else if Nat.eqb n 9 then [backslash; "t"%char]
  else if Nat.eqb n 10 then [backslash; "n"%char]
  else if Nat.eqb n 13 then [backslash; "r"%char]
  else if printable c then [c]
  else [backslash; "x"%char; hex_digit (n / 16); hex_digit (n mod 16)].

(** [repr(s)]: single quotes unless the text has one and no double quote. *)
Definition repr_text (s : string) : string :=
  let cs := chars s in
  let quote :=
    if existsb (Ascii.eqb single_quote) cs && negb (existsb (Ascii.eqb double_quote) cs)
    then double_quote else single_quote in
  text (quote :: flat_map (escape quote) cs ++ [quote]).

(** *** [float(s)] *)

(** The blanks [float] skips around a numeral. *)
Definition is_blank (c : ascii) : bool :=
  let n := nat_of_ascii c in
  ((9 <=? n) && (n <=? 13) || (n =? 32) || (n =? 133) || (n =? 160))%nat.

Definition is_underscore (c : ascii) : bool := Ascii.eqb c "_".

(** An underscore is allowed between two digits only; the accepted ones
    are dropped. *)
Fixpoint drop_underscores (prev : ascii) (l : list ascii) : option (list ascii) :=
  match l with
  | [] => if is_underscore prev then None else Some []
  | c :: l' =>
      if is_underscore c then
        if is_decimal prev then drop_underscores c l' else None
      else if is_underscore prev && negb (is_decimal c) then None
      else option_map (cons c) (drop_underscores c l')
  end.

Fixpoint skip_blanks (l : list ascii) : list ascii :=
  match l with
  | c :: l' => if is_blank c then skip_blanks l' else l
  | [] => []
  end.

Definition trim_blanks (l : list ascii) : list ascii :=
  rev (skip_blanks (rev (skip_blanks l))).

Definition lower (c : ascii) : ascii :=
  let n := nat_of_ascii c in
  if ((65 <=? n) && (n <=? 90))%nat then ascii_of_nat (n + 32) else c.

Definition digit_value (c : ascii) : Z := Z.of_nat (nat_of_ascii c) - 48.

(** A run of digits: its value appended to [acc], its length, the rest. *)
Fixpoint read_digits (acc : Z) (n : nat) (l : list ascii) : Z * nat * list ascii :=
  match l with
  | c :: l' =>
      if is_decimal c then read_digits (10 * acc + digit_value c) (S n) l' else (acc, n, l)
  | [] => (acc, n, [])
  end.

Definition read_sign (l : list ascii) : bool * list ascii :=
  match l with
  | c :: l' =>
      if Ascii.eqb c "-" then (true, l')
      else if Ascii.eqb c "+" then (false, l')
      else (false, l)
  | [] => (false, [])
  end.

(** The binary64 value nearest to [m * 10 ^ e], for [m >= 0]. *)
Definition decimal_to_float (neg : bool) (m e : Z) : spec_float :=
  let f :=
    if m =? 0 then S754_zero false
    else if 0 <=? e then Z2SF (m * 10 ^ e)
    else fdiv (exactZ m) (exactZ (10 ^ (- e))) in
  if neg then SFopp f else f.

(** The optional exponent part; [None] when characters are left over. *)
Definition read_exponent (l : list ascii) : option Z :=
  match l with
  | [] => Some 0
  | c :: l' =>
      if Ascii.eqb (lower c) "e" then
        let '(neg, l1) := read_sign l' in
        let '(v, n, rest) := read_digits 0 0 l1 in
        match n, rest with
        | S _, [] => Some (if neg then - v else v)
        | _, _ => None
        end
      else None
  end.

Definition float_of_text (s : string) : option spec_float :=
  match drop_underscores zero (chars s) with
  | None => None
  | Some l0 =>
      let '(neg, l) := read_sign (trim_blanks l0) in
      let word := text (map lower l) in
      if String.eqb word "inf" || String.eqb word "infinity" then Some (S754_infinity neg)
      else if String.eqb word "nan" then Some S754_nan
      else
        let '(ip, ni, l1) := read_digits 0 0 l in
        let '(m, nf, l2) :=
          match l1 with
          | c :: l1' => if Ascii.eqb c "." then read_digits ip 0 l1' else (ip, 0%nat, l1)
          | [] => (ip, 0%nat, [])
          end in
        if Nat.eqb (ni + nf) 0 then None
        else
          match read_exponent l2 with
          | Some e => Some (decimal_to_float neg m (e - Z.of_nat nf))
          | None => None
          end
  end.

(** *** [repr(f)]: the shortest decimal that reads back as [f] *)

(** The largest [k] with [10 ^ k <= num / den], searched from [k] one
    step at a time; a binary64 value lies within 10 ^ -324 and 10 ^ 309. *)
Fixpoint search_log10 (fuel : nat) (num den k : Z) : Z :=
  match fuel with
  | O => k
  | S fuel' =>
      let below := if 0 <=? k then 10 ^ k * den <=? num else den <=? num * 10 ^ (- k) in
      if below then
        let k1 := k + 1 in
        let next := if 0 <=? k1 then 10 ^ k1 * den <=? num else den <=? num * 10 ^ (- k1) in
        if next then search_log10 fuel' num den k1 else k
      else search_log10 fuel' num den (k - 1)
  end.

Definition float_of_decimal (d q : Z) : spec_float :=
  if 0 <=? q then Z2SF (d * 10 ^ q) else fdiv (exactZ d) (exactZ (10 ^ (- q))).

(** The [n]-digit decimal [d * 10 ^ q] nearest to [num / den] that reads
    back as [x], if one of the two neighbours does. *)
Definition candidate (x : spec_float) (num den k : Z) (n : Z) : option (Z * Z) :=
  let q := k - n + 1 in
  let sn := if 0 <=? q then num else num * 10 ^ (- q) in
  let sd := if 0 <=? q then den * 10 ^ q else den in
  let lo := sn / sd in
  let r := sn mod sd in
  let ok_lo := SFeqb (float_of_decimal lo q) x in
  let ok_hi := SFeqb (float_of_decimal (lo + 1) q) x in
  let prefer_lo := (2 * r <? sd) || ((2 * r =? sd) && Z.even lo) in
  if ok_lo && ok_hi then Some (if prefer_lo then lo else lo + 1, q)
  else if ok_lo then Some (lo, q)
  else if ok_hi then Some (lo + 1, q)
  else None.

Fixpoint shortest (fuel : nat) (x : spec_float) (num den k n : Z) : Z * Z :=
  match fuel with
  | O => (0, 0)
  | S fuel' =>
      match candidate x num den k n with
      | Some dq => dq
      | None => shortest fuel' x num den k (n + 1)
      end
  end.

Fixpoint strip_zeros (fuel : nat) (d q : Z) : Z * Z :=
  match fuel with
  | O => (d, q)
  | S fuel' => if (d mod 10 =? 0) && negb (d =? 0) then strip_zeros fuel' (d / 10) (q + 1) else (d, q)
  end.

Definition zeros (n : Z) : string := text (repeat "0"%char (Z.to_nat n)).

(** The digits and the position of the decimal point, laid out as [repr]
    does: exponent form when [decpt <= -4] or [decpt > 16]. *)
Definition layout (digits : string) (decpt : Z) : string :=
  let nd := Z.of_nat (str_len digits) in
  if (decpt <=? -4) || (16 <? decpt) then
    let e := decpt - 1 in
    let mant :=
      match digits with
      | String c EmptyString => digits
      | String c rest => String c ("." ++ rest)
      | EmptyString => digits
      end in
    let es := str_of_int (Z.abs e) in
    mant ++ "e" ++ (if e <? 0 then "-" else "+")
         ++ (if Z.abs e <? 10 then "0" else "") ++ es
  else if decpt <=? 0 then "0." ++ zeros (- decpt) ++ digits
  else if nd <=? decpt then digits ++ zeros (decpt - nd) ++ ".0"
  else slice_to digits decpt ++ "." ++ text (skipn (Z.to_nat decpt) (chars digits)).

Definition repr_float (f : spec_float) : string :=
  match f with
  | S754_nan => "nan"
  | S754_infinity s => if s then "-inf" else "inf"
  | S754_zero s => if s then "-0.0" else "0.0"
  | S754_finite s m e =>
      let x := S754_finite false m e in
      let num := if 0 <=? e then Zpos m * 2 ^ e else Zpos m in
      let den := if 0 <=? e then 1 else 2 ^ (- e) in
      let k := search_log10 800 num den 0 in
      let '(d0, q0) := shortest 17 x num den k 1 in
      let '(d, q) := strip_zeros 20 d0 q0 in
      let digits := str_of_int d in
      (if s then "-" else "") ++ layout digits (Z.of_nat (str_len digits) + q)
  end.

Definition builtins : PyBuiltins := Build_PyBuiltins float_of_text repr_float repr_text.

End CPython.

(** ** [difflib.SequenceMatcher(None, a, b).ratio()]

    No junk predicate, automatic junk heuristic on: in a second sequence of
    200 elements or more, an element that fills more than 1% of it (plus one)
    is "popular" and is dropped from the index [b2j]. *)

Module Difflib.

Local Open Scope nat_scope.

Record block : Type := { besti : nat; bestj : nat; bestsize : nat }.

Section Matcher.
Variables a b : list ascii.

Definition elt (l : list ascii) (i : nat) : ascii := nth i l zero.

Fixpoint indices_from (c : ascii) (l : list ascii) (j : nat) : list nat :=
  match l with
  | [] => []
  | x :: l' =>
      if Ascii.eqb c x then j :: indices_from c l' (S j) else indices_from c l' (S j)
  end.

(** [b2j.get(c, nothing)] after [__chain_b]. *)
Definition b2j (c : ascii) : list nat :=
  let n := List.length b in
  let idxs := indices_from c b 0 in
  if ((200 <=? n) && (n / 100 + 1 <? List.length idxs))%nat then [] else idxs.

Fixpoint j2len_get (j : nat) (j2len : list (nat * nat)) : nat :=
  match j2len with
  | [] => 0%nat
  | (j', k) :: rest => if Nat.eqb j j' then k else j2len_get j rest
  end.

(** The inner loop of [find_longest_match] over the ascending positions
    [js] of [a[i]] in [b]: [continue] below [blo], [break] from [bhi] on. *)
Fixpoint scan_row (i blo bhi : nat) (j2len : list (nat * nat)) (js : list nat)
  (best : block) (newj2len : list (nat * nat)) : block * list (nat * nat) :=
  match js with
  | [] => (best, newj2len)
  | j :: js' =>
      if (j <? blo)%nat then scan_row i blo bhi j2len js' best newj2len
      else if (bhi <=? j)%nat then (best, newj2len)
      else
        let k := S match j with
                   | O => 0%nat
                   | S j' => j2len_get j' j2len
                   end in
        let best' :=
          if (bestsize best <? k)%nat
          then {| besti := i + 1 - k; bestj := j + 1 - k; bestsize := k |}
          else best in
        scan_row i blo bhi j2len js' best' ((j, k) :: newj2len)
  end.

(** The outer loop over [i] in [range(alo, ahi)]. *)
Fixpoint scan_rows (is_ : list nat) (blo bhi : nat) (best : block)
  (j2len : list (nat * nat)) : block :=
  match is_ with
  | [] => best
  | i :: rest =>
      let '(best', newj2len) := scan_row i blo bhi j2len (b2j (elt a i)) best [] in
      scan_rows rest blo bhi best' newj2len
  end.

(** [while besti > alo and bestj > blo and a[besti-1] == b[bestj-1]]: at
    most [n = besti - alo] rounds. *)
Fixpoint extend_back (n alo blo : nat) (m : block) : block :=
  match n with
  | O => m
  | S n' =>
      if ((alo <? besti m) && (blo <? bestj m)
          && Ascii.eqb (elt a (besti m - 1)) (elt b (bestj m - 1)))%nat
      then extend_back n' alo blo
             {| besti := besti m - 1; bestj := bestj m - 1; bestsize := bestsize m + 1 |}
      else m
  end.

(** [while besti+bestsize < ahi and bestj+bestsize < bhi and
    a[besti+bestsize] == b[bestj+bestsize]]: at most [n = ahi - besti -
    bestsize] rounds. *)
Fixpoint extend_forward (n ahi bhi : nat) (m : block) : block :=
  match n with
  | O => m
  | S n' =>
      if ((besti m + bestsize m <? ahi) && (bestj m + bestsize m <? bhi)
          && Ascii.eqb (elt a (besti m + bestsize m)) (elt b (bestj m + bestsize m)))%nat
      then extend_forward n' ahi bhi
             {| besti := besti m; bestj := bestj m; bestsize := bestsize m + 1 |}
      else m
  end.

(** With no junk predicate the set of junk elements is empty, so the two
    later loops that absorb junk around the match never run. *)
Definition find_longest_match (alo ahi blo bhi : nat) : block :=
  let m0 := {| besti := alo; bestj := blo; bestsize := 0 |} in
  let m1 := scan_rows (seq alo (ahi - alo)) blo bhi m0 [] in
  let m2 := extend_back (besti m1 - alo) alo blo m1 in
  extend_forward (ahi - (besti m2 + bestsize m2)) ahi bhi m2.

(** The work list of [get_matching_blocks]; [queue.pop()] takes the range
    pushed last.  Every round either drops a range or takes at least one
    element of [a] out of play, so [2 * len(a) + 1] rounds empty the list. *)
Fixpoint matching_blocks (fuel : nat) (queue : list (nat * nat * nat * nat))
  (found : list block) : list block :=
  match fuel, queue with
  | _, [] => found
  | O, _ => found
  | S fuel', (alo, ahi, blo, bhi) :: rest =>
      let m := find_longest_match alo ahi blo bhi in
      let i := besti m in
      let j := bestj m in
      let k := bestsize m in
      if Nat.eqb k 0 then matching_blocks fuel' rest found
      else
        let q1 := if ((alo <? i) && (blo <? j))%nat then (alo, i, blo, j) :: rest else rest in
        let q2 := if ((i + k <? ahi) && (j + k <? bhi))%nat
                  then (i + k, ahi, j + k, bhi) :: q1 else q1 in
        matching_blocks fuel' q2 (m :: found)
  end.

Definition get_matching_blocks : list block :=
  matching_blocks (2 * List.length a + 1) [(0, List.length a, 0, List.length b)]%nat [].

(** [sum(triple[-1] for triple in self.get_matching_blocks())] *)
Definition matches : nat := fold_right (fun m n => (bestsize m + n)%nat) 0%nat get_matching_blocks.

(** [2.0 * matches / length] when [length] is not zero, else [1.0]. *)
Definition ratio : spec_float :=
  let length := (List.length a + List.length b)%nat in
  if Nat.eqb length 0 then f_one
  else fdiv (fmul f_two (Z2SF (Z.of_nat matches))) (Z2SF (Z.of_nat length)).

End Matcher.

End Difflib.

(** [SequenceMatcher(None, s, t).ratio()] on text. *)
Definition similarity (s t : string) : spec_float := Difflib.ratio (chars s) (chars t).

Definition option_text_eqb (x y : option string) : bool :=
  match x, y with
  | None, None => true
  | Some s, Some t => String.eqb s t
  | _, _ => false
  end.

(** [(count / total * 100) if total else 0]: a percentage cell, kept as the
    float the script computes; the two-decimal formatting of the written
    report is left out. *)
Definition guarded_pct (count total : Z) : outcome spec_float :=
  if total =? 0 then Ok f_zero
  else q <- int_truediv count total ;; Ok (fmul q f_hundred).

(** * scripts/benchmark_classification.py *)

Module Classification.

Section Script.
Context {B : PyBuiltins}.

Definition default_threshold : spec_float := dec64 85 100.

Definition compare_strings (y pred : json) (threshold : spec_float) : Z :=
  if py_eq y pred then 1
  else if is_none y || is_none pred then 0
  else if SFleb threshold (similarity (py_str y) (py_str pred)) then 1 else 0.

Definition add_file (result : list (string * string)) (f : json)
  : outcome (list (string * string)) :=
  p <- py_get f "path" (JStr "") ;;
  let path := strip (py_str p) in
  t <- py_get f "type" (JStr "") ;;
  let ftype := strip (py_str t) in
  Ok (if negb (String.eqb path "") then dict_set path ftype result else result).

Definition build_path_map (obj : json) : outcome (list (string * string)) :=
  files <- py_get obj "files" (JList []) ;;
  fs <- py_iter files ;;
  foldM add_file fs [].

Record tally : Type := { total : Z; correct : Z }.

Record report : Type := {
  n_items : Z;
  accuracy : spec_float;
  n_correct : Z;
  missing_items : Z;
  extra_items : Z;
  per_type : list (string * spec_float)
}.

(** [d[k]] on a built dictionary. *)
Definition lookup {V : Type} (d : list (string * V)) (k : string) : outcome V :=
  match dict_get k d with
  | Some v => Ok v
  | None => Raise KeyError
  end.

(** [gt_paths & pred_paths], [gt_paths - pred_paths]: a set of keys is the
    duplicate-free list of a dictionary's keys; the loop over a set visits
    it in this list's order. *)
Definition inter (xs : list string) (d : list (string * string)) : list string :=
  filter (fun p => dict_mem p d) xs.

Definition diff (xs : list string) (d : list (string * string)) : list string :=
  filter (fun p => negb (dict_mem p d)) xs.

(** One round of [for path in common_paths]. *)
Definition score_path (gt_map pred_map : list (string * string))
  (st : Z * list (string * tally)) (path : string) : outcome (Z * list (string * tally)) :=
  let '(n_correct, per_type_stats) := st in
  gt_type <- lookup gt_map path ;;
  pred_type <- lookup pred_map path ;;
  let stats :=
    if dict_mem gt_type per_type_stats then per_type_stats
    else dict_set gt_type {| total := 0; correct := 0 |} per_type_stats in
  v <- lookup stats gt_type ;;
  let stats := dict_set gt_type {| total := total v + 1; correct := correct v |} stats in
  let m := compare_strings (JStr gt_type) (JStr pred_type) default_threshold in
  v <- lookup stats gt_type ;;
  Ok (n_correct + m, dict_set gt_type {| total := total v; correct := correct v + m |} stats).

Definition evaluate (gt pred : json) : outcome report :=
  gt_map <- build_path_map gt ;;
  pred_map <- build_path_map pred ;;
  let gt_paths := dict_keys gt_map in
  let pred_paths := dict_keys pred_map in
  let common_paths := inter gt_paths pred_map in
  let missing := diff gt_paths pred_map in
  let extra := diff pred_paths gt_map in
  st <- foldM (score_path gt_map pred_map) common_paths (0, []) ;;
  let '(n_correct, per_type_stats) := st in
  let n := Z.of_nat (List.length gt_map) in
  acc <- guarded_pct n_correct n ;;
  per_type_accuracy <-
    mapM (fun tv : string * tally =>
            q <- int_truediv (correct (snd tv)) (total (snd tv)) ;;
            Ok (fst tv, fmul q f_hundred)) per_type_stats ;;
  Ok {| n_items := n;
        accuracy := acc;
        n_correct := n_correct;
        missing_items := Z.of_nat (List.length missing);
        extra_items := Z.of_nat (List.length extra);
        per_type := per_type_accuracy |}.

End Script.

End Classification.

(** * scripts/benchmark_hscode.py *)

Module Hscode.

Section Script.
Context {B : PyBuiltins}.

(** The check [load_json] makes on the document [json.load] returned;
    opening and parsing the file are left out. *)
Definition load_json (data : json) : outcome json :=
  match data with
  | JDict _ => Ok data
  | _ => Raise ValueError
  end.

Definition norm_text (s : json) : option string :=
  match s with
  | JNull => None
  | _ => Some (strip (py_str s))
  end.

Definition compare_strings (y pred : json) (threshold : spec_float) : Z :=
  let y_s := norm_text y in
  let p_s := norm_text pred in
  if option_text_eqb y_s p_s then 1
  else
    match y_s, p_s with
    | Some s, Some t => if SFleb threshold (similarity s t) then 1 else 0
    | _, _ => 0
    end.

(** [_DIGITS_RE.sub("", s)]: every run of non-digits is removed. *)
Definition digits_only (s : string) : string := text (filter is_decimal (chars s)).

Definition normalize_hs (code : json) : string :=
  match code with
  | JNull => ""
  | _ => digits_only (strip (py_str code))
  end.

Definition is_valid_hs_10 (code_digits : string) : bool :=
  Nat.eqb (str_len code_digits) 10 && isdigit code_digits.

Definition is_valid_hs_6plus (code_digits : string) : bool :=
  (6 <=? str_len code_digits)%nat && isdigit (slice_to code_digits 6).

Definition prefix_match (gt_digits pred_digits : string) (k : Z) : Z :=
  if (Z.of_nat (str_len gt_digits) <? k) || (Z.of_nat (str_len pred_digits) <? k) then 0
  else if String.eqb (slice_to gt_digits k) (slice_to pred_digits k) then 1 else 0.

(** [range(1, 11)] *)
Definition prefix_lengths : list Z := [1; 2; 3; 4; 5; 6; 7; 8; 9; 10].

Record counters : Type := {
  item_name_matches : Z;
  gt_valid_10 : Z;
  gt_valid_6 : Z;
  pr_valid_10 : Z;
  pr_valid_6 : Z;
  prefix_hits : list (Z * Z)
}.

Definition counters0 : counters :=
  {| item_name_matches := 0; gt_valid_10 := 0; gt_valid_6 := 0;
     pr_valid_10 := 0; pr_valid_6 := 0;
     prefix_hits := map (fun k => (k, 0)) prefix_lengths |}.

Definition b2z (b : bool) : Z := if b then 1 else 0.

(** [for k in range(1, 11): prefix_hits[k] += prefix_match(g_hs, p_hs, k)] *)
Definition add_hits (g_hs p_hs : string) (hits : list (Z * Z)) : list (Z * Z) :=
  map (fun kh : Z * Z => (fst kh, snd kh + prefix_match g_hs p_hs (fst kh))) hits.

(** One round of [for i in range(n_gt)]. *)
Definition step (gt_items pr_items : json) (n_pr : nat) (min_sim : spec_float)
  (c : counters) (i : nat) : outcome counters :=
  gi <- py_item gt_items i ;;
  let g := py_or gi (JDict []) in
  g_code <- py_get g "hs_code" JNull ;;
  let g_hs := normalize_hs g_code in
  let c1 :=
    {| item_name_matches := item_name_matches c;
       gt_valid_10 := gt_valid_10 c + b2z (is_valid_hs_10 g_hs);
       gt_valid_6 := gt_valid_6 c + b2z (is_valid_hs_6plus g_hs);
       pr_valid_10 := pr_valid_10 c;
       pr_valid_6 := pr_valid_6 c;
       prefix_hits := prefix_hits c |} in
  if (i <? n_pr)%nat then
    pi <- py_item pr_items i ;;
    let p := py_or pi (JDict []) in
    g_name <- py_get g "item_name" JNull ;;
    p_name <- py_get p "item_name" JNull ;;
    let m := compare_strings g_name p_name min_sim in
    p_code <- py_get p "hs_code" JNull ;;
    let p_hs := normalize_hs p_code in
    Ok {| item_name_matches := item_name_matches c1 + m;
          gt_valid_10 := gt_valid_10 c1;
          gt_valid_6 := gt_valid_6 c1;
          pr_valid_10 := pr_valid_10 c1 + b2z (is_valid_hs_10 p_hs);
          pr_valid_6 := pr_valid_6 c1 + b2z (is_valid_hs_6plus p_hs);
          prefix_hits := add_hits g_hs p_hs (prefix_hits c1) |}
  else Ok c1.

Record report : Type := {
  n_items : Z;
  seller_name_match : spec_float;
  item_name_match_table : spec_float;
  y_10_match_table : spec_float;
  y_6_match_table : spec_float;
  pred_10_match_table : spec_float;
  pred_6_match_table : spec_float;
  accuracy_10 : spec_float;
  accuracy_6 : spec_float;
  metadata : list (Z * spec_float)
}.

(** [acc[k]] *)
Definition acc_at (acc : list (Z * spec_float)) (k : Z) : outcome spec_float :=
  match find (fun kv => fst kv =? k) acc with
  | Some kv => Ok (snd kv)
  | None => Raise KeyError
  end.

Definition evaluate (gt pred : json) (min_sim : spec_float) : outcome report :=
  gi <- py_get gt "items" (JList []) ;;
  let gt_items := py_or gi (JList []) in
  pi <- py_get pred "items" (JList []) ;;
  let pr_items := py_or pi (JList []) in
  n_gt <- py_len gt_items ;;
  n_pr <- py_len pr_items ;;
  g_seller <- py_get gt "seller_name" JNull ;;
  p_seller <- py_get pred "seller_name" JNull ;;
  let seller_match := compare_strings g_seller p_seller min_sim in
  c <- foldM (step gt_items pr_items n_pr min_sim) (seq 0 n_gt) counters0 ;;
  let n := Z.of_nat n_gt in
  gt_10_pct <- guarded_pct (gt_valid_10 c) n ;;
  gt_6_pct <- guarded_pct (gt_valid_6 c) n ;;
  pr_10_pct <- guarded_pct (pr_valid_10 c) n ;;
  pr_6_pct <- guarded_pct (pr_valid_6 c) n ;;
  acc <- mapM (fun kh : Z * Z => p <- guarded_pct (snd kh) n ;; Ok (fst kh, p)) (prefix_hits c) ;;
  item_name_pct <- guarded_pct (item_name_matches c) n ;;
  let seller_pct := fmul (Z2SF seller_match) f_hundred in
  acc10 <- acc_at acc 10 ;;
  acc6 <- acc_at acc 6 ;;
  Ok {| n_items := n;
        seller_name_match := seller_pct;
        item_name_match_table := item_name_pct;
        y_10_match_table := gt_10_pct;
        y_6_match_table := gt_6_pct;
        pred_10_match_table := pr_10_pct;
        pred_6_match_table := pr_6_pct;
        accuracy_10 := acc10;
        accuracy_6 := acc6;
        metadata := acc |}.

(** The value [res] of [main]: both documents go through [load_json], then
    [evaluate] is called with the threshold of the command line. *)
Definition main_res (gt_data pred_data : json) (min_sim : spec_float) : outcome report :=
  gt <- load_json gt_data ;;
  pr <- load_json pred_data ;;
  evaluate gt pr min_sim.

End Script.

End Hscode.

(** * scripts/benchmark_invoice.py *)

Module Invoice.

Section Script.
Context {B : PyBuiltins}.

Definition default_threshold : spec_float := dec64 7 10.
Definition default_tolerance : spec_float := dec64 1 1000.

(** The literal [1e-9]. *)
Definition epsilon : spec_float := dec64 1 1000000000.

Definition compare_strings (y pred : json) (threshold : spec_float) : Z :=
  if py_eq y pred then 1
  else if is_none y || is_none pred then 0
  else if SFleb threshold (similarity (py_str y) (py_str pred)) then 1 else 0.

(** [float(x) if x is not None else 0.0] *)
Definition coerce (x : json) : outcome spec_float :=
  if is_none x then Ok f_zero else py_float x.

(** The body of the [try] block of [compare_numbers]. *)
Definition compare_coerced (y pred : json) (tolerance : spec_float) : outcome Z :=
  y_f <- coerce y ;;
  p_f <- coerce pred ;;
  if SFeqb y_f f_zero && SFeqb p_f f_zero then Ok 1
  else
    let denom := float_max3 (SFabs y_f) (SFabs p_f) epsilon in
    rel_diff <- float_truediv (SFabs (fsub y_f p_f)) denom ;;
    Ok (if SFleb rel_diff tolerance then 1 else 0).

Definition compare_numbers (y pred : json) (tolerance : spec_float) : outcome Z :=
  if py_eq y pred then Ok 1
  else try_except (compare_coerced y pred tolerance) (fun _ => Ok 0).

Record item_counts : Type := {
  item_name : Z;
  quantity : Z;
  unit_price : Z;
  total_price : Z
}.

Record result : Type := {
  seller_name : Z;
  sum_total_quantity : Z;
  sum_total_price : Z;
  currency : Z;
  n_items : Z;
  item_count_match : Z;
  missing_items : Z;
  extra_items : Z;
  items : item_counts
}.

(** One round of [for i in range(items_to_compare)]. *)
Definition step (y_items pred_items : json) (c : item_counts) (i : nat) : outcome item_counts :=
  yi <- py_item y_items i ;;
  let y_item := py_or yi (JDict []) in
  pi <- py_item pred_items i ;;
  let p_item := py_or pi (JDict []) in
  y_name <- py_get y_item "item_name" JNull ;;
  p_name <- py_get p_item "item_name" JNull ;;
  let m_name := compare_strings y_name p_name default_threshold in
  y_q <- py_get y_item "quantity" JNull ;;
  p_q <- py_get p_item "quantity" JNull ;;
  m_q <- compare_numbers y_q p_q default_tolerance ;;
  y_u <- py_get y_item "unit_price" JNull ;;
  p_u <- py_get p_item "unit_price" JNull ;;
  m_u <- compare_numbers y_u p_u default_tolerance ;;
  y_t <- py_get y_item "total_price" JNull ;;
  p_t <- py_get p_item "total_price" JNull ;;
  m_t <- compare_numbers y_t p_t default_tolerance ;;
  Ok {| item_name := item_name c + m_name;
        quantity := quantity c + m_q;
        unit_price := unit_price c + m_u;
        total_price := total_price c + m_t |}.

(** [compare_strings(y.get(k), pred.get(k))] *)
Definition text_field (y pred : json) (k : string) : outcome Z :=
  a <- py_get y k JNull ;;
  b <- py_get pred k JNull ;;
  Ok (compare_strings a b default_threshold).

(** [compare_numbers(y.get(k), pred.get(k))] *)
Definition number_field (y pred : json) (k : string) : outcome Z :=
  a <- py_get y k JNull ;;
  b <- py_get pred k JNull ;;
  compare_numbers a b default_tolerance.

Definition evaluate (y pred : json) : outcome result :=
  yi <- py_get y "items" (JList []) ;;
  let y_items := py_or yi (JList []) in
  pi <- py_get pred "items" (JList []) ;;
  let pred_items := py_or pi (JList []) in
  n_y <- py_len y_items ;;
  n_p <- py_len pred_items ;;
  let items_to_compare := Nat.min n_y n_p in
  c <- foldM (step y_items pred_items) (seq 0 items_to_compare)
         {| item_name := 0; quantity := 0; unit_price := 0; total_price := 0 |} ;;
  seller <- text_field y pred "seller_name" ;;
  qty <- number_field y pred "sum_total_quantity" ;;
  price <- number_field y pred "sum_total_price" ;;
  cur <- text_field y pred "currency" ;;
  Ok {| seller_name := seller;
        sum_total_quantity := qty;
        sum_total_price := price;
        currency := cur;
        n_items := Z.of_nat n_y;
        item_count_match := if Nat.eqb n_y n_p then 1 else 0;
        missing_items := Z.max 0 (Z.of_nat n_y - Z.of_nat n_p);
        extra_items := Z.max 0 (Z.of_nat n_p - Z.of_nat n_y);
        items := c |}.

(** The percentages [main] writes, before formatting. *)
Record percentages : Type := {
  pct_seller_name : spec_float;
  pct_sum_total_quantity : spec_float;
  pct_sum_total_price : spec_float;
  pct_currency : spec_float;
  pct_item_count_match : spec_float;
  pct_missing_items : spec_float;
  pct_extra_items : spec_float;
  pct_item_name : spec_float;
  pct_quantity : spec_float;
  pct_unit_price : spec_float;
  pct_total_price : spec_float
}.

(** [(count / n) * 100] *)
Definition share (count n : Z) : outcome spec_float :=
  q <- int_truediv count n ;; Ok (fmul q f_hundred).

(** The [result] dictionary that [main] builds from [res], with
    [n = max(res["n_items"], 1)]. *)
Definition main_result (res : result) : outcome percentages :=
  let n := Z.max (n_items res) 1 in
  missing <- share (missing_items res) n ;;
  extra <- share (extra_items res) n ;;
  name <- share (item_name (items res)) n ;;
  qty <- share (quantity (items res)) n ;;
  unit <- share (unit_price (items res)) n ;;
  tot <- share (total_price (items res)) n ;;
  Ok {| pct_seller_name := Z2SF (seller_name res * 100);
        pct_sum_total_quantity := Z2SF (sum_total_quantity res * 100);
        pct_sum_total_price := Z2SF (sum_total_price res * 100);
        pct_currency := Z2SF (currency res * 100);
        pct_item_count_match := Z2SF (item_count_match res * 100);
        pct_missing_items := missing;
        pct_extra_items := extra;
        pct_item_name := name;
        pct_quantity := qty;
        pct_unit_price := unit;
        pct_total_price := tot |}.

End Script.

End Invoice.

(** * scripts/benchmark_parser.py *)

Module Parser.

Section Script.
Context {B : PyBuiltins}.

Definition default_threshold : spec_float := dec64 85 100.

Definition compare_strings (y pred : json) (threshold : spec_float) : Z :=
  if py_eq y pred then 1
  else if is_none y || is_none pred then 0
  else if SFleb threshold (similarity (py_str y) (py_str pred)) then 1 else 0.

(** The loop of [safe_get] over the keys of the path. *)
Fixpoint walk (d : json) (keys : list string) : outcome json :=
  match keys with
  | [] => Ok d
  | k :: keys' =>
      if is_none d then Ok JNull
      else
        present <- py_contains k d ;;
        if negb present then Ok JNull
        else d' <- py_getitem d k ;; walk d' keys'
  end.

Definition safe_get (d : json) (path : string) : outcome json :=
  walk d (str_split "." path).

Definition fields_to_check : list string :=
  [ "seller_name";
    "fields.field_6";
    "fields.field_10.subfield_a";
    "fields.field_10.subfield_b";
    "fields.field_15";
    "fields.field_15a.subfield_a";
    "fields.field_15a.subfield_b";
    "fields.field_17";
    "fields.field_17a.subfield_a";
    "fields.field_17a.subfield_b";
    "fields.field_18.subfield_left";
    "fields.field_18.subfield_right";
    "fields.field_19";
    "fields.field_21.subfield_left";
    "fields.field_21.subfield_right";
    "fields.field_31.subfield_1_left";
    "fields.field_31.subfield_1_right";
    "fields.field_31.subfield_2" ].

(** One round of [for field in fields_to_check]. *)
Definition check_field (gt pred : json) (st : list (string * Z) * Z) (field : string)
  : outcome (list (string * Z) * Z) :=
  let '(results, n_correct) := st in
  gt_val <- safe_get gt field ;;
  pred_val <- safe_get pred field ;;
  let m := compare_strings gt_val pred_val default_threshold in
  Ok (dict_set field m results, n_correct + m).

Definition evaluate (gt pred : json) : outcome (list (string * Z) * spec_float) :=
  st <- foldM (check_field gt pred) fields_to_check ([], 0) ;;
  let '(results, n_correct) := st in
  q <- int_truediv n_correct (Z.of_nat (List.length fields_to_check)) ;;
  Ok (results, fmul q f_hundred).

End Script.

End Parser.

(** * scripts/benchmark_summary.py *)

Module Summary.

Section Script.
Context {B : PyBuiltins}.

(** The check [process_file] makes on the document [json.load] returned;
    opening and parsing the file are left out. *)
Definition process_file (data : json) : outcome json :=
  match data with
  | JDict _ => Ok data
  | _ => Raise ValueError
  end.

Definition compare_strings (y pred : json) (threshold : spec_float) : Z :=
  if py_eq y pred then 1
  else if is_none y || is_none pred then 0
  else if SFleb threshold (similarity (strip (py_str y)) (strip (py_str pred))) then 1 else 0.

Definition normalize_hs (code : json) : string :=
  match code with
  | JNull => ""
  | _ => text (filter is_decimal (chars (strip (py_str code))))
  end.

Definition is_valid_hs10 (code_digits : string) : bool :=
  Nat.eqb (str_len code_digits) 10 && isdigit code_digits.

(** [(normalize_hs(k), "" if v is None else str(v))] *)
Definition pair_of (kv : string * json) : string * string :=
  (normalize_hs (JStr (fst kv)), if is_none (snd kv) then "" else py_str (snd kv)).

(** The pairs one element of ["items"] contributes. *)
Definition pairs_of_item (it : json) : list (string * string) :=
  match it with
  | JDict [kv] => [pair_of kv]
  | JDict d => map pair_of d
  | _ => [("", "")]
  end.

Definition extract_pairs (obj : json) : outcome (list (string * string)) :=
  v <- py_get obj "items" (JList []) ;;
  its <- py_iter (py_or v (JList [])) ;;
  Ok (flat_map pairs_of_item its).

Record report : Type := {
  n_items : Z;
  seller_pct : spec_float;
  hs_pct : spec_float;
  summary_pct : spec_float;
  item_count_pct : spec_float;
  missing_items : Z;
  extra_items : Z;
  pred_hs10_valid_pct : spec_float
}.

(** One round of [for i in range(items_to_compare)], on the aligned pair. *)
Definition step (min_sim : spec_float) (st : Z * Z) (gp : (string * string) * (string * string))
  : Z * Z :=
  let '(hs_exact, summary_match) := st in
  let '((g_hs, g_txt), (p_hs, p_txt)) := gp in
  (hs_exact + (if negb (String.eqb g_hs "") && negb (String.eqb p_hs "") && String.eqb g_hs p_hs
               then 1 else 0),
   summary_match + compare_strings (JStr g_txt) (JStr p_txt) min_sim).

Definition evaluate (gt pred : json) (min_sim : spec_float) : outcome report :=
  g_seller <- py_get gt "seller_name" JNull ;;
  p_seller <- py_get pred "seller_name" JNull ;;
  let seller_match := compare_strings g_seller p_seller min_sim in
  gt_pairs <- extract_pairs gt ;;
  pr_pairs <- extract_pairs pred ;;
  let n_gt := List.length gt_pairs in
  let n_pr := List.length pr_pairs in
  let pr_valid_hs10 := Z.of_nat (List.length (filter (fun p => is_valid_hs10 (fst p)) pr_pairs)) in
  let '(hs_exact, summary_match) :=
    fold_left (step min_sim) (combine gt_pairs pr_pairs) (0, 0) in
  let item_count_match := if Nat.eqb n_gt n_pr then 1 else 0 in
  let n := Z.of_nat n_gt in
  hs <- guarded_pct hs_exact n ;;
  summ <- guarded_pct summary_match n ;;
  valid <- guarded_pct pr_valid_hs10 n ;;
  Ok {| n_items := n;
        seller_pct := fmul (Z2SF seller_match) f_hundred;
        hs_pct := hs;
        summary_pct := summ;
        item_count_pct := fmul (Z2SF item_count_match) f_hundred;
        missing_items := Z.max 0 (Z.of_nat n_gt - Z.of_nat n_pr);
        extra_items := Z.max 0 (Z.of_nat n_pr - Z.of_nat n_gt);
        pred_hs10_valid_pct := valid |}.

(** The value [res] of [main]: both documents go through [process_file],
    then [evaluate] is called with the threshold of the command line. *)
Definition main_res (gt_data pred_data : json) (min_sim : spec_float) : outcome report :=
  gt <- process_file gt_data ;;
  pr <- process_file pred_data ;;
  evaluate gt pr min_sim.

End Script.

End Summary.

(** * Vocabulary of the statements *)

(** The documents of the classification scenario. *)
Definition scenario_gt : json :=
  JDict [("files", JList [JDict [("path", JStr "a.pdf"); ("type", JStr "invoice")];
                          JDict [("path", JStr "b.pdf"); ("type", JStr "receipt")]])].

Definition scenario_pred : json :=
  JDict [("files", JList [JDict [("path", JStr "a.pdf"); ("type", JStr "invoice")];
                          JDict [("path", JStr "c.pdf"); ("type", JStr "receipt")]])].

(** The trimmed text of field [k] of a ["files"] entry, as [build_path_map]
    reads it. *)
Definition trimmed_field {B : PyBuiltins} (k : string) (f : list (string * json)) : string :=
  strip (py_str match dict_get k f with
                | Some v => v
                | None => JStr ""
                end).

Definition entry_path {B : PyBuiltins} (f : list (string * json)) : string :=
  trimmed_field "path" f.

Definition entry_type {B : PyBuiltins} (f : list (string * json)) : string :=
  trimmed_field "type" f.

(** The type of the last entry of [fs] whose trimmed path is [p]. *)
Fixpoint last_type {B : PyBuiltins} (p : string) (fs : list (list (string * json)))
  : option string :=
  match fs with
  | [] => None
  | f :: fs' =>
      match last_type p fs' with
      | Some t => Some t
      | None => if String.eqb (entry_path f) p then Some (entry_type f) else None
      end
  end.

(** The trimmed paths of the entries, the empty ones left out. *)
Definition nonempty_paths {B : PyBuiltins} (fs : list (list (string * json))) : list string :=
  filter (fun p => negb (String.eqb p "")) (map entry_path fs).

(** [result[path] = ftype] when the trimmed path is not empty. *)
Definition put_entry {B : PyBuiltins} (result : list (string * string))
  (f : list (string * json)) : list (string * string) :=
  if negb (String.eqb (entry_path f) "") then dict_set (entry_path f) (entry_type f) result
  else result.

(** The shape the item-list scripts expect of a list element: an object, or
    any value that [x or {}] replaces by the empty object. *)
Definition is_record (x : json) : bool :=
  match x with
  | JDict _ => true
  | _ => negb (truthy x)
  end.

(** [(x or {}).get(k)] on such an element. *)
Definition field (x : json) (k : string) : json :=
  match py_or x (JDict []) with
  | JDict d =>
      match dict_get k d with
      | Some v => v
      | None => JNull
      end
  | _ => JNull
  end.

(** [doc.get("items", []) or []] *)
Definition items_of (doc : json) : outcome json :=
  v <- py_get doc "items" (JList []) ;; Ok (py_or v (JList [])).

(** [count / total * 100] *)
Definition percent (count total : Z) : spec_float :=
  fmul (fdiv (exactZ count) (exactZ total)) f_hundred.

(** How many elements of [l] satisfy [f]. *)
Definition count {A : Type} (f : A -> bool) (l : list A) : Z :=
  Z.of_nat (List.length (filter f l)).

Fixpoint sumZ (l : list Z) : Z :=
  match l with
  | [] => 0
  | x :: l' => x + sumZ l'
  end.

(** Ground-truth items paired by position with the predicted item, if any. *)
Fixpoint align (gs ps : list json) : list (json * option json) :=
  match gs with
  | [] => []
  | g :: gs' =>
      match ps with
      | [] => (g, None) :: align gs' []
      | p :: ps' => (g, Some p) :: align gs' ps'
      end
  end.

(** One round of the loop of [Hscode.evaluate] on an aligned pair. *)
Definition hs_row {B : PyBuiltins} (min_sim : spec_float) (c : Hscode.counters)
  (gp : json * option json) : Hscode.counters :=
  let g_hs := Hscode.normalize_hs (field (fst gp) "hs_code") in
  let v10 := Hscode.gt_valid_10 c + Hscode.b2z (Hscode.is_valid_hs_10 g_hs) in
  let v6 := Hscode.gt_valid_6 c + Hscode.b2z (Hscode.is_valid_hs_6plus g_hs) in
  match snd gp with
  | Some p =>
      let p_hs := Hscode.normalize_hs (field p "hs_code") in
      {| Hscode.item_name_matches :=
           Hscode.item_name_matches c
           + Hscode.compare_strings (field (fst gp) "item_name") (field p "item_name") min_sim;
         Hscode.gt_valid_10 := v10;
         Hscode.gt_valid_6 := v6;
         Hscode.pr_valid_10 := Hscode.pr_valid_10 c + Hscode.b2z (Hscode.is_valid_hs_10 p_hs);
         Hscode.pr_valid_6 := Hscode.pr_valid_6 c + Hscode.b2z (Hscode.is_valid_hs_6plus p_hs);
         Hscode.prefix_hits := Hscode.add_hits g_hs p_hs (Hscode.prefix_hits c) |}
  | None =>
      {| Hscode.item_name_matches := Hscode.item_name_matches c;
         Hscode.gt_valid_10 := v10;
         Hscode.gt_valid_6 := v6;
         Hscode.pr_valid_10 := Hscode.pr_valid_10 c;
         Hscode.pr_valid_6 := Hscode.pr_valid_6 c;
         Hscode.prefix_hits := Hscode.prefix_hits c |}
  end.

(** [(count / total * 100) if total else 0], as a value. *)
Definition pct_or_zero (count total : Z) : spec_float :=
  if total =? 0 then f_zero else percent count total.

(** The normalized code of an item of the commodity-code documents. *)
Definition hs_code_of {B : PyBuiltins} (x : json) : string :=
  Hscode.normalize_hs (field x "hs_code").

(** What an aligned pair adds to the counters of [Hscode.evaluate]. *)
Definition name_hit {B : PyBuiltins} (min_sim : spec_float) (gp : json * option json) : Z :=
  match snd gp with
  | Some p => Hscode.compare_strings (field (fst gp) "item_name") (field p "item_name") min_sim
  | None => 0
  end.

Definition prefix_hit {B : PyBuiltins} (k : Z) (gp : json * option json) : Z :=
  match snd gp with
  | Some p => Hscode.prefix_match (hs_code_of (fst gp)) (hs_code_of p) k
  | None => 0
  end.

Definition gt_10_hit {B : PyBuiltins} (gp : json * option json) : Z :=
  Hscode.b2z (Hscode.is_valid_hs_10 (hs_code_of (fst gp))).

Definition gt_6_hit {B : PyBuiltins} (gp : json * option json) : Z :=
  Hscode.b2z (Hscode.is_valid_hs_6plus (hs_code_of (fst gp))).

Definition pr_10_hit {B : PyBuiltins} (gp : json * option json) : Z :=
  match snd gp with
  | Some p => Hscode.b2z (Hscode.is_valid_hs_10 (hs_code_of p))
  | None => 0
  end.

Definition pr_6_hit {B : PyBuiltins} (gp : json * option json) : Z :=
  match snd gp with
  | Some p => Hscode.b2z (Hscode.is_valid_hs_6plus (hs_code_of p))
  | None => 0
  end.

(** The outcome of [compare_numbers] with the default tolerance, as a value. *)
Definition number_match {B : PyBuiltins} (y pred : json) : Z :=
  match Invoice.compare_numbers y pred Invoice.default_tolerance with
  | Ok r => r
  | Raise _ => 0
  end.

(** What a pair of aligned invoice items adds to each of the four counts. *)
Definition inv_text_hit {B : PyBuiltins} (k : string) (yp : json * json) : Z :=
  Invoice.compare_strings (field (fst yp) k) (field (snd yp) k) Invoice.default_threshold.

Definition inv_number_hit {B : PyBuiltins} (k : string) (yp : json * json) : Z :=
  number_match (field (fst yp) k) (field (snd yp) k).

(** One round of the loop of [Invoice.evaluate] on an aligned pair. *)
Definition inv_row {B : PyBuiltins} (c : Invoice.item_counts) (yp : json * json)
  : Invoice.item_counts :=
  {| Invoice.item_name := Invoice.item_name c + inv_text_hit "item_name" yp;
     Invoice.quantity := Invoice.quantity c + inv_number_hit "quantity" yp;
     Invoice.unit_price := Invoice.unit_price c + inv_number_hit "unit_price" yp;
     Invoice.total_price := Invoice.total_price c + inv_number_hit "total_price" yp |}.

(** Whether a computation ended in [ZeroDivisionError]. *)
Definition raises_zde {A : Type} (c : outcome A) : bool :=
  match c with
  | Raise ZeroDivisionError => true
  | _ => false
  end.

(** Sample documents: three ground-truth items against five predicted. *)
Definition sample_item (name code : string) (qty : Z) : json :=
  JDict [("item_name", JStr name); ("hs_code", JStr code); ("quantity", JInt qty);
         ("unit_price", JFloat (dec64 25 10)); ("total_price", JFloat (dec64 75 10))].

Definition sample_three : list json :=
  [sample_item "steel bolt" "7318.15.00.10" 3;
   sample_item "copper wire" "7408.11" 3;
   sample_item "rubber seal" "4016.93" 3].

Definition sample_five : list json :=
  [sample_item "steel bolt" "7318.15.00.10" 3;
   sample_item "copper wires" "7408.19" 3;
   sample_item "gasket" "8484.10" 4;
   sample_item "washer" "7318.22" 3;
   sample_item "nut" "7318.16" 3].

Definition sample_gt : list (string * json) :=
  [("seller_name", JStr "ACME Ltd"); ("currency", JStr "EUR"); ("items", JList sample_three)].

Definition sample_pred : list (string * json) :=
  [("seller_name", JStr "ACME Ltd."); ("currency", JStr "EUR"); ("items", JList sample_five)].

(** The state of the loop of [Classification.evaluate]: after each round
    every category seen so far has a total of at least 1,
    and the categories are distinct. *)
Definition tallies_ok (st : Z * list (string * Classification.tally)) : Prop :=
  NoDup (dict_keys (snd st))
  /\ forall k v, dict_get k (snd st) = Some v -> 1 <= Classification.total v.

(** Whether the texts of [l] are pairwise different. *)
Fixpoint distinct (l : list string) : bool :=
  match l with
  | [] => true
  | x :: l' => negb (existsb (String.eqb x) l') && distinct l'
  end.

(** A document as [json.load] builds it from JSON text: the keys of every
    object are distinct, and no number is a NaN (which the JSON grammar does
    not have, although the loader reads the word). *)
Fixpoint plain (x : json) : bool :=
  match x with
  | JFloat f => negb (is_nan f)
  | JList l => forallb plain l
  | JDict d =>
      distinct (map fst d)
      && (fix all (d : list (string * json)) : bool :=
            match d with
            | [] => true
            | kv :: d' => plain (snd kv) && all d'
            end) d
  | _ => true
  end.

(** Whether the normalized code of an item has at least [k] digits. *)
Definition long_enough {B : PyBuiltins} (k : Z) (x : json) : bool :=
  k <=? Z.of_nat (str_len (hs_code_of x)).

(** [100.0] when there is at least one item, [0.0] when there is none. *)
Definition full_or_zero (n : Z) : spec_float := if n =? 0 then f_zero else f_hundred.

(** Sample documents for the summary and the generic-field scripts, and an
    invoice whose only quantity is a NaN. *)
Definition sample_summary : list (string * json) :=
  [("seller_name", JStr "ACME Ltd");
   ("items", JList [JDict [("3816000009", JStr "refractory cement")];
                    JDict [("n/a", JStr "unclassified goods")]])].

Definition sample_form : list (string * json) :=
  [("seller_name", JStr "ACME Ltd");
   ("fields", JDict [("field_6", JInt 12);
                     ("field_10", JDict [("subfield_a", JStr "DE"); ("subfield_b", JNull)]);
                     ("field_15", JStr "Germany")])].

Definition sample_nan : list (string * json) :=
  [("items", JList [JDict [("item_name", JStr "bolt"); ("quantity", JFloat S754_nan)]])].

(** The rounds the work list of [get_matching_blocks] can still take: a
    range of [a] of length [n] takes at most [2 * n + 1]. *)
Definition range_weight (r : nat * nat * nat * nat) : nat :=
  let '(alo, ahi, _, _) := r in 2 * (ahi - alo) + 1.

Fixpoint queue_weight (queue : list (nat * nat * nat * nat)) : nat :=
  match queue with
  | [] => 0
  | r :: rest => range_weight r + queue_weight rest
  end.

Definition range_ok (r : nat * nat * nat * nat) : Prop :=
  let '(alo, ahi, _, _) := r in (alo <= ahi)%nat.

(** A match lies inside the range of [a] that was searched. *)
Definition block_within (alo hi : nat) (m : Difflib.block) : Prop :=
  (alo <= Difflib.besti m /\ Difflib.besti m + Difflib.bestsize m <= hi)%nat.

(** Whether every node that [safe_get] visits along the keys is an object
    or [None]. *)
Fixpoint objects_along (d : json) (keys : list string) : bool :=
  match keys with
  | [] => true
  | k :: keys' =>
      match d with
      | JNull => true
      | JDict m =>
          match dict_get k m with
          | Some v => objects_along v keys'
          | None => true
          end
      | _ => false
      end
  end.

(** The value at the end of a chain of keys through nested objects, [None]
    where the chain breaks. *)
Fixpoint descend (d : json) (keys : list string) : json :=
  match keys with
  | [] => d
  | k :: keys' =>
      match d with
      | JDict m =>
          match dict_get k m with
          | Some v => descend v keys'
          | None => JNull
          end
      | _ => JNull
      end
  end.

(** Whether a score is one of the two values a comparison returns. *)
Definition is_bit (m : Z) : Prop := m = 0 \/ m = 1.

(** The score one round of the loop of [Parser.evaluate] records for its
    field. *)
Definition field_score {B : PyBuiltins} (gt pred : json) (f : string) (m : Z) : Prop :=
  exists g p, Parser.safe_get gt f = Ok g /\ Parser.safe_get pred f = Ok p
              /\ m = Parser.compare_strings g p Parser.default_threshold.

(** What two aligned pairs add to the two counts of [Summary.evaluate]. *)
Definition sum_hs_hit (gp : (string * string) * (string * string)) : Z :=
  if negb (String.eqb (fst (fst gp)) "") && negb (String.eqb (fst (snd gp)) "")
     && String.eqb (fst (fst gp)) (fst (snd gp))
  then 1 else 0.

Definition sum_text_hit {B : PyBuiltins} (min_sim : spec_float)
  (gp : (string * string) * (string * string)) : Z :=
  Summary.compare_strings (JStr (snd (fst gp))) (JStr (snd (snd gp))) min_sim.

(** [isinstance(x, dict)] *)
Definition is_object (x : json) : bool :=
  match x with
  | JDict _ => true
  | _ => false
  end.

(** A JSON value that is not a list or an object. *)
Definition is_scalar (x : json) : bool :=
  match x with
  | JList _ => false
  | JDict _ => false
  | _ => true
  end.

(** * Properties *)

Unset Implicit Arguments.

(** ** Text and floats *)

Lemma text_chars (s : string) : text (chars s) = s.
Proof. apply string_of_list_ascii_of_string. Qed.

Lemma chars_text (l : list ascii) : chars (text l) = l.
Proof. apply list_ascii_of_string_of_list_ascii. Qed.

Lemma text_inj (l l' : list ascii) : text l = text l' -> l = l'.
Proof.
  intros H. rewrite <- (chars_text l), <- (chars_text l'). now rewrite H.
Qed.

Lemma length_chars (s : string) : List.length (chars s) = str_len s.
Proof.
  unfold chars, str_len. induction s as [|c s IH]; simpl; [reflexivity | now rewrite IH].
Qed.

Lemma div_eucl_pair (a b : Z) : Z.div_eucl a b = (a / b, a mod b).
Proof. unfold Z.div, Z.modulo. now destruct (Z.div_eucl a b). Qed.

(** An integer divided by itself is exactly [1.0]. *)
Lemma fdiv_exactZ_same (n : Z) : n <> 0 -> fdiv (exactZ n) (exactZ n) = f_one.
Proof.
  intros Hn.
  assert (core : forall p : positive,
             SFdiv_core_binary prec emax (Zpos p) 0 (Zpos p) 0 = (2 ^ 53, -53, loc_Exact)).
  { intros p. unfold SFdiv_core_binary.
    rewrite !Z.add_0_r, !Z.sub_diag.
    change (IntDef.Z.min (fexp prec emax 0) 0) with (-53).
    change (0 - -53) with 53.
    cbv beta iota zeta.
    rewrite Z.shiftl_mul_pow2 by lia.
    rewrite div_eucl_pair.
    rewrite (Z.mul_comm (Z.pos p)).
    rewrite Z.div_mul, Z.mod_mul by discriminate.
    unfold new_location, new_location_even, new_location_odd.
    now destruct (Z.even (Z.pos p)). }
  destruct n as [|p|p]; [contradiction | |];
    unfold fdiv, exactZ, SFdiv; rewrite core; reflexivity.
Qed.

Lemma int_truediv_same (n : Z) : n <> 0 -> int_truediv n n = Ok f_one.
Proof.
  intros Hn. unfold int_truediv.
  destruct (Z.eqb_spec n 0) as [E|_]; [contradiction|].
  now rewrite fdiv_exactZ_same.
Qed.

Lemma int_truediv_zero (n : Z) : 0 < n -> int_truediv 0 n = Ok f_zero.
Proof.
  intros Hn. unfold int_truediv.
  destruct (Z.eqb_spec n 0) as [E|_]; [lia|].
  destruct n; [lia | reflexivity | lia].
Qed.

Lemma guarded_pct_full (n : Z) : n <> 0 -> guarded_pct n n = Ok f_hundred.
Proof.
  intros Hn. unfold guarded_pct.
  destruct (Z.eqb_spec n 0) as [E|_]; [contradiction|].
  rewrite int_truediv_same by assumption. reflexivity.
Qed.

Lemma guarded_pct_empty (c : Z) : guarded_pct c 0 = Ok f_zero.
Proof. reflexivity. Qed.

Lemma guarded_pct_none (n : Z) : 0 <= n -> guarded_pct 0 n = Ok f_zero.
Proof.
  intros Hn. unfold guarded_pct. destruct (Z.eqb_spec n 0) as [E|N]; [reflexivity|].
  rewrite int_truediv_zero by lia. reflexivity.
Qed.

Lemma guarded_pct_ok (c n : Z) : exists p, guarded_pct c n = Ok p.
Proof.
  unfold guarded_pct, int_truediv. destruct (n =? 0); simpl; eexists; reflexivity.
Qed.

(** ** Prefix matching (benchmark_hscode.py) *)

Lemma slice_to_nonneg (s : string) (k : Z) :
  0 <= k -> slice_to s k = text (firstn (Z.to_nat k) (chars s)).
Proof.
  intros Hk. unfold slice_to. destruct (Z.leb_spec 0 k); [reflexivity | lia].
Qed.

Lemma prefix_match_bit (gt pred : string) (k : Z) :
  Hscode.prefix_match gt pred k = 0 \/ Hscode.prefix_match gt pred k = 1.
Proof.
  unfold Hscode.prefix_match.
  destruct (_ || _); [now left|]. destruct (String.eqb _ _); [now right | now left].
Qed.

Lemma prefix_match_spec (gt pred : string) (k : Z) :
  0 <= k ->
  (Hscode.prefix_match gt pred k = 1 <->
   k <= Z.of_nat (str_len gt) /\ k <= Z.of_nat (str_len pred) /\
   firstn (Z.to_nat k) (chars gt) = firstn (Z.to_nat k) (chars pred)).
Proof.
  intros Hk. unfold Hscode.prefix_match.
  rewrite !slice_to_nonneg by assumption.
  destruct (Z.ltb_spec (Z.of_nat (str_len gt)) k) as [Hg|Hg]; simpl.
  - split; [discriminate | lia].
  - destruct (Z.ltb_spec (Z.of_nat (str_len pred)) k) as [Hp|Hp]; simpl.
    + split; [discriminate | lia].
    + destruct (String.eqb_spec (text (firstn (Z.to_nat k) (chars gt)))
                  (text (firstn (Z.to_nat k) (chars pred)))) as [E|N].
      * split; [|reflexivity]. intros _. repeat split; try lia. now apply text_inj.
      * split; [discriminate|]. intros (_ & _ & E). exfalso. apply N. now rewrite E.
Qed.

Lemma firstn_shorter (A : Type) (n m : nat) (l l' : list A) :
  (n <= m)%nat -> firstn m l = firstn m l' -> firstn n l = firstn n l'.
Proof.
  intros Hnm E.
  rewrite <- (Nat.min_l n m Hnm), <- !firstn_firstn. now rewrite E.
Qed.

(** C5.  For every pair of digit strings, [prefix_match] is 0 or 1, it is 1
    exactly when both strings have at least [k] characters and agree on
    their first [k] characters, and as [k] grows from 1 to 10 its value never
    increases. *)
Theorem prefix_match_non_increasing (gt pred : string) (k k' : Z) :
  1 <= k -> k <= k' -> k' <= 10 ->
  Hscode.prefix_match gt pred k' <= Hscode.prefix_match gt pred k
  /\ (Hscode.prefix_match gt pred k = 1 <->
      k <= Z.of_nat (str_len gt) /\ k <= Z.of_nat (str_len pred) /\
      firstn (Z.to_nat k) (chars gt) = firstn (Z.to_nat k) (chars pred))
  /\ (Hscode.prefix_match gt pred k = 0 <->
      ~ (k <= Z.of_nat (str_len gt) /\ k <= Z.of_nat (str_len pred) /\
         firstn (Z.to_nat k) (chars gt) = firstn (Z.to_nat k) (chars pred))).
Proof.
  intros H1 Hkk H10.
  assert (Sk := prefix_match_spec gt pred k ltac:(lia)).
  assert (Sk' := prefix_match_spec gt pred k' ltac:(lia)).
  split; [|split].
  - destruct (prefix_match_bit gt pred k') as [E'|E']; rewrite E'.
    + destruct (prefix_match_bit gt pred k) as [E|E]; rewrite E; lia.
    + apply Sk' in E'. destruct E' as (Lg & Lp & F).
      assert (E : Hscode.prefix_match gt pred k = 1).
      { apply Sk. repeat split; try lia.
        apply (firstn_shorter _ _ (Z.to_nat k')); [lia | exact F]. }
      rewrite E. lia.
  - exact Sk.
  - destruct (prefix_match_bit gt pred k) as [E|E]; rewrite E.
    + split; [|reflexivity]. intros _ C. apply Sk in C. congruence.
    + split; [discriminate|]. intros C. exfalso. apply C. now apply Sk.
Qed.

Lemma prefix_match_non_increasing_witness :
  Hscode.prefix_match "843149" "843120" 6 <= Hscode.prefix_match "843149" "843120" 4
  /\ Hscode.prefix_match "843149" "843120" 4 = 1
  /\ Hscode.prefix_match "843149" "843120" 6 = 0.
Proof.
  pose proof (prefix_match_non_increasing "843149" "843120" 4 6
                ltac:(lia) ltac:(lia) ltac:(lia)) as (M & _ & _).
  split; [exact M|]. split; reflexivity.
Defined.

(** ** String matching (benchmark_classification.py, benchmark_hscode.py) *)

Lemma option_text_eqb_refl (x : option string) : option_text_eqb x x = true.
Proof. destruct x; simpl; [apply String.eqb_refl | reflexivity]. Qed.

Lemma hscode_compare_strings_norm {B : PyBuiltins} (y pred : json) (t : spec_float) :
  Hscode.norm_text y = Hscode.norm_text pred -> Hscode.compare_strings y pred t = 1.
Proof.
  intros E. unfold Hscode.compare_strings. rewrite E, option_text_eqb_refl. reflexivity.
Qed.

Lemma classification_compare_strings_eq {B : PyBuiltins} (y pred : json) (t : spec_float) :
  py_eq y pred = true -> Classification.compare_strings y pred t = 1.
Proof. intros E. unfold Classification.compare_strings. now rewrite E. Qed.

(** C2 (amended).  The matcher of benchmark_hscode.py returns 1 whenever the
    two values are identical after normalization (stringified and trimmed,
    [None] kept apart).  The matcher of benchmark_classification.py compares
    the raw values: it returns 1 whenever they are equal under [==], hence
    for any two trimmed texts that are identical, which is what its caller
    passes.  In both, the equality check comes first: [(None, None)] gives 1,
    and a text against [None] gives 0 on either side. *)
Theorem compare_strings_identity {B : PyBuiltins}
  (y pred : json) (a b s : string) (t : spec_float) :
  (Hscode.norm_text y = Hscode.norm_text pred -> Hscode.compare_strings y pred t = 1)
  /\ (py_eq y pred = true -> Classification.compare_strings y pred t = 1)
  /\ (strip a = a -> strip b = b ->
      Hscode.norm_text (JStr a) = Hscode.norm_text (JStr b) ->
      Classification.compare_strings (JStr a) (JStr b) t = 1)
  /\ Hscode.compare_strings JNull JNull t = 1
  /\ Hscode.compare_strings (JStr s) JNull t = 0
  /\ Hscode.compare_strings JNull (JStr s) t = 0
  /\ Classification.compare_strings JNull JNull t = 1
  /\ Classification.compare_strings (JStr s) JNull t = 0
  /\ Classification.compare_strings JNull (JStr s) t = 0.
Proof.
  repeat split; try reflexivity.
  - apply hscode_compare_strings_norm.
  - apply classification_compare_strings_eq.
  - intros Ha Hb E. apply classification_compare_strings_eq.
    simpl in E. rewrite Ha, Hb in E. injection E as ->. simpl. apply String.eqb_refl.
Qed.

Lemma compare_strings_identity_witness :
  Hscode.compare_strings (B := CPython.builtins) (JStr " 843149 ") (JInt 843149)
    (dec64 85 100) = 1
  /\ Classification.compare_strings (B := CPython.builtins) (JInt 1) (JBool true)
       (dec64 85 100) = 1
  /\ Classification.compare_strings (B := CPython.builtins) (JStr "invoice") (JStr "invoice")
       (dec64 85 100) = 1.
Proof.
  pose proof (compare_strings_identity (B := CPython.builtins)
                (JInt 1) (JBool true) "invoice" "invoice" "x" (dec64 85 100))
    as (_ & Hraw & Htrim & _).
  pose proof (compare_strings_identity (B := CPython.builtins)
                (JStr " 843149 ") (JInt 843149) "" "" "x" (dec64 85 100))
    as (Hnorm & _).
  split; [|split].
  - apply Hnorm. reflexivity.
  - apply Hraw. reflexivity.
  - apply Htrim; reflexivity.
Defined.

(** C2, as stated, fails for the matcher of benchmark_classification.py:
    [" a"] and ["a"] are identical after trimming, and it returns 0. *)
Lemma compare_strings_identity_counterexample :
  Hscode.norm_text (B := CPython.builtins) (JStr " a")
    = Hscode.norm_text (B := CPython.builtins) (JStr "a")
  /\ Classification.compare_strings (B := CPython.builtins) (JStr " a") (JStr "a")
       Classification.default_threshold = 0.
Proof. split; vm_compute; reflexivity. Qed.

(** ** Number matching (benchmark_invoice.py) *)

Lemma SFabs_not_negative_zero (f : spec_float) :
  SFabs f = S754_zero false \/ SFeqb (SFabs f) f_zero = false.
Proof. destruct f as [s|s| |s m e]; simpl; auto. Qed.

(** The denominator [max(abs(y_f), abs(p_f), 1e-9)] is never zero. *)
Lemma denominator_not_zero (y_f p_f : spec_float) :
  SFeqb (float_max3 (SFabs y_f) (SFabs p_f) Invoice.epsilon) f_zero = false.
Proof.
  unfold float_max3.
  set (m := if SFltb (SFabs y_f) (SFabs p_f) then SFabs p_f else SFabs y_f).
  assert (Hm : m = S754_zero false \/ SFeqb m f_zero = false).
  { unfold m. destruct (SFltb _ _); apply SFabs_not_negative_zero. }
  destruct Hm as [-> | Hm].
  - reflexivity.
  - destruct (SFltb m Invoice.epsilon); [reflexivity | exact Hm].
Qed.

Lemma compare_coerced_formula {B : PyBuiltins} (y pred : json) (tol y_f p_f : spec_float) :
  Invoice.coerce y = Ok y_f ->
  Invoice.coerce pred = Ok p_f ->
  SFeqb y_f f_zero && SFeqb p_f f_zero = false ->
  Invoice.compare_coerced y pred tol =
    Ok (if SFleb (fdiv (SFabs (fsub y_f p_f))
                    (float_max3 (SFabs y_f) (SFabs p_f) Invoice.epsilon)) tol
        then 1 else 0).
Proof.
  intros Hy Hp Hz. unfold Invoice.compare_coerced.
  rewrite Hy, Hp. simpl bind. rewrite Hz.
  unfold float_truediv. rewrite denominator_not_zero. reflexivity.
Qed.

(** C3.  With tolerance 0.001, 100 against 100.05 is a match and 100 against
    101 is not; for two different values that both coerce to numbers and are
    not both zero, the result is 1 exactly when
    [|a - b| / max(|a|, |b|, 1e-9) <= tolerance], computed on the coerced
    floats. *)
Theorem compare_numbers_tolerance_boundary {B : PyBuiltins} :
  Invoice.compare_numbers (JInt 100) (JFloat (dec64 10005 100)) (dec64 1 1000) = Ok 1
  /\ Invoice.compare_numbers (JInt 100) (JInt 101) (dec64 1 1000) = Ok 0
  /\ SFleb (fdiv (SFabs (fsub (Z2SF 100) (dec64 10005 100)))
              (float_max3 (Z2SF 100) (dec64 10005 100) Invoice.epsilon))
       (dec64 1 1000) = true
  /\ SFleb (fdiv (SFabs (fsub (Z2SF 100) (Z2SF 101)))
              (float_max3 (Z2SF 100) (Z2SF 101) Invoice.epsilon))
       (dec64 1 1000) = false
  /\ (forall (y pred : json) (tol y_f p_f : spec_float),
        py_eq y pred = false ->
        Invoice.coerce y = Ok y_f ->
        Invoice.coerce pred = Ok p_f ->
        SFeqb y_f f_zero && SFeqb p_f f_zero = false ->
        Invoice.compare_numbers y pred tol =
          Ok (if SFleb (fdiv (SFabs (fsub y_f p_f))
                          (float_max3 (SFabs y_f) (SFabs p_f) Invoice.epsilon)) tol
              then 1 else 0)).
Proof.
  split; [vm_compute; reflexivity|].
  split; [vm_compute; reflexivity|].
  split; [vm_compute; reflexivity|].
  split; [vm_compute; reflexivity|].
  intros y pred tol y_f p_f Hne Hy Hp Hz.
  unfold Invoice.compare_numbers. rewrite Hne.
  rewrite (compare_coerced_formula y pred tol y_f p_f Hy Hp Hz). reflexivity.
Qed.

Lemma compare_numbers_tolerance_boundary_witness :
  Invoice.compare_numbers (B := CPython.builtins) (JStr "100") (JStr "100.05") (dec64 1 1000)
    = Ok 1.
Proof.
  pose proof (compare_numbers_tolerance_boundary (B := CPython.builtins))
    as (_ & _ & _ & _ & H).
  rewrite (H (JStr "100") (JStr "100.05") (dec64 1 1000) (Z2SF 100) (dec64 10005 100));
    vm_compute; reflexivity.
Defined.

Lemma compare_coerced_bit {B : PyBuiltins} (y pred : json) (tol : spec_float) (r : Z) :
  Invoice.compare_coerced y pred tol = Ok r -> r = 0 \/ r = 1.
Proof.
  unfold Invoice.compare_coerced.
  destruct (Invoice.coerce y) as [y_f|]; [|discriminate].
  destruct (Invoice.coerce pred) as [p_f|]; [|discriminate].
  simpl bind. destruct (_ && _); [intros [= <-]; now right|].
  destruct (float_truediv _ _) as [d|]; [|discriminate].
  simpl bind. destruct (SFleb d tol); intros [= <-]; auto.
Qed.

Lemma compare_numbers_bit {B : PyBuiltins} (y pred : json) (tol : spec_float) :
  Invoice.compare_numbers y pred tol = Ok 0 \/ Invoice.compare_numbers y pred tol = Ok 1.
Proof.
  unfold Invoice.compare_numbers. destruct (py_eq y pred); [now right|].
  destruct (Invoice.compare_coerced y pred tol) as [r|e] eqn:E; simpl; [|now left].
  destruct (compare_coerced_bit y pred tol r E) as [-> | ->]; auto.
Qed.

(** C4.  [compare_numbers] returns 0 or 1 on every pair of values and never
    raises; when the values are not equal and the coercion of either side
    fails, it returns 0; [None] is coerced to 0.0, so [None] against a zero
    is a match. *)
Theorem compare_numbers_total {B : PyBuiltins} (y pred : json) (tol : spec_float) :
  (Invoice.compare_numbers y pred tol = Ok 0 \/ Invoice.compare_numbers y pred tol = Ok 1)
  /\ (py_eq y pred = false ->
      is_ok (Invoice.coerce y) && is_ok (Invoice.coerce pred) = false ->
      Invoice.compare_numbers y pred tol = Ok 0)
  /\ Invoice.coerce JNull = Ok f_zero
  /\ Invoice.compare_numbers JNull (JInt 0) tol = Ok 1
  /\ Invoice.compare_numbers (JFloat f_zero) JNull tol = Ok 1.
Proof.
  split; [apply compare_numbers_bit|].
  split; [|repeat split].
  intros Hne Hfail. unfold Invoice.compare_numbers, Invoice.compare_coerced.
  rewrite Hne.
  destruct (Invoice.coerce y) as [y_f|]; [|reflexivity].
  destruct (Invoice.coerce pred) as [p_f|]; [discriminate | reflexivity].
Qed.

Lemma compare_numbers_total_witness :
  Invoice.compare_numbers (B := CPython.builtins) (JStr "12 pcs") (JInt 12) (dec64 1 1000)
    = Ok 0
  /\ Invoice.compare_numbers (B := CPython.builtins) (JInt 3) (JList []) (dec64 1 1000)
     = Ok 0.
Proof.
  split.
  - apply (compare_numbers_total (B := CPython.builtins)
             (JStr "12 pcs") (JInt 12) (dec64 1 1000)); reflexivity.
  - apply (compare_numbers_total (B := CPython.builtins)
             (JInt 3) (JList []) (dec64 1 1000)); reflexivity.
Defined.

(** ** Path resolution (benchmark_parser.py) *)

Lemma walk_none (keys : list string) : Parser.walk JNull keys = Ok JNull.
Proof. destruct keys; reflexivity. Qed.

Lemma walk_missing_key (d : list (string * json)) (k : string) (keys : list string) :
  dict_get k d = None -> Parser.walk (JDict d) (k :: keys) = Ok JNull.
Proof. intros E. simpl. unfold dict_mem. now rewrite E. Qed.

Lemma walk_present_key (d : list (string * json)) (k : string) (keys : list string) (v : json) :
  dict_get k d = Some v -> Parser.walk (JDict d) (k :: keys) = Parser.walk v keys.
Proof. intros E. simpl. unfold dict_mem. now rewrite E. Qed.

(** C8 (what the code does instead).  On a mapping, a missing key
    yields [None], and so does a [None] node; but a node that is a number or
    a boolean makes [k not in d] raise [TypeError], and a text node that
    contains the key makes [d[k]] raise it: [safe_get] is not total. *)
Theorem safe_get_raises_on_scalar_node {B : PyBuiltins} :
  Parser.safe_get (JDict [("fields", JInt 5)]) "fields.field_6" = Raise TypeError
  /\ Parser.safe_get (JDict [("fields", JBool true)]) "fields.field_6" = Raise TypeError
  /\ Parser.safe_get (JDict [("fields", JStr "field_6")]) "fields.field_6" = Raise TypeError
  /\ Parser.safe_get (JDict [("fields", JNull)]) "fields.field_6" = Ok JNull
  /\ Parser.safe_get (JDict [("fields", JDict [])]) "fields.field_6" = Ok JNull
  /\ Parser.evaluate (JDict [("fields", JInt 5)]) (JDict [("fields", JInt 5)])
     = Raise TypeError.
Proof. repeat split; vm_compute; reflexivity. Qed.

(** ** The classification scenario (benchmark_classification.py) *)

(** C9 (amended).  On the scenario the report has [n_items = 2],
    [missing_items = 1], [extra_items = 1]; only the common path [a.pdf] is
    compared and it matches, so [correct = 1] and the per-type accuracy of
    [invoice] is 100%; the report's [accuracy] divides by the ground-truth
    count and is 1/2 = 50%. *)
Theorem classification_scenario {B : PyBuiltins} :
  Classification.build_path_map scenario_gt
    = Ok [("a.pdf", "invoice"); ("b.pdf", "receipt")]
  /\ Classification.build_path_map scenario_pred
     = Ok [("a.pdf", "invoice"); ("c.pdf", "receipt")]
  /\ Classification.inter ["a.pdf"; "b.pdf"] [("a.pdf", "invoice"); ("c.pdf", "receipt")]
     = ["a.pdf"]
  /\ Classification.evaluate scenario_gt scenario_pred
     = Ok {| Classification.n_items := 2;
             Classification.accuracy := Z2SF 50;
             Classification.n_correct := 1;
             Classification.missing_items := 1;
             Classification.extra_items := 1;
             Classification.per_type := [("invoice", f_hundred)] |}.
Proof. repeat split; vm_compute; reflexivity. Qed.

(** C9, as stated, fails: the accuracy of the report is not 100%. *)
Lemma classification_scenario_counterexample :
  exists r,
    Classification.evaluate (B := CPython.builtins) scenario_gt scenario_pred = Ok r
    /\ SFeqb (Classification.accuracy r) f_hundred = false
    /\ Classification.accuracy r = Z2SF 50.
Proof. eexists. split; [vm_compute; reflexivity|]. split; vm_compute; reflexivity. Qed.

(** ** Dictionaries *)

Lemma dict_get_set_same (V : Type) (k : string) (v : V) (d : list (string * V)) :
  dict_get k (dict_set k v d) = Some v.
Proof.
  induction d as [|[k' v'] d IH]; simpl.
  - now rewrite String.eqb_refl.
  - destruct (String.eqb_spec k k') as [->|N]; simpl.
    + now rewrite String.eqb_refl.
    + destruct (String.eqb_spec k k'); [contradiction | exact IH].
Qed.

Lemma dict_get_set_other (V : Type) (k p : string) (v : V) (d : list (string * V)) :
  p <> k -> dict_get p (dict_set k v d) = dict_get p d.
Proof.
  intros N. induction d as [|[k' v'] d IH]; simpl.
  - destruct (String.eqb_spec p k); [contradiction | reflexivity].
  - destruct (String.eqb_spec k k') as [->|N']; simpl.
    + destruct (String.eqb_spec p k'); [contradiction | reflexivity].
    + destruct (String.eqb_spec p k'); [reflexivity | exact IH].
Qed.

Lemma dict_get_set (V : Type) (k p : string) (v : V) (d : list (string * V)) :
  dict_get p (dict_set k v d) = if String.eqb k p then Some v else dict_get p d.
Proof.
  destruct (String.eqb_spec k p) as [->|N].
  - apply dict_get_set_same.
  - apply dict_get_set_other. congruence.
Qed.

Lemma dict_get_in_keys (V : Type) (k : string) (d : list (string * V)) :
  In k (dict_keys d) <-> dict_get k d <> None.
Proof.
  induction d as [|[k' v'] d IH]; simpl.
  - split; [contradiction | congruence].
  - destruct (String.eqb_spec k k') as [->|N].
    + split; [discriminate | auto].
    + rewrite <- IH. split; [intros [E|I]; [congruence | exact I] | auto].
Qed.

Lemma dict_mem_in_keys (V : Type) (k : string) (d : list (string * V)) :
  dict_mem k d = true <-> In k (dict_keys d).
Proof.
  rewrite dict_get_in_keys. unfold dict_mem.
  destruct (dict_get k d); split; congruence.
Qed.

Lemma dict_keys_set (V : Type) (k p : string) (v : V) (d : list (string * V)) :
  In p (dict_keys (dict_set k v d)) <-> p = k \/ In p (dict_keys d).
Proof.
  rewrite !dict_get_in_keys, dict_get_set.
  destruct (String.eqb_spec k p) as [->|N].
  - split; [auto | discriminate].
  - split; [auto | intros [E|I]; [congruence | exact I]].
Qed.

Lemma dict_set_NoDup (V : Type) (k : string) (v : V) (d : list (string * V)) :
  NoDup (dict_keys d) -> NoDup (dict_keys (dict_set k v d)).
Proof.
  induction d as [|[k' v'] d IH]; simpl; intros ND.
  - constructor; [intros [] | constructor].
  - inversion ND as [|x l Hx Hl]; subst.
    destruct (String.eqb_spec k k') as [->|N]; simpl.
    + now constructor.
    + constructor; [|now apply IH].
      intros I. apply (dict_keys_set V k k' v d) in I.
      destruct I as [E|I]; [congruence | contradiction].
Qed.

Lemma dict_set_length_mem (V : Type) (k : string) (v : V) (d : list (string * V)) :
  List.length (dict_set k v d)
  = if dict_mem k d then List.length d else S (List.length d).
Proof.
  unfold dict_mem. induction d as [|[k' v'] d IH]; simpl; [reflexivity|].
  destruct (String.eqb_spec k k'); simpl; [reflexivity|].
  rewrite IH. now destruct (dict_get k d).
Qed.

(** ** Inverting a sequence of statements that returned *)

Lemma bind_ok (A C : Type) (c : outcome A) (k : A -> outcome C) (r : C) :
  bind c k = Ok r -> exists a, c = Ok a /\ k a = Ok r.
Proof. destruct c as [a|e]; simpl; [eauto | discriminate]. Qed.

Ltac inv_bind H :=
  let a := fresh "v" in
  let E := fresh "E" in
  apply bind_ok in H; destruct H as (a & E & H).

Lemma foldM_pure (A S : Type) (f : S -> A -> outcome S) (g : S -> A -> S)
  (xs : list A) (s : S) :
  (forall s' x, In x xs -> f s' x = Ok (g s' x)) ->
  foldM f xs s = Ok (fold_left g xs s).
Proof.
  revert s. induction xs as [|x xs IH]; intros s Hf; simpl; [reflexivity|].
  rewrite Hf by now left. simpl. apply IH. intros s' y Hy. apply Hf. now right.
Qed.

(** ** The path map (benchmark_classification.py) *)

Section PathMap.
Context {B : PyBuiltins}.

Lemma add_file_entry (result : list (string * string)) (f : list (string * json)) :
  Classification.add_file result (JDict f) = Ok (put_entry result f).
Proof.
  unfold Classification.add_file, put_entry, entry_path, entry_type, trimmed_field. simpl.
  reflexivity.
Qed.

Lemma foldM_add_file (fs : list (list (string * json))) (acc : list (string * string)) :
  foldM Classification.add_file (map JDict fs) acc = Ok (fold_left put_entry fs acc).
Proof.
  revert acc. induction fs as [|f fs IH]; intros acc; cbn [map foldM]; [reflexivity|].
  rewrite add_file_entry. cbn [bind]. apply IH.
Qed.

Lemma build_path_map_fold (d : list (string * json)) (fs : list (list (string * json))) :
  dict_get "files" d = Some (JList (map JDict fs)) ->
  Classification.build_path_map (JDict d) = Ok (fold_left put_entry fs []).
Proof.
  intros E. unfold Classification.build_path_map. simpl. rewrite E. simpl.
  apply foldM_add_file.
Qed.

Lemma put_entry_get (p : string) (f : list (string * json)) (acc : list (string * string)) :
  dict_get p (put_entry acc f)
  = if String.eqb p "" then dict_get p acc
    else if String.eqb (entry_path f) p then Some (entry_type f) else dict_get p acc.
Proof.
  unfold put_entry.
  destruct (String.eqb_spec (entry_path f) "") as [E0|N0]; simpl.
  - destruct (String.eqb_spec p ""); [reflexivity|].
    destruct (String.eqb_spec (entry_path f) p); [congruence | reflexivity].
  - rewrite dict_get_set.
    destruct (String.eqb_spec p "") as [->|Np]; [|reflexivity].
    destruct (String.eqb_spec (entry_path f) ""); [contradiction | reflexivity].
Qed.

Lemma fold_put_entry_get (p : string) (fs : list (list (string * json)))
  (acc : list (string * string)) :
  dict_get p (fold_left put_entry fs acc)
  = if String.eqb p "" then dict_get p acc
    else match last_type p fs with
         | Some t => Some t
         | None => dict_get p acc
         end.
Proof.
  revert acc. induction fs as [|f fs IH]; intros acc; simpl.
  - now destruct (String.eqb p "").
  - rewrite IH, put_entry_get.
    destruct (String.eqb p ""); [reflexivity|].
    destruct (last_type p fs); [reflexivity|].
    now destruct (String.eqb (entry_path f) p).
Qed.

Lemma put_entry_NoDup (f : list (string * json)) (acc : list (string * string)) :
  NoDup (dict_keys acc) -> NoDup (dict_keys (put_entry acc f)).
Proof.
  intros ND. unfold put_entry. destruct (negb _); [now apply dict_set_NoDup | exact ND].
Qed.

Lemma fold_put_entry_NoDup (fs : list (list (string * json))) (acc : list (string * string)) :
  NoDup (dict_keys acc) -> NoDup (dict_keys (fold_left put_entry fs acc)).
Proof.
  revert acc. induction fs as [|f fs IH]; intros acc ND; simpl; [exact ND|].
  apply IH. now apply put_entry_NoDup.
Qed.

Lemma last_type_in (p : string) (fs : list (list (string * json))) :
  last_type p fs <> None <-> In p (map entry_path fs).
Proof.
  induction fs as [|f fs IH]; simpl.
  - split; [congruence | contradiction].
  - destruct (last_type p fs) as [t|].
    + split; [intros _; right; apply IH; discriminate | discriminate].
    + destruct (String.eqb_spec (entry_path f) p) as [E|N].
      * split; [auto | discriminate].
      * split; [congruence|]. intros [E|I]; [contradiction|]. now apply IH in I.
Qed.

Lemma path_map_keys (p : string) (fs : list (list (string * json))) :
  In p (dict_keys (fold_left put_entry fs [])) <-> In p (nonempty_paths fs).
Proof.
  rewrite dict_get_in_keys, fold_put_entry_get. unfold nonempty_paths.
  rewrite filter_In, <- last_type_in. simpl.
  destruct (String.eqb p ""); simpl.
  - split; [congruence | intros [_ F]; discriminate].
  - destruct (last_type p fs); split; intros H.
    + split; [discriminate | reflexivity].
    + discriminate.
    + congruence.
    + now destruct H.
Qed.

Lemma path_map_length (fs : list (list (string * json))) :
  List.length (fold_left put_entry fs [])
  = List.length (nodup string_dec (nonempty_paths fs)).
Proof.
  rewrite <- (length_map fst (fold_left put_entry fs [])).
  change (map fst (fold_left put_entry fs [])) with (dict_keys (fold_left put_entry fs [])).
  apply Nat.le_antisymm; apply NoDup_incl_length.
  - apply fold_put_entry_NoDup. constructor.
  - intros p Hp. apply nodup_In. now apply path_map_keys.
  - apply NoDup_nodup.
  - intros p Hp. apply nodup_In in Hp. now apply path_map_keys.
Qed.

Lemma nodup_length_le (l : list string) :
  (List.length (nodup string_dec l) <= List.length l)%nat.
Proof.
  induction l as [|x l IH]; simpl; [lia|].
  destruct (in_dec string_dec x l); simpl; lia.
Qed.

Lemma nodup_length_lt (l : list string) :
  ~ NoDup l -> (List.length (nodup string_dec l) < List.length l)%nat.
Proof.
  induction l as [|x l IH]; simpl; intros ND.
  - exfalso. apply ND. constructor.
  - destruct (in_dec string_dec x l) as [I|NI]; simpl.
    + pose proof (nodup_length_le l). lia.
    + assert (~ NoDup l) by (intros H; apply ND; now constructor).
      apply IH in H. lia.
Qed.

Lemma filter_length_lt (A : Type) (f : A -> bool) (l : list A) (x : A) :
  In x l -> f x = false -> (List.length (filter f l) < List.length l)%nat.
Proof.
  induction l as [|y l IH]; simpl; intros I Hx; [contradiction|].
  pose proof (filter_length_le f l).
  destruct I as [->|I].
  - rewrite Hx. lia.
  - specialize (IH I Hx). destruct (f y); simpl; lia.
Qed.

Lemma nonempty_paths_length (fs : list (list (string * json))) :
  (List.length (nonempty_paths fs) <= List.length fs)%nat.
Proof.
  unfold nonempty_paths.
  pose proof (filter_length_le (fun p => negb (String.eqb p "")) (map entry_path fs)) as H.
  now rewrite length_map in H.
Qed.

Lemma evaluate_n_items (gt pred : json) (m : list (string * string))
  (r : Classification.report) :
  Classification.build_path_map gt = Ok m ->
  Classification.evaluate gt pred = Ok r ->
  Classification.n_items r = Z.of_nat (List.length m).
Proof.
  intros Em H. unfold Classification.evaluate in H. rewrite Em in H. simpl bind in H.
  inv_bind H. inv_bind H. destruct v0 as [c stats]. inv_bind H. inv_bind H.
  injection H as <-. reflexivity.
Qed.

End PathMap.

(** C10.  For a ["files"] list of objects, [build_path_map] returns a map in
    which the empty trimmed path is absent and every other trimmed path
    carries the type of its last occurrence; its keys are distinct, so
    [n_items] is the number of distinct non-empty trimmed paths, which is at
    most the length of the list and strictly smaller as soon as one entry
    has an empty trimmed path or two entries share a non-empty one. *)
Theorem build_path_map_distinct_paths {B : PyBuiltins}
  (d : list (string * json)) (fs : list (list (string * json))) :
  dict_get "files" d = Some (JList (map JDict fs)) ->
  exists m,
    Classification.build_path_map (JDict d) = Ok m
    /\ (forall p, dict_get p m = if String.eqb p "" then None else last_type p fs)
    /\ NoDup (dict_keys m)
    /\ List.length m = List.length (nodup string_dec (nonempty_paths fs))
    /\ (List.length m <= List.length fs)%nat
    /\ ((exists f, In f fs /\ entry_path f = "") -> (List.length m < List.length fs)%nat)
    /\ (~ NoDup (nonempty_paths fs) -> (List.length m < List.length fs)%nat)
    /\ (forall pred r,
          Classification.evaluate (JDict d) pred = Ok r ->
          Classification.n_items r
          = Z.of_nat (List.length (nodup string_dec (nonempty_paths fs)))).
Proof.
  intros E. exists (fold_left put_entry fs []).
  pose proof (build_path_map_fold d fs E) as Hm.
  pose proof (path_map_length fs) as HL.
  pose proof (nodup_length_le (nonempty_paths fs)) as H1.
  pose proof (nonempty_paths_length fs) as H2.
  split; [exact Hm|].
  split.
  { intros p. rewrite fold_put_entry_get. simpl.
    destruct (String.eqb p ""); [reflexivity|]. now destruct (last_type p fs). }
  split; [apply fold_put_entry_NoDup; constructor|].
  split; [exact HL|].
  split; [lia|].
  split.
  { intros (f & I & Ef).
    assert ((List.length (nonempty_paths fs) < List.length fs)%nat); [|lia].
    unfold nonempty_paths. rewrite <- (length_map entry_path fs).
    apply (filter_length_lt _ _ _ (entry_path f)).
    - now apply in_map.
    - rewrite Ef. reflexivity. }
  split.
  { intros ND. pose proof (nodup_length_lt _ ND). lia. }
  intros pred r Hr. rewrite (evaluate_n_items _ _ _ _ Hm Hr). now rewrite HL.
Qed.

Lemma build_path_map_distinct_paths_witness :
  exists m,
    Classification.build_path_map (B := CPython.builtins)
      (JDict [("files", JList (map JDict
         [[("path", JStr " a.pdf"); ("type", JStr "invoice")];
          [("path", JStr "  "); ("type", JStr "receipt")];
          [("path", JStr "a.pdf "); ("type", JStr " letter ")]]))]) = Ok m
    /\ m = [("a.pdf", "letter")]
    /\ (List.length m < 3)%nat.
Proof.
  destruct (build_path_map_distinct_paths (B := CPython.builtins)
              [("files", JList (map JDict
                 [[("path", JStr " a.pdf"); ("type", JStr "invoice")];
                  [("path", JStr "  "); ("type", JStr "receipt")];
                  [("path", JStr "a.pdf "); ("type", JStr " letter ")]]))]
              [[("path", JStr " a.pdf"); ("type", JStr "invoice")];
               [("path", JStr "  "); ("type", JStr "receipt")];
               [("path", JStr "a.pdf "); ("type", JStr " letter ")]]
              eq_refl) as (m & Hm & _ & _ & _ & _ & Hlt & _).
  exists m. split; [exact Hm|]. split.
  - vm_compute in Hm. now injection Hm as <-.
  - apply Hlt. exists [("path", JStr "  "); ("type", JStr "receipt")].
    split; [right; left; reflexivity | reflexivity].
Defined.

(** ** Loops over positions *)

Lemma foldM_indices (A St : Type) (f : St -> nat -> outcome St) (g : St -> A -> outcome St)
  (l : list A) (k : nat) (s : St) :
  (forall s' i x, nth_error l i = Some x -> f s' (k + i)%nat = g s' x) ->
  foldM f (seq k (List.length l)) s = foldM g l s.
Proof.
  revert k s. induction l as [|x l IH]; intros k s H; simpl; [reflexivity|].
  rewrite <- (H s 0%nat x eq_refl), Nat.add_0_r.
  destruct (f s k) as [s1|e]; simpl; [|reflexivity].
  apply IH. intros s' i y Hy. rewrite <- (H s' (S i) y Hy). f_equal. lia.
Qed.

Lemma foldM_rows (A St : Type) (f : St -> nat -> outcome St) (h : St -> A -> St)
  (l : list A) (s : St) :
  (forall s' i x, nth_error l i = Some x -> f s' i = Ok (h s' x)) ->
  foldM f (seq 0 (List.length l)) s = Ok (fold_left h l s).
Proof.
  intros H.
  rewrite (foldM_indices A St f (fun s' x => Ok (h s' x)) l 0 s) by exact H.
  apply foldM_pure. reflexivity.
Qed.

Lemma align_length (gs ps : list json) : List.length (align gs ps) = List.length gs.
Proof.
  revert ps. induction gs as [|g gs IH]; intros ps; simpl; [reflexivity|].
  destruct ps; simpl; now rewrite IH.
Qed.

Lemma align_nth (gs ps : list json) (i : nat) (gp : json * option json) :
  nth_error (align gs ps) i = Some gp ->
  nth_error gs i = Some (fst gp) /\ snd gp = nth_error ps i.
Proof.
  revert ps i. induction gs as [|g gs IH]; intros ps i; simpl.
  - destruct i; discriminate.
  - destruct ps as [|p ps]; destruct i as [|i]; simpl.
    + intros [= <-]. now split.
    + intros H. apply IH in H. destruct H as [H1 H2]. split; [exact H1|].
      rewrite H2. now destruct i.
    + intros [= <-]. now split.
    + apply IH.
Qed.

Lemma align_self (l : list json) : align l l = map (fun x => (x, Some x)) l.
Proof. induction l as [|x l IH]; simpl; [reflexivity | now rewrite IH]. Qed.

Lemma align_nil (gs : list json) : align gs [] = map (fun x => (x, None)) gs.
Proof. induction gs as [|x l IH]; simpl; [reflexivity | now rewrite IH]. Qed.

Lemma record_get (x : json) (k : string) :
  is_record x = true -> py_get (py_or x (JDict [])) k JNull = Ok (field x k).
Proof.
  unfold field, py_or, is_record.
  destruct x; simpl; try (intros H; apply negb_true_iff in H; rewrite H; reflexivity);
    try reflexivity.
  intros _. destruct (negb _); reflexivity.
Qed.

Lemma nth_error_record (l : list json) (i : nat) (x : json) :
  forallb is_record l = true -> nth_error l i = Some x -> is_record x = true.
Proof.
  intros Hall Hn. rewrite forallb_forall in Hall. apply Hall.
  eapply nth_error_In; eauto.
Qed.

(** ** The commodity-code evaluator (benchmark_hscode.py) *)

Section HscodeLoop.
Context {B : PyBuiltins}.

Lemma hs_step_row (gs ps : list json) (ms : spec_float) (c : Hscode.counters)
  (i : nat) (gp : json * option json) :
  forallb is_record gs = true ->
  forallb is_record ps = true ->
  nth_error (align gs ps) i = Some gp ->
  Hscode.step (JList gs) (JList ps) (List.length ps) ms c i = Ok (hs_row ms c gp).
Proof.
  intros Hg Hp Hn. apply align_nth in Hn. destruct Hn as [Hgi Hpi].
  destruct gp as [g o]. simpl in Hgi, Hpi.
  pose proof (nth_error_record gs i g Hg Hgi) as Rg.
  unfold Hscode.step, hs_row. cbn [py_item fst snd]. rewrite Hgi. cbn [bind].
  rewrite (record_get g "hs_code" Rg). cbn [bind].
  destruct (nth_error ps i) as [p|] eqn:Ep; subst o.
  - assert (Hi : (i <? List.length ps)%nat = true).
    { apply Nat.ltb_lt. apply nth_error_Some. congruence. }
    rewrite Hi. cbn [bind].
    pose proof (nth_error_record ps i p Hp Ep) as Rp.
    rewrite (record_get g "item_name" Rg). cbn [bind].
    rewrite (record_get p "item_name" Rp). cbn [bind].
    rewrite (record_get p "hs_code" Rp). cbn [bind]. reflexivity.
  - assert (Hi : (i <? List.length ps)%nat = false).
    { apply Nat.ltb_ge. now apply nth_error_None. }
    rewrite Hi. reflexivity.
Qed.

Lemma hs_loop (gs ps : list json) (ms : spec_float) :
  forallb is_record gs = true ->
  forallb is_record ps = true ->
  foldM (Hscode.step (JList gs) (JList ps) (List.length ps) ms)
    (seq 0 (List.length gs)) Hscode.counters0
  = Ok (fold_left (hs_row ms) (align gs ps) Hscode.counters0).
Proof.
  intros Hg Hp. rewrite <- (align_length gs ps).
  apply foldM_rows. intros c i gp Hn. now apply hs_step_row.
Qed.

Lemma add_hits_none (hits : list (Z * Z)) :
  map (fun kh : Z * Z => (fst kh, snd kh + 0)) hits = hits.
Proof.
  induction hits as [|[k h] hits IH]; simpl; [reflexivity|].
  now rewrite IH, Z.add_0_r.
Qed.

Lemma hs_fold_fields (ms : spec_float) (rows : list (json * option json))
  (c : Hscode.counters) :
  fold_left (hs_row ms) rows c
  = {| Hscode.item_name_matches := Hscode.item_name_matches c + sumZ (map (name_hit ms) rows);
       Hscode.gt_valid_10 := Hscode.gt_valid_10 c + sumZ (map gt_10_hit rows);
       Hscode.gt_valid_6 := Hscode.gt_valid_6 c + sumZ (map gt_6_hit rows);
       Hscode.pr_valid_10 := Hscode.pr_valid_10 c + sumZ (map pr_10_hit rows);
       Hscode.pr_valid_6 := Hscode.pr_valid_6 c + sumZ (map pr_6_hit rows);
       Hscode.prefix_hits :=
         map (fun kh : Z * Z => (fst kh, snd kh + sumZ (map (prefix_hit (fst kh)) rows)))
           (Hscode.prefix_hits c) |}.
Proof.
  revert c. induction rows as [|[g o] rows IH]; intros c.
  - destruct c. simpl. rewrite !Z.add_0_r, add_hits_none. reflexivity.
  - cbn [fold_left]. rewrite IH. clear IH.
    unfold hs_row, name_hit, gt_10_hit, gt_6_hit, pr_10_hit, pr_6_hit, prefix_hit, hs_code_of.
    destruct o as [p|]; cbn [fst snd map sumZ Hscode.item_name_matches Hscode.gt_valid_10
      Hscode.gt_valid_6 Hscode.pr_valid_10 Hscode.pr_valid_6 Hscode.prefix_hits].
    + unfold Hscode.add_hits. rewrite map_map. cbn [fst snd].
      f_equal; try lia. apply map_ext. intros [k h]. cbn [fst snd]. f_equal. lia.
    + f_equal; lia.
Qed.

Lemma guarded_pct_value (c n : Z) : guarded_pct c n = Ok (pct_or_zero c n).
Proof.
  unfold guarded_pct, pct_or_zero, percent, int_truediv.
  destruct (n =? 0); reflexivity.
Qed.

Lemma mapM_pure (A C : Type) (f : A -> outcome C) (g : A -> C) (l : list A) :
  (forall x, In x l -> f x = Ok (g x)) -> mapM f l = Ok (map g l).
Proof.
  induction l as [|x l IH]; intros H; simpl; [reflexivity|].
  rewrite H by now left. simpl. rewrite IH by (intros y Hy; apply H; now right).
  reflexivity.
Qed.

Lemma dict_get_field (d : list (string * json)) (k : string) :
  py_get (JDict d) k JNull = Ok (field (JDict d) k).
Proof. unfold field, py_or. destruct d; reflexivity. Qed.

Lemma items_of_dict (d : list (string * json)) (l : json) :
  items_of (JDict d) = Ok l ->
  py_or match dict_get "items" d with
        | Some v => v
        | None => JList []
        end (JList []) = l.
Proof. unfold items_of. simpl. now intros [= <-]. Qed.

(** On two objects whose items are lists of records, [evaluate] returns
    this report. *)
Lemma hscode_evaluate_value (dg dp : list (string * json)) (gs ps : list json)
  (ms : spec_float) :
  items_of (JDict dg) = Ok (JList gs) ->
  items_of (JDict dp) = Ok (JList ps) ->
  forallb is_record gs = true ->
  forallb is_record ps = true ->
  let n := Z.of_nat (List.length gs) in
  let rows := align gs ps in
  Hscode.evaluate (JDict dg) (JDict dp) ms
  = Ok {| Hscode.n_items := n;
          Hscode.seller_name_match :=
            fmul (Z2SF (Hscode.compare_strings (field (JDict dg) "seller_name")
                          (field (JDict dp) "seller_name") ms)) f_hundred;
          Hscode.item_name_match_table := pct_or_zero (sumZ (map (name_hit ms) rows)) n;
          Hscode.y_10_match_table := pct_or_zero (sumZ (map gt_10_hit rows)) n;
          Hscode.y_6_match_table := pct_or_zero (sumZ (map gt_6_hit rows)) n;
          Hscode.pred_10_match_table := pct_or_zero (sumZ (map pr_10_hit rows)) n;
          Hscode.pred_6_match_table := pct_or_zero (sumZ (map pr_6_hit rows)) n;
          Hscode.accuracy_10 := pct_or_zero (sumZ (map (prefix_hit 10) rows)) n;
          Hscode.accuracy_6 := pct_or_zero (sumZ (map (prefix_hit 6) rows)) n;
          Hscode.metadata :=
            map (fun k => (k, pct_or_zero (sumZ (map (prefix_hit k) rows)) n))
              Hscode.prefix_lengths |}.
Proof.
  intros Eg Ep Rg Rp n rows.
  apply items_of_dict in Eg. apply items_of_dict in Ep.
  unfold Hscode.evaluate.
  change (py_get (JDict dg) "items" (JList []))
    with (Ok match dict_get "items" dg with Some v => v | None => JList [] end).
  change (py_get (JDict dp) "items" (JList []))
    with (Ok match dict_get "items" dp with Some v => v | None => JList [] end).
  cbn [bind]. rewrite Eg, Ep. cbn [py_len bind].
  rewrite !dict_get_field. cbn [bind].
  rewrite (hs_loop gs ps ms Rg Rp). cbn [bind].
  rewrite hs_fold_fields. fold rows.
  cbn [Hscode.item_name_matches Hscode.gt_valid_10 Hscode.gt_valid_6 Hscode.pr_valid_10
       Hscode.pr_valid_6 Hscode.prefix_hits Hscode.counters0].
  rewrite !guarded_pct_value. cbn [bind].
  rewrite (mapM_pure _ _ _ (fun kh : Z * Z => (fst kh, pct_or_zero (snd kh) n)))
    by (intros x _; rewrite guarded_pct_value; reflexivity).
  cbn [bind]. unfold Hscode.prefix_lengths. cbn [map fst snd Z.add].
  unfold Hscode.acc_at. cbn [find fst snd Z.eqb Pos.eqb]. cbn [bind].
  reflexivity.
Qed.

End HscodeLoop.

(** ** The invoice evaluator (benchmark_invoice.py) *)

Section InvoiceLoop.
Context {B : PyBuiltins}.

Lemma compare_numbers_value (y pred : json) :
  Invoice.compare_numbers y pred Invoice.default_tolerance = Ok (number_match y pred).
Proof.
  unfold number_match.
  destruct (compare_numbers_bit y pred Invoice.default_tolerance) as [E|E]; now rewrite E.
Qed.

Lemma number_match_bit (y pred : json) : number_match y pred = 0 \/ number_match y pred = 1.
Proof.
  unfold number_match.
  destruct (compare_numbers_bit y pred Invoice.default_tolerance) as [E|E]; rewrite E; auto.
Qed.

Lemma invoice_compare_strings_bit (y pred : json) (t : spec_float) :
  Invoice.compare_strings y pred t = 0 \/ Invoice.compare_strings y pred t = 1.
Proof.
  unfold Invoice.compare_strings.
  destruct (py_eq y pred); [now right|].
  destruct (_ || _); [now left|]. destruct (SFleb _ _); auto.
Qed.

Lemma combine_nth (A C : Type) (xs : list A) (ys : list C) (i : nat) (x : A) (y : C) :
  nth_error (combine xs ys) i = Some (x, y) ->
  nth_error xs i = Some x /\ nth_error ys i = Some y.
Proof.
  revert ys i. induction xs as [|a xs IH]; intros ys i; simpl.
  - destruct i; discriminate.
  - destruct ys as [|b ys]; [destruct i; discriminate|].
    destruct i as [|i]; simpl; [intros [= <- <-]; now split | apply IH].
Qed.

Lemma inv_step_row (ys ps : list json) (c : Invoice.item_counts) (i : nat)
  (yp : json * json) :
  forallb is_record ys = true ->
  forallb is_record ps = true ->
  nth_error (combine ys ps) i = Some yp ->
  Invoice.step (JList ys) (JList ps) c i = Ok (inv_row c yp).
Proof.
  intros Hy Hp Hn. destruct yp as [y p]. apply combine_nth in Hn. destruct Hn as [Ey Ep].
  pose proof (nth_error_record ys i y Hy Ey) as Ry.
  pose proof (nth_error_record ps i p Hp Ep) as Rp.
  unfold Invoice.step, inv_row, inv_text_hit, inv_number_hit.
  cbn [py_item fst snd]. rewrite Ey, Ep. cbn [bind].
  rewrite !(record_get y _ Ry), !(record_get p _ Rp). cbn [bind].
  rewrite !compare_numbers_value. cbn [bind]. reflexivity.
Qed.

Lemma inv_loop (ys ps : list json) :
  forallb is_record ys = true ->
  forallb is_record ps = true ->
  foldM (Invoice.step (JList ys) (JList ps))
    (seq 0 (Nat.min (List.length ys) (List.length ps)))
    {| Invoice.item_name := 0; Invoice.quantity := 0;
       Invoice.unit_price := 0; Invoice.total_price := 0 |}
  = Ok (fold_left inv_row (combine ys ps)
          {| Invoice.item_name := 0; Invoice.quantity := 0;
             Invoice.unit_price := 0; Invoice.total_price := 0 |}).
Proof.
  intros Hy Hp. rewrite <- length_combine.
  apply foldM_rows. intros c i yp Hn. now apply inv_step_row.
Qed.

Lemma inv_fold_fields (rows : list (json * json)) (c : Invoice.item_counts) :
  fold_left inv_row rows c
  = {| Invoice.item_name := Invoice.item_name c + sumZ (map (inv_text_hit "item_name") rows);
       Invoice.quantity := Invoice.quantity c + sumZ (map (inv_number_hit "quantity") rows);
       Invoice.unit_price :=
         Invoice.unit_price c + sumZ (map (inv_number_hit "unit_price") rows);
       Invoice.total_price :=
         Invoice.total_price c + sumZ (map (inv_number_hit "total_price") rows) |}.
Proof.
  revert c. induction rows as [|yp rows IH]; intros c.
  - destruct c. simpl. now rewrite !Z.add_0_r.
  - cbn [fold_left]. rewrite IH. unfold inv_row.
    cbn [map sumZ Invoice.item_name Invoice.quantity Invoice.unit_price Invoice.total_price].
    f_equal; lia.
Qed.

(** On two objects whose items are lists of records, [evaluate] returns
    this result. *)
Lemma invoice_evaluate_value (dy dp : list (string * json)) (ys ps : list json) :
  items_of (JDict dy) = Ok (JList ys) ->
  items_of (JDict dp) = Ok (JList ps) ->
  forallb is_record ys = true ->
  forallb is_record ps = true ->
  let n_y := Z.of_nat (List.length ys) in
  let n_p := Z.of_nat (List.length ps) in
  let rows := combine ys ps in
  Invoice.evaluate (JDict dy) (JDict dp)
  = Ok {| Invoice.seller_name :=
            Invoice.compare_strings (field (JDict dy) "seller_name")
              (field (JDict dp) "seller_name") Invoice.default_threshold;
          Invoice.sum_total_quantity :=
            number_match (field (JDict dy) "sum_total_quantity")
              (field (JDict dp) "sum_total_quantity");
          Invoice.sum_total_price :=
            number_match (field (JDict dy) "sum_total_price")
              (field (JDict dp) "sum_total_price");
          Invoice.currency :=
            Invoice.compare_strings (field (JDict dy) "currency")
              (field (JDict dp) "currency") Invoice.default_threshold;
          Invoice.n_items := n_y;
          Invoice.item_count_match :=
            if Nat.eqb (List.length ys) (List.length ps) then 1 else 0;
          Invoice.missing_items := Z.max 0 (n_y - n_p);
          Invoice.extra_items := Z.max 0 (n_p - n_y);
          Invoice.items :=
            {| Invoice.item_name := sumZ (map (inv_text_hit "item_name") rows);
               Invoice.quantity := sumZ (map (inv_number_hit "quantity") rows);
               Invoice.unit_price := sumZ (map (inv_number_hit "unit_price") rows);
               Invoice.total_price := sumZ (map (inv_number_hit "total_price") rows) |} |}.
Proof.
  intros Ey Ep Ry Rp n_y n_p rows.
  apply items_of_dict in Ey. apply items_of_dict in Ep.
  unfold Invoice.evaluate, Invoice.text_field, Invoice.number_field.
  change (py_get (JDict dy) "items" (JList []))
    with (Ok match dict_get "items" dy with Some v => v | None => JList [] end).
  change (py_get (JDict dp) "items" (JList []))
    with (Ok match dict_get "items" dp with Some v => v | None => JList [] end).
  cbn [bind]. rewrite Ey, Ep. cbn [py_len bind].
  rewrite (inv_loop ys ps Ry Rp). cbn [bind].
  rewrite !dict_get_field. cbn [bind].
  rewrite !compare_numbers_value. cbn [bind].
  rewrite inv_fold_fields.
  cbn [Invoice.item_name Invoice.quantity Invoice.unit_price Invoice.total_price Z.add].
  reflexivity.
Qed.

Lemma share_value (c n : Z) : n <> 0 -> Invoice.share c n = Ok (percent c n).
Proof.
  intros Hn. unfold Invoice.share, int_truediv, percent.
  destruct (Z.eqb_spec n 0); [contradiction | reflexivity].
Qed.

(** The percentages [main] derives from a result always exist: the
    denominator is [max(n_items, 1)]. *)
Lemma main_result_value (res : Invoice.result) :
  let n := Z.max (Invoice.n_items res) 1 in
  Invoice.main_result res
  = Ok {| Invoice.pct_seller_name := Z2SF (Invoice.seller_name res * 100);
          Invoice.pct_sum_total_quantity := Z2SF (Invoice.sum_total_quantity res * 100);
          Invoice.pct_sum_total_price := Z2SF (Invoice.sum_total_price res * 100);
          Invoice.pct_currency := Z2SF (Invoice.currency res * 100);
          Invoice.pct_item_count_match := Z2SF (Invoice.item_count_match res * 100);
          Invoice.pct_missing_items := percent (Invoice.missing_items res) n;
          Invoice.pct_extra_items := percent (Invoice.extra_items res) n;
          Invoice.pct_item_name := percent (Invoice.item_name (Invoice.items res)) n;
          Invoice.pct_quantity := percent (Invoice.quantity (Invoice.items res)) n;
          Invoice.pct_unit_price := percent (Invoice.unit_price (Invoice.items res)) n;
          Invoice.pct_total_price := percent (Invoice.total_price (Invoice.items res)) n |}.
Proof.
  intros n. unfold Invoice.main_result. fold n.
  rewrite !share_value by (unfold n; lia). reflexivity.
Qed.

End InvoiceLoop.

(** ** Counts of hits *)

Lemma sumZ_bits (A : Type) (f : A -> Z) (l : list A) :
  (forall x, In x l -> f x = 0 \/ f x = 1) ->
  0 <= sumZ (map f l) <= Z.of_nat (List.length l).
Proof.
  induction l as [|x l IH]; intros H; simpl sumZ; simpl List.length; [lia|].
  assert (Hx := H x (or_introl eq_refl)).
  assert (Hl : forall y, In y l -> f y = 0 \/ f y = 1) by (intros y Hy; apply H; now right).
  specialize (IH Hl). lia.
Qed.

Lemma sumZ_ones (A : Type) (f : A -> Z) (l : list A) :
  (forall x, In x l -> f x = 1) -> sumZ (map f l) = Z.of_nat (List.length l).
Proof.
  induction l as [|x l IH]; intros H; simpl sumZ; simpl List.length; [reflexivity|].
  rewrite (H x (or_introl eq_refl)), IH by (intros y Hy; apply H; now right). lia.
Qed.

Lemma sumZ_zeros (A : Type) (f : A -> Z) (l : list A) :
  (forall x, In x l -> f x = 0) -> sumZ (map f l) = 0.
Proof.
  induction l as [|x l IH]; intros H; simpl sumZ; [reflexivity|].
  rewrite (H x (or_introl eq_refl)), IH by (intros y Hy; apply H; now right). lia.
Qed.

Lemma sumZ_count (A : Type) (f : A -> bool) (l : list A) :
  sumZ (map (fun x => if f x then 1 else 0) l) = count f l.
Proof.
  unfold count. induction l as [|x l IH]; simpl sumZ; simpl filter; [reflexivity|].
  rewrite IH. destruct (f x); simpl List.length; lia.
Qed.

(** A hit that needs a predicted item is counted at most once per common
    position. *)
Lemma sumZ_align (f : json * option json -> Z) (gs ps : list json) :
  (forall g, f (g, None) = 0) ->
  (forall gp, f gp = 0 \/ f gp = 1) ->
  0 <= sumZ (map f (align gs ps))
    <= Z.min (Z.of_nat (List.length gs)) (Z.of_nat (List.length ps)).
Proof.
  intros Hnone Hbit. revert ps. induction gs as [|g gs IH]; intros ps.
  - simpl. lia.
  - destruct ps as [|p ps].
    + rewrite align_nil, map_map, sumZ_zeros by (intros x _; apply Hnone).
      simpl List.length. lia.
    + cbn [align map sumZ]. specialize (IH ps). destruct (Hbit (g, Some p)) as [E|E];
        rewrite E; simpl List.length; lia.
Qed.

Section Bits.
Context {B : PyBuiltins}.

Lemma hscode_compare_strings_bit (y pred : json) (t : spec_float) :
  Hscode.compare_strings y pred t = 0 \/ Hscode.compare_strings y pred t = 1.
Proof.
  unfold Hscode.compare_strings. destruct (option_text_eqb _ _); [now right|].
  destruct (Hscode.norm_text y); [|now left].
  destruct (Hscode.norm_text pred); [|now left].
  destruct (SFleb _ _); auto.
Qed.

Lemma b2z_bit (b : bool) : Hscode.b2z b = 0 \/ Hscode.b2z b = 1.
Proof. destruct b; auto. Qed.

Lemma name_hit_bit (ms : spec_float) (gp : json * option json) :
  name_hit ms gp = 0 \/ name_hit ms gp = 1.
Proof.
  unfold name_hit. destruct (snd gp); [apply hscode_compare_strings_bit | now left].
Qed.

Lemma prefix_hit_bit (k : Z) (gp : json * option json) :
  prefix_hit k gp = 0 \/ prefix_hit k gp = 1.
Proof. unfold prefix_hit. destruct (snd gp); [apply prefix_match_bit | now left]. Qed.

Lemma pr_10_hit_bit (gp : json * option json) : pr_10_hit gp = 0 \/ pr_10_hit gp = 1.
Proof. unfold pr_10_hit. destruct (snd gp); [apply b2z_bit | now left]. Qed.

Lemma pr_6_hit_bit (gp : json * option json) : pr_6_hit gp = 0 \/ pr_6_hit gp = 1.
Proof. unfold pr_6_hit. destruct (snd gp); [apply b2z_bit | now left]. Qed.

Lemma inv_text_hit_bit (k : string) (yp : json * json) :
  inv_text_hit k yp = 0 \/ inv_text_hit k yp = 1.
Proof. apply invoice_compare_strings_bit. Qed.

Lemma inv_number_hit_bit (k : string) (yp : json * json) :
  inv_number_hit k yp = 0 \/ inv_number_hit k yp = 1.
Proof. apply number_match_bit. Qed.

Lemma inv_sum_bound (f : json * json -> Z) (ys ps : list json) :
  (forall yp, f yp = 0 \/ f yp = 1) ->
  0 <= sumZ (map f (combine ys ps))
    <= Z.min (Z.of_nat (List.length ys)) (Z.of_nat (List.length ps)).
Proof.
  intros Hbit.
  pose proof (sumZ_bits _ f (combine ys ps) (fun x _ => Hbit x)) as H.
  rewrite length_combine in H. lia.
Qed.

End Bits.

Ltac conj_step tac :=
  lazymatch goal with
  | |- _ /\ _ => split; [tac|]
  end.

(** C6.  On two documents whose items are lists of records, the invoice
    evaluator returns [missing_items = max(0, n_gt - n_pred)] and
    [extra_items = max(0, n_pred - n_gt)], counts its four per-item hits over
    the common positions only, and [main] divides them by
    [max(n_gt, 1)]; the commodity-code evaluator divides every per-item
    count by [n_gt] (0% when it is 0).  With 3 ground-truth and 5 predicted
    items: [missing_items = 0], [extra_items = 2], every count is at most 3
    and every denominator is 3. *)
Theorem item_count_is_the_denominator {B : PyBuiltins}
  (dy dp : list (string * json)) (ys ps : list json) (ms : spec_float) :
  items_of (JDict dy) = Ok (JList ys) ->
  items_of (JDict dp) = Ok (JList ps) ->
  forallb is_record ys = true ->
  forallb is_record ps = true ->
  let n_y := Z.of_nat (List.length ys) in
  let n_p := Z.of_nat (List.length ps) in
  (exists res pcts,
      Invoice.evaluate (JDict dy) (JDict dp) = Ok res
      /\ Invoice.main_result res = Ok pcts
      /\ Invoice.n_items res = n_y
      /\ Invoice.missing_items res = Z.max 0 (n_y - n_p)
      /\ Invoice.extra_items res = Z.max 0 (n_p - n_y)
      /\ 0 <= Invoice.item_name (Invoice.items res) <= Z.min n_y n_p
      /\ 0 <= Invoice.quantity (Invoice.items res) <= Z.min n_y n_p
      /\ 0 <= Invoice.unit_price (Invoice.items res) <= Z.min n_y n_p
      /\ 0 <= Invoice.total_price (Invoice.items res) <= Z.min n_y n_p
      /\ Invoice.pct_item_name pcts
         = percent (Invoice.item_name (Invoice.items res)) (Z.max n_y 1)
      /\ Invoice.pct_quantity pcts
         = percent (Invoice.quantity (Invoice.items res)) (Z.max n_y 1)
      /\ Invoice.pct_unit_price pcts
         = percent (Invoice.unit_price (Invoice.items res)) (Z.max n_y 1)
      /\ Invoice.pct_total_price pcts
         = percent (Invoice.total_price (Invoice.items res)) (Z.max n_y 1)
      /\ Invoice.pct_missing_items pcts = percent (Z.max 0 (n_y - n_p)) (Z.max n_y 1)
      /\ Invoice.pct_extra_items pcts = percent (Z.max 0 (n_p - n_y)) (Z.max n_y 1)
      /\ (n_y = 3 -> n_p = 5 ->
          Invoice.missing_items res = 0 /\ Invoice.extra_items res = 2
          /\ Invoice.item_name (Invoice.items res) <= 3
          /\ Invoice.pct_item_name pcts = percent (Invoice.item_name (Invoice.items res)) 3
          /\ Invoice.pct_quantity pcts = percent (Invoice.quantity (Invoice.items res)) 3
          /\ Invoice.pct_unit_price pcts = percent (Invoice.unit_price (Invoice.items res)) 3
          /\ Invoice.pct_total_price pcts
             = percent (Invoice.total_price (Invoice.items res)) 3))
  /\ (exists r (names v10 v6 p10 p6 : Z) (hits : Z -> Z),
        Hscode.evaluate (JDict dy) (JDict dp) ms = Ok r
        /\ Hscode.n_items r = n_y
        /\ Hscode.item_name_match_table r = pct_or_zero names n_y
        /\ Hscode.y_10_match_table r = pct_or_zero v10 n_y
        /\ Hscode.y_6_match_table r = pct_or_zero v6 n_y
        /\ Hscode.pred_10_match_table r = pct_or_zero p10 n_y
        /\ Hscode.pred_6_match_table r = pct_or_zero p6 n_y
        /\ Hscode.accuracy_10 r = pct_or_zero (hits 10) n_y
        /\ Hscode.accuracy_6 r = pct_or_zero (hits 6) n_y
        /\ Hscode.metadata r = map (fun k => (k, pct_or_zero (hits k) n_y)) Hscode.prefix_lengths
        /\ 0 <= names <= Z.min n_y n_p
        /\ 0 <= v10 <= n_y /\ 0 <= v6 <= n_y
        /\ 0 <= p10 <= Z.min n_y n_p /\ 0 <= p6 <= Z.min n_y n_p
        /\ (forall k, 0 <= hits k <= Z.min n_y n_p)
        /\ (n_y = 3 -> n_p = 5 ->
            Hscode.item_name_match_table r = percent names 3
            /\ Hscode.accuracy_10 r = percent (hits 10) 3
            /\ Hscode.accuracy_6 r = percent (hits 6) 3
            /\ Hscode.pred_10_match_table r = percent p10 3
            /\ names <= 3 /\ hits 10 <= 3)).
Proof.
  intros Ey Ep Ry Rp n_y n_p. split.
  - eexists. eexists.
    split; [apply (invoice_evaluate_value dy dp ys ps Ey Ep Ry Rp)|].
    split; [apply main_result_value|].
    cbn [Invoice.n_items Invoice.missing_items Invoice.extra_items Invoice.items
         Invoice.item_name Invoice.quantity Invoice.unit_price Invoice.total_price
         Invoice.pct_item_name Invoice.pct_quantity Invoice.pct_unit_price
         Invoice.pct_total_price Invoice.pct_missing_items Invoice.pct_extra_items].
    fold n_y n_p.
    pose proof (inv_sum_bound (inv_text_hit "item_name") ys ps (inv_text_hit_bit _)) as H1.
    pose proof (inv_sum_bound (inv_number_hit "quantity") ys ps (inv_number_hit_bit _)) as H2.
    pose proof (inv_sum_bound (inv_number_hit "unit_price") ys ps (inv_number_hit_bit _)) as H3.
    pose proof (inv_sum_bound (inv_number_hit "total_price") ys ps (inv_number_hit_bit _)) as H4.
    fold n_y n_p in H1, H2, H3, H4.
    repeat conj_step ltac:(first [reflexivity | lia]).
    intros E3 E5. rewrite E3, E5 in *. change (Z.max 3 1) with 3.
    repeat split; first [reflexivity | lia].
  - exists (Hscode.Build_report n_y
              (fmul (Z2SF (Hscode.compare_strings (field (JDict dy) "seller_name")
                             (field (JDict dp) "seller_name") ms)) f_hundred)
              (pct_or_zero (sumZ (map (name_hit ms) (align ys ps))) n_y)
              (pct_or_zero (sumZ (map gt_10_hit (align ys ps))) n_y)
              (pct_or_zero (sumZ (map gt_6_hit (align ys ps))) n_y)
              (pct_or_zero (sumZ (map pr_10_hit (align ys ps))) n_y)
              (pct_or_zero (sumZ (map pr_6_hit (align ys ps))) n_y)
              (pct_or_zero (sumZ (map (prefix_hit 10) (align ys ps))) n_y)
              (pct_or_zero (sumZ (map (prefix_hit 6) (align ys ps))) n_y)
              (map (fun k => (k, pct_or_zero (sumZ (map (prefix_hit k) (align ys ps))) n_y))
                 Hscode.prefix_lengths)).
    exists (sumZ (map (name_hit ms) (align ys ps))),
           (sumZ (map gt_10_hit (align ys ps))), (sumZ (map gt_6_hit (align ys ps))),
           (sumZ (map pr_10_hit (align ys ps))), (sumZ (map pr_6_hit (align ys ps))),
           (fun k => sumZ (map (prefix_hit k) (align ys ps))).
    split; [apply (hscode_evaluate_value dy dp ys ps ms Ey Ep Ry Rp)|].
    cbn [Hscode.n_items Hscode.item_name_match_table Hscode.y_10_match_table
         Hscode.y_6_match_table Hscode.pred_10_match_table Hscode.pred_6_match_table
         Hscode.accuracy_10 Hscode.accuracy_6 Hscode.metadata].
    pose proof (sumZ_align (name_hit ms) ys ps (fun _ => eq_refl) (name_hit_bit ms)) as H1.
    pose proof (sumZ_align pr_10_hit ys ps (fun _ => eq_refl) pr_10_hit_bit) as H2.
    pose proof (sumZ_align pr_6_hit ys ps (fun _ => eq_refl) pr_6_hit_bit) as H3.
    pose proof (sumZ_bits _ gt_10_hit (align ys ps) (fun x _ => b2z_bit _)) as H4.
    pose proof (sumZ_bits _ gt_6_hit (align ys ps) (fun x _ => b2z_bit _)) as H5.
    rewrite align_length in H4, H5.
    assert (H6 : forall k, 0 <= sumZ (map (prefix_hit k) (align ys ps)) <= Z.min n_y n_p).
    { intros k. apply (sumZ_align (prefix_hit k) ys ps (fun _ => eq_refl) (prefix_hit_bit k)). }
    fold n_y n_p in H1, H2, H3, H4, H5.
    repeat conj_step ltac:(first [reflexivity | lia | exact H6]).
    intros E3 E5. pose proof (H6 10) as H7. rewrite E3, E5 in *.
    unfold pct_or_zero. change (3 =? 0) with false. cbv iota.
    repeat split; first [reflexivity | lia].
Qed.

Lemma item_count_is_the_denominator_witness :
  exists res r,
    Invoice.evaluate (B := CPython.builtins) (JDict sample_gt) (JDict sample_pred) = Ok res
    /\ Hscode.evaluate (B := CPython.builtins) (JDict sample_gt) (JDict sample_pred)
         (dec64 85 100) = Ok r
    /\ Invoice.missing_items res = 0
    /\ Invoice.extra_items res = 2
    /\ Invoice.n_items res = 3
    /\ Hscode.n_items r = 3.
Proof.
  destruct (item_count_is_the_denominator (B := CPython.builtins)
              sample_gt sample_pred sample_three sample_five (dec64 85 100)
              eq_refl eq_refl eq_refl eq_refl)
    as [(res & pcts & Hres & _ & Hn & _ & _ & _ & _ & _ & _ & _ & _ & _ & _ & _ & _ & H35)
        (r & names & v10 & v6 & p10 & p6 & hits & Hr & Hrn & _)].
  destruct (H35 eq_refl eq_refl) as (Hm & He & _).
  exists res, r. repeat split; assumption.
Defined.

(** ** No division by zero *)

Lemma bind_no_zde (A C : Type) (c : outcome A) (k : A -> outcome C) :
  raises_zde c = false ->
  (forall a, c = Ok a -> raises_zde (k a) = false) ->
  raises_zde (bind c k) = false.
Proof. intros Hc Hk. destruct c as [a|e]; simpl; [now apply Hk | exact Hc]. Qed.

Lemma foldM_no_zde (A St : Type) (f : St -> A -> outcome St) (xs : list A) (s : St) :
  (forall s' x, raises_zde (f s' x) = false) -> raises_zde (foldM f xs s) = false.
Proof.
  intros Hf. revert s. induction xs as [|x xs IH]; intros s; simpl; [reflexivity|].
  apply bind_no_zde; [apply Hf | intros; apply IH].
Qed.

Lemma mapM_no_zde (A C : Type) (f : A -> outcome C) (xs : list A) :
  (forall x, In x xs -> raises_zde (f x) = false) -> raises_zde (mapM f xs) = false.
Proof.
  induction xs as [|x xs IH]; intros Hf; simpl; [reflexivity|].
  apply bind_no_zde; [apply Hf; now left|]. intros y _.
  apply bind_no_zde; [apply IH; intros z Hz; apply Hf; now right | reflexivity].
Qed.

Lemma foldM_invariant (A St : Type) (P : St -> Prop) (f : St -> A -> outcome St)
  (xs : list A) (s0 s : St) :
  P s0 ->
  (forall s1 x s2, In x xs -> P s1 -> f s1 x = Ok s2 -> P s2) ->
  foldM f xs s0 = Ok s -> P s.
Proof.
  revert s0. induction xs as [|x xs IH]; intros s0 H0 Hstep; simpl.
  - now intros [= <-].
  - intros H. inv_bind H. apply (IH v); auto.
    + apply (Hstep s0 x v); auto. now left.
    + intros s1 y s2 Hy. apply Hstep. now right.
Qed.

Lemma py_get_no_zde (x : json) (k : string) (dflt : json) :
  raises_zde (py_get x k dflt) = false.
Proof. destruct x; reflexivity. Qed.

Lemma py_len_no_zde (x : json) : raises_zde (py_len x) = false.
Proof. destruct x; reflexivity. Qed.

Lemma py_item_no_zde (x : json) (i : nat) : raises_zde (py_item x i) = false.
Proof.
  destruct x; simpl; try reflexivity.
  - now destruct (nth_error (chars s) i).
  - now destruct (nth_error l i).
Qed.

Lemma py_iter_no_zde (x : json) : raises_zde (py_iter x) = false.
Proof. destruct x; reflexivity. Qed.

Lemma guarded_pct_no_zde (c n : Z) : raises_zde (guarded_pct c n) = false.
Proof. now rewrite guarded_pct_value. Qed.

Lemma acc_at_no_zde (acc : list (Z * spec_float)) (k : Z) :
  raises_zde (Hscode.acc_at acc k) = false.
Proof. unfold Hscode.acc_at. now destruct (find _ acc). Qed.

Lemma lookup_no_zde (V : Type) (d : list (string * V)) (k : string) :
  raises_zde (Classification.lookup d k) = false.
Proof. unfold Classification.lookup. now destruct (dict_get k d). Qed.

Create HintDb zde.
#[local] Hint Resolve py_get_no_zde py_len_no_zde py_item_no_zde py_iter_no_zde
  guarded_pct_no_zde acc_at_no_zde lookup_no_zde : zde.

Ltac no_zde :=
  repeat first
    [ reflexivity
    | solve [auto with zde]
    | apply bind_no_zde; [|intros ? _]
    | match goal with
      | |- context [if ?b then _ else _] => destruct b
      | |- context [let '(_, _) := ?p in _] => destruct p
      end ].

Section NoDivisionByZero.
Context {B : PyBuiltins}.

Lemma hscode_step_no_zde (gt_items pr_items : json) (n_pr : nat) (ms : spec_float)
  (c : Hscode.counters) (i : nat) :
  raises_zde (Hscode.step gt_items pr_items n_pr ms c i) = false.
Proof. unfold Hscode.step. no_zde. Qed.

Lemma hscode_evaluate_no_zde (gt pred : json) (ms : spec_float) :
  raises_zde (Hscode.evaluate gt pred ms) = false.
Proof.
  unfold Hscode.evaluate.
  repeat (apply bind_no_zde; [solve [auto with zde] | intros ? _]).
  apply bind_no_zde; [apply foldM_no_zde; intros; apply hscode_step_no_zde | intros ? _].
  repeat (apply bind_no_zde; [solve [auto with zde] | intros ? _]).
  apply bind_no_zde.
  { apply mapM_no_zde. intros x _. no_zde. }
  intros ? _. no_zde.
Qed.

Lemma add_file_no_zde (result : list (string * string)) (f : json) :
  raises_zde (Classification.add_file result f) = false.
Proof. unfold Classification.add_file. no_zde. Qed.

Lemma build_path_map_no_zde (obj : json) :
  raises_zde (Classification.build_path_map obj) = false.
Proof.
  unfold Classification.build_path_map.
  repeat (apply bind_no_zde; [solve [auto with zde] | intros ? _]).
  apply foldM_no_zde. intros. apply add_file_no_zde.
Qed.

Lemma score_path_no_zde (gt_map pred_map : list (string * string))
  (st : Z * list (string * Classification.tally)) (path : string) :
  raises_zde (Classification.score_path gt_map pred_map st path) = false.
Proof. unfold Classification.score_path. destruct st. no_zde. Qed.

Lemma lookup_ok (V : Type) (d : list (string * V)) (k : string) (v : V) :
  Classification.lookup d k = Ok v -> dict_get k d = Some v.
Proof. unfold Classification.lookup. destruct (dict_get k d); now intros [= <-]. Qed.

Lemma score_path_tallies (gt_map pred_map : list (string * string))
  (s1 s2 : Z * list (string * Classification.tally)) (path : string) :
  tallies_ok s1 ->
  Classification.score_path gt_map pred_map s1 path = Ok s2 ->
  tallies_ok s2.
Proof.
  intros [ND Ht] H. destruct s1 as [nc stats]. simpl in ND, Ht.
  unfold Classification.score_path in H.
  inv_bind H. inv_bind H. inv_bind H. inv_bind H. injection H as <-.
  apply lookup_ok in E1, E2.
  set (stats0 := if dict_mem v stats then stats
                 else dict_set v {| Classification.total := 0; Classification.correct := 0 |}
                        stats) in *.
  assert (ND0 : NoDup (dict_keys stats0)).
  { unfold stats0. destruct (dict_mem v stats); [exact ND | now apply dict_set_NoDup]. }
  assert (H1 : 0 <= Classification.total v1).
  { unfold stats0 in E1. unfold dict_mem in E1.
    destruct (dict_get v stats) as [t|] eqn:Et.
    - rewrite Et in E1. injection E1 as <-. specialize (Ht v t Et). lia.
    - rewrite dict_get_set_same in E1. injection E1 as <-. simpl. lia. }
  rewrite dict_get_set_same in E2. injection E2 as <-.
  split; simpl.
  - now apply dict_set_NoDup, dict_set_NoDup.
  - intros k t. rewrite !dict_get_set.
    destruct (String.eqb_spec v k) as [->|N].
    + intros [= <-]. simpl. lia.
    + intros Hk. apply (Ht k t). unfold stats0 in Hk.
      destruct (dict_mem v stats); [exact Hk|].
      rewrite dict_get_set_other in Hk by congruence. exact Hk.
Qed.

Lemma in_dict_get (V : Type) (d : list (string * V)) (k : string) (v : V) :
  NoDup (dict_keys d) -> In (k, v) d -> dict_get k d = Some v.
Proof.
  induction d as [|[k' v'] d IH]; simpl; intros ND I; [contradiction|].
  inversion ND as [|x l Hx Hl]; subst.
  destruct I as [[= -> ->]|I].
  - now rewrite String.eqb_refl.
  - destruct (String.eqb_spec k k') as [->|N]; [|now apply IH].
    exfalso. apply Hx. change k' with (fst (k', v)). now apply in_map.
Qed.

Lemma classification_evaluate_no_zde (gt pred : json) :
  raises_zde (Classification.evaluate gt pred) = false.
Proof.
  unfold Classification.evaluate.
  apply bind_no_zde; [apply build_path_map_no_zde | intros gt_map _].
  apply bind_no_zde; [apply build_path_map_no_zde | intros pred_map _].
  apply bind_no_zde; [apply foldM_no_zde; intros; apply score_path_no_zde|].
  intros st Hst.
  assert (Hok : tallies_ok st).
  { apply (foldM_invariant _ _ tallies_ok _ _ _ _) with (3 := Hst).
    - split; [constructor | discriminate].
    - intros s1 x s2 _. apply score_path_tallies. }
  destruct st as [nc stats]. destruct Hok as [ND Ht]. simpl in ND, Ht.
  apply bind_no_zde; [auto with zde | intros acc _].
  apply bind_no_zde; [|reflexivity].
  apply mapM_no_zde. intros [k v] Hin. simpl.
  pose proof (Ht k v (in_dict_get _ _ _ _ ND Hin)) as Hv.
  unfold int_truediv. destruct (Z.eqb_spec (Classification.total v) 0); [lia | reflexivity].
Qed.

End NoDivisionByZero.

(** ** Empty ground truth *)

Section EmptyGroundTruth.
Context {B : PyBuiltins}.

Lemma hscode_evaluate_empty (dg dp : list (string * json)) (pi : json) (n_pr : nat)
  (ms : spec_float) :
  items_of (JDict dg) = Ok (JList []) ->
  items_of (JDict dp) = Ok pi ->
  py_len pi = Ok n_pr ->
  Hscode.evaluate (JDict dg) (JDict dp) ms
  = Ok {| Hscode.n_items := 0;
          Hscode.seller_name_match :=
            fmul (Z2SF (Hscode.compare_strings (field (JDict dg) "seller_name")
                          (field (JDict dp) "seller_name") ms)) f_hundred;
          Hscode.item_name_match_table := f_zero;
          Hscode.y_10_match_table := f_zero;
          Hscode.y_6_match_table := f_zero;
          Hscode.pred_10_match_table := f_zero;
          Hscode.pred_6_match_table := f_zero;
          Hscode.accuracy_10 := f_zero;
          Hscode.accuracy_6 := f_zero;
          Hscode.metadata := map (fun k => (k, f_zero)) Hscode.prefix_lengths |}.
Proof.
  intros Eg Ep Hlen.
  apply items_of_dict in Eg. apply items_of_dict in Ep.
  unfold Hscode.evaluate.
  change (py_get (JDict dg) "items" (JList []))
    with (Ok match dict_get "items" dg with Some v => v | None => JList [] end).
  change (py_get (JDict dp) "items" (JList []))
    with (Ok match dict_get "items" dp with Some v => v | None => JList [] end).
  cbn [bind]. rewrite Eg, Ep, Hlen. cbn [py_len bind List.length].
  rewrite !dict_get_field. cbn [bind]. reflexivity.
Qed.

Lemma classification_evaluate_empty (gt pred : json) (pred_map : list (string * string)) :
  Classification.build_path_map gt = Ok [] ->
  Classification.build_path_map pred = Ok pred_map ->
  Classification.evaluate gt pred
  = Ok {| Classification.n_items := 0;
          Classification.accuracy := f_zero;
          Classification.n_correct := 0;
          Classification.missing_items := 0;
          Classification.extra_items := Z.of_nat (List.length pred_map);
          Classification.per_type := [] |}.
Proof.
  intros Eg Ep. unfold Classification.evaluate. rewrite Eg, Ep. cbn [bind].
  cbn [dict_keys map Classification.inter Classification.diff filter foldM bind
       List.length Z.of_nat guarded_pct Z.eqb mapM].
  do 2 f_equal. unfold Classification.diff, dict_keys.
  rewrite forallb_filter_id by (apply forallb_forall; reflexivity).
  now rewrite length_map.
Qed.

End EmptyGroundTruth.

(** C7.  A percentage is [count / total * 100] when the total is not zero
    and 0 otherwise; neither the commodity-code nor the classification
    evaluator ever ends in [ZeroDivisionError]; and on an empty ground-truth
    item list (an empty path map) they return a report whose per-item
    percentages are all 0. *)
Theorem empty_ground_truth_scores_zero {B : PyBuiltins}
  (gt pred : json) (ms : spec_float) (c n : Z) :
  guarded_pct c n = Ok (if n =? 0 then f_zero else percent c n)
  /\ guarded_pct c 0 = Ok f_zero
  /\ raises_zde (Hscode.evaluate gt pred ms) = false
  /\ raises_zde (Classification.evaluate gt pred) = false
  /\ (forall dg dp pi n_pr,
        gt = JDict dg -> pred = JDict dp ->
        items_of gt = Ok (JList []) ->
        items_of pred = Ok pi ->
        py_len pi = Ok n_pr ->
        exists r,
          Hscode.evaluate gt pred ms = Ok r
          /\ Hscode.n_items r = 0
          /\ Hscode.item_name_match_table r = f_zero
          /\ Hscode.y_10_match_table r = f_zero
          /\ Hscode.y_6_match_table r = f_zero
          /\ Hscode.pred_10_match_table r = f_zero
          /\ Hscode.pred_6_match_table r = f_zero
          /\ Hscode.accuracy_10 r = f_zero
          /\ Hscode.accuracy_6 r = f_zero
          /\ Hscode.metadata r = map (fun k => (k, f_zero)) Hscode.prefix_lengths)
  /\ (forall pred_map,
        Classification.build_path_map gt = Ok [] ->
        Classification.build_path_map pred = Ok pred_map ->
        exists r,
          Classification.evaluate gt pred = Ok r
          /\ Classification.n_items r = 0
          /\ Classification.accuracy r = f_zero
          /\ Classification.per_type r = []).
Proof.
  split; [apply guarded_pct_value|].
  split; [reflexivity|].
  split; [apply hscode_evaluate_no_zde|].
  split; [apply classification_evaluate_no_zde|].
  split.
  - intros dg dp pi n_pr -> -> Eg Ep Hlen.
    eexists. split; [apply (hscode_evaluate_empty dg dp pi n_pr ms Eg Ep Hlen)|].
    repeat split.
  - intros pm Eg Ep.
    eexists. split; [apply (classification_evaluate_empty gt pred pm Eg Ep)|].
    repeat split.
Qed.

Lemma empty_ground_truth_scores_zero_witness :
  (exists r,
      Hscode.evaluate (B := CPython.builtins)
        (JDict [("seller_name", JStr "ACME Ltd"); ("items", JList [])])
        (JDict sample_pred) (dec64 85 100) = Ok r
      /\ Hscode.accuracy_10 r = f_zero
      /\ Hscode.item_name_match_table r = f_zero)
  /\ (exists r,
        Classification.evaluate (B := CPython.builtins)
          (JDict [("files", JList [])]) scenario_pred = Ok r
        /\ Classification.accuracy r = f_zero).
Proof.
  pose proof (empty_ground_truth_scores_zero (B := CPython.builtins)
                (JDict [("seller_name", JStr "ACME Ltd"); ("items", JList [])])
                (JDict sample_pred) (dec64 85 100) 0 0) as (_ & _ & _ & _ & Hh & _).
  pose proof (empty_ground_truth_scores_zero (B := CPython.builtins)
                (JDict [("files", JList [])]) scenario_pred (dec64 85 100) 0 0)
    as (_ & _ & _ & _ & _ & Hc).
  split.
  - destruct (Hh _ _ (JList sample_five) 5%nat eq_refl eq_refl eq_refl eq_refl eq_refl)
      as (r & Hr & _ & Hn & _ & _ & _ & _ & H10 & _).
    exists r. repeat split; assumption.
  - destruct (Hc [("a.pdf", "invoice"); ("c.pdf", "receipt")] eq_refl eq_refl)
      as (r & Hr & _ & Ha & _).
    exists r. split; assumption.
Defined.

(** ** A value equals itself *)

Lemma json_nested_ind (P : json -> Prop) :
  P JNull ->
  (forall b, P (JBool b)) ->
  (forall n, P (JInt n)) ->
  (forall f, P (JFloat f)) ->
  (forall s, P (JStr s)) ->
  (forall l, Forall P l -> P (JList l)) ->
  (forall d, Forall (fun kv : string * json => P (snd kv)) d -> P (JDict d)) ->
  forall x, P x.
Proof.
  intros HN HB HI HF HS HL HD.
  fix IH 1. intros [ | b | n | f | s | l | d ].
  - exact HN.
  - apply HB.
  - apply HI.
  - apply HF.
  - apply HS.
  - apply HL. revert l. fix IHl 1. intros [|x l]; constructor; [apply IH | apply IHl].
  - apply HD. revert d. fix IHd 1. intros [|kv d]; constructor; [apply IH | apply IHd].
Qed.

Lemma SFeqb_refl (f : spec_float) : is_nan f = false -> SFeqb f f = true.
Proof.
  unfold SFeqb. destruct f as [s|s| |s m e]; simpl; try discriminate; intros _.
  - reflexivity.
  - now destruct s.
  - destruct s; rewrite Z.compare_refl, Pos.compare_cont_refl; reflexivity.
Qed.

Lemma distinct_NoDup (l : list string) : distinct l = true -> NoDup l.
Proof.
  induction l as [|x l IH]; simpl; intros H; [constructor|].
  apply andb_true_iff in H. destruct H as [Hx Hl].
  constructor; [|now apply IH].
  intros I. apply negb_true_iff in Hx.
  assert (existsb (String.eqb x) l = true); [|congruence].
  apply existsb_exists. exists x. split; [exact I | apply String.eqb_refl].
Qed.

Lemma plain_dict (d : list (string * json)) :
  plain (JDict d) = true ->
  NoDup (dict_keys d) /\ forall k v, In (k, v) d -> plain v = true.
Proof.
  simpl. intros H. apply andb_true_iff in H. destruct H as [Hk Hv].
  split; [now apply distinct_NoDup|].
  clear Hk. induction d as [|kv d IH]; intros k v I; [contradiction|].
  apply andb_true_iff in Hv. destruct Hv as [H1 H2].
  destruct I as [->|I]; [exact H1 | now apply (IH H2 k v)].
Qed.

Lemma dict_get_in (V : Type) (d : list (string * V)) (k : string) (v : V) :
  dict_get k d = Some v -> In (k, v) d.
Proof.
  induction d as [|[k' v'] d IH]; simpl; [discriminate|].
  destruct (String.eqb_spec k k') as [->|N]; [intros [= ->]; now left | right; now apply IH].
Qed.

Lemma plain_dict_get (d : list (string * json)) (k : string) (v : json) :
  plain (JDict d) = true -> dict_get k d = Some v -> plain v = true.
Proof.
  intros H E. apply plain_dict in H. destruct H as [_ H].
  apply (H k v). now apply dict_get_in.
Qed.

Lemma plain_list_in (l : list json) (x : json) :
  plain (JList l) = true -> In x l -> plain x = true.
Proof. simpl. intros H I. rewrite forallb_forall in H. now apply H. Qed.

Lemma py_eq_dict_self (d d' : list (string * json)) :
  (forall k u, In (k, u) d' -> dict_get k d = Some u /\ py_eq u u = true) ->
  (fix all (a : list (string * json)) {struct a} : bool :=
     match a with
     | [] => true
     | (k, u) :: a' =>
         match dict_get k d with
         | Some v => py_eq u v
         | None => false
         end && all a'
     end) d' = true.
Proof.
  induction d' as [|[k u] d' IH]; intros H; [reflexivity|].
  destruct (H k u (or_introl eq_refl)) as [E R]. rewrite E, R. simpl.
  apply IH. intros k' u' I. apply H. now right.
Qed.

(** Python's [==] is reflexive on plain documents. *)
Lemma py_eq_refl (x : json) : plain x = true -> py_eq x x = true.
Proof.
  induction x as [ | b | n | f | s | l IH | d IH ] using json_nested_ind; intros Hp.
  - reflexivity.
  - simpl. now destruct b.
  - simpl. apply Z.eqb_refl.
  - simpl. apply SFeqb_refl. simpl in Hp. now apply negb_true_iff in Hp.
  - simpl. apply String.eqb_refl.
  - simpl in Hp. simpl. induction l as [|x l IHl]; [reflexivity|].
    simpl in Hp. apply andb_true_iff in Hp. destruct Hp as [Hx Hl].
    inversion IH as [|y l' Py Pl]; subst.
    rewrite (Py Hx). simpl. now apply IHl.
  - pose proof (plain_dict d Hp) as [ND Hv].
    cbn [py_eq]. rewrite Nat.eqb_refl. cbn [andb].
    apply py_eq_dict_self. intros k u I. split.
    + now apply in_dict_get.
    + rewrite Forall_forall in IH. apply (IH (k, u) I). now apply (Hv k u).
Qed.

(** ** A document against itself *)

Lemma percent_same (n : Z) : n <> 0 -> percent n n = f_hundred.
Proof. intros Hn. unfold percent. now rewrite fdiv_exactZ_same. Qed.

Lemma pct_or_zero_same (n : Z) : pct_or_zero n n = full_or_zero n.
Proof.
  unfold pct_or_zero, full_or_zero. destruct (Z.eqb_spec n 0); [reflexivity|].
  now apply percent_same.
Qed.

Lemma plain_or (x y : json) : plain x = true -> plain y = true -> plain (py_or x y) = true.
Proof. intros Hx Hy. unfold py_or. now destruct (truthy x). Qed.

Lemma plain_field (x : json) (k : string) : plain x = true -> plain (field x k) = true.
Proof.
  intros Hx. unfold field.
  pose proof (plain_or x (JDict []) Hx eq_refl) as Ho.
  destruct (py_or x (JDict [])) as [ | | | | | |d]; try reflexivity.
  destruct (dict_get k d) as [v|] eqn:E; [|reflexivity].
  now apply (plain_dict_get d k v).
Qed.

Lemma plain_items (d : list (string * json)) (its : list json) (x : json) :
  plain (JDict d) = true -> items_of (JDict d) = Ok (JList its) -> In x its ->
  plain x = true.
Proof.
  intros Hp E I. apply items_of_dict in E.
  apply (plain_list_in its x); [|exact I]. rewrite <- E.
  apply plain_or; [|reflexivity].
  destruct (dict_get "items" d) as [v|] eqn:Ev; [|reflexivity].
  now apply (plain_dict_get d "items" v).
Qed.

Lemma combine_self (A : Type) (l : list A) : combine l l = map (fun x => (x, x)) l.
Proof. induction l as [|x l IH]; simpl; [reflexivity | now rewrite IH]. Qed.

Section SelfMatch.
Context {B : PyBuiltins}.

Lemma invoice_compare_strings_self (x : json) (t : spec_float) :
  plain x = true -> Invoice.compare_strings x x t = 1.
Proof. intros Hx. unfold Invoice.compare_strings. now rewrite py_eq_refl. Qed.

Lemma number_match_self (x : json) : plain x = true -> number_match x x = 1.
Proof.
  intros Hx. unfold number_match, Invoice.compare_numbers. now rewrite py_eq_refl.
Qed.

Lemma inv_text_sum_self (k : string) (its : list json) :
  (forall x, In x its -> plain x = true) ->
  sumZ (map (inv_text_hit k) (combine its its)) = Z.of_nat (List.length its).
Proof.
  intros Hp. rewrite combine_self, map_map. apply sumZ_ones.
  intros x I. apply invoice_compare_strings_self. cbn [fst]. apply plain_field. now apply Hp.
Qed.

Lemma inv_number_sum_self (k : string) (its : list json) :
  (forall x, In x its -> plain x = true) ->
  sumZ (map (inv_number_hit k) (combine its its)) = Z.of_nat (List.length its).
Proof.
  intros Hp. rewrite combine_self, map_map. apply sumZ_ones.
  intros x I. apply number_match_self. cbn [fst]. apply plain_field. now apply Hp.
Qed.

(** The invoice evaluator on a plain document against itself. *)
Lemma invoice_self (d : list (string * json)) (its : list json) :
  plain (JDict d) = true ->
  items_of (JDict d) = Ok (JList its) ->
  forallb is_record its = true ->
  let n := Z.of_nat (List.length its) in
  Invoice.evaluate (JDict d) (JDict d)
  = Ok {| Invoice.seller_name := 1;
          Invoice.sum_total_quantity := 1;
          Invoice.sum_total_price := 1;
          Invoice.currency := 1;
          Invoice.n_items := n;
          Invoice.item_count_match := 1;
          Invoice.missing_items := 0;
          Invoice.extra_items := 0;
          Invoice.items :=
            {| Invoice.item_name := n; Invoice.quantity := n;
               Invoice.unit_price := n; Invoice.total_price := n |} |}.
Proof.
  intros Hp E R n.
  rewrite (invoice_evaluate_value d d its its E E R R).
  assert (Hits : forall x, In x its -> plain x = true)
    by (intros x; apply (plain_items d its x Hp E)).
  rewrite !invoice_compare_strings_self, !number_match_self by now apply plain_field.
  rewrite inv_text_sum_self, !inv_number_sum_self by assumption.
  rewrite Nat.eqb_refl, Z.sub_diag. reflexivity.
Qed.

Lemma main_result_self (n : Z) :
  0 <= n ->
  Invoice.main_result
    {| Invoice.seller_name := 1;
       Invoice.sum_total_quantity := 1;
       Invoice.sum_total_price := 1;
       Invoice.currency := 1;
       Invoice.n_items := n;
       Invoice.item_count_match := 1;
       Invoice.missing_items := 0;
       Invoice.extra_items := 0;
       Invoice.items :=
         {| Invoice.item_name := n; Invoice.quantity := n;
            Invoice.unit_price := n; Invoice.total_price := n |} |}
  = Ok {| Invoice.pct_seller_name := f_hundred;
          Invoice.pct_sum_total_quantity := f_hundred;
          Invoice.pct_sum_total_price := f_hundred;
          Invoice.pct_currency := f_hundred;
          Invoice.pct_item_count_match := f_hundred;
          Invoice.pct_missing_items := f_zero;
          Invoice.pct_extra_items := f_zero;
          Invoice.pct_item_name := full_or_zero n;
          Invoice.pct_quantity := full_or_zero n;
          Invoice.pct_unit_price := full_or_zero n;
          Invoice.pct_total_price := full_or_zero n |}.
Proof.
  intros Hn. rewrite main_result_value.
  cbn [Invoice.seller_name Invoice.sum_total_quantity Invoice.sum_total_price
       Invoice.currency Invoice.n_items Invoice.item_count_match Invoice.missing_items
       Invoice.extra_items Invoice.items Invoice.item_name Invoice.quantity
       Invoice.unit_price Invoice.total_price].
  assert (Hz : forall m, 0 < m -> percent 0 m = f_zero).
  { intros m Hm. unfold percent. destruct m; try lia. reflexivity. }
  rewrite Hz by lia.
  unfold full_or_zero. destruct (Z.eqb_spec n 0) as [->|N].
  - reflexivity.
  - replace (Z.max n 1) with n by lia. rewrite percent_same by assumption. reflexivity.
Qed.

Lemma prefix_match_self (c : string) (k : Z) :
  0 <= k ->
  Hscode.prefix_match c c k = if k <=? Z.of_nat (str_len c) then 1 else 0.
Proof.
  intros Hk. unfold Hscode.prefix_match. rewrite String.eqb_refl, orb_diag.
  destruct (Z.ltb_spec (Z.of_nat (str_len c)) k); destruct (Z.leb_spec k (Z.of_nat (str_len c)));
    try reflexivity; lia.
Qed.

Lemma hs_names_self (ms : spec_float) (its : list json) :
  sumZ (map (name_hit ms) (align its its)) = Z.of_nat (List.length its).
Proof.
  rewrite align_self, map_map. apply sumZ_ones. intros x _.
  unfold name_hit. cbn [fst snd]. now apply hscode_compare_strings_norm.
Qed.

Lemma hs_prefix_self (k : Z) (its : list json) :
  0 <= k ->
  sumZ (map (prefix_hit k) (align its its)) = count (long_enough k) its.
Proof.
  intros Hk. rewrite align_self, map_map, <- sumZ_count. f_equal.
  apply map_ext. intros x. unfold prefix_hit, long_enough. cbn [fst snd].
  now apply prefix_match_self.
Qed.

Lemma hs_valid_self (its : list json) :
  sumZ (map pr_10_hit (align its its)) = sumZ (map gt_10_hit (align its its))
  /\ sumZ (map pr_6_hit (align its its)) = sumZ (map gt_6_hit (align its its)).
Proof. rewrite align_self, !map_map. split; reflexivity. Qed.

(** The commodity-code evaluator on a document against itself. *)
Lemma hscode_self (d : list (string * json)) (its : list json) (ms : spec_float) :
  items_of (JDict d) = Ok (JList its) ->
  forallb is_record its = true ->
  let n := Z.of_nat (List.length its) in
  Hscode.evaluate (JDict d) (JDict d) ms
  = Ok {| Hscode.n_items := n;
          Hscode.seller_name_match := f_hundred;
          Hscode.item_name_match_table := full_or_zero n;
          Hscode.y_10_match_table := pct_or_zero (sumZ (map gt_10_hit (align its its))) n;
          Hscode.y_6_match_table := pct_or_zero (sumZ (map gt_6_hit (align its its))) n;
          Hscode.pred_10_match_table := pct_or_zero (sumZ (map gt_10_hit (align its its))) n;
          Hscode.pred_6_match_table := pct_or_zero (sumZ (map gt_6_hit (align its its))) n;
          Hscode.accuracy_10 := pct_or_zero (count (long_enough 10) its) n;
          Hscode.accuracy_6 := pct_or_zero (count (long_enough 6) its) n;
          Hscode.metadata :=
            map (fun k => (k, pct_or_zero (count (long_enough k) its) n))
              Hscode.prefix_lengths |}.
Proof.
  intros E R n.
  rewrite (hscode_evaluate_value d d its its ms E E R R).
  rewrite hs_names_self, !hs_prefix_self by lia.
  destruct (hs_valid_self its) as [-> ->].
  rewrite (hscode_compare_strings_norm _ _ ms eq_refl).
  fold n. rewrite pct_or_zero_same.
  do 2 f_equal. apply map_ext_in. intros k Hk.
  rewrite hs_prefix_self; [reflexivity|].
  unfold Hscode.prefix_lengths in Hk. simpl in Hk. intuition lia.
Qed.

End SelfMatch.

Section SelfMatchSummary.
Context {B : PyBuiltins}.

Lemma summary_compare_strings_self (x : json) (t : spec_float) :
  plain x = true -> Summary.compare_strings x x t = 1.
Proof. intros Hx. unfold Summary.compare_strings. now rewrite py_eq_refl. Qed.

Lemma summary_fold_self (ms : spec_float) (pairs : list (string * string)) (a b : Z) :
  fold_left (Summary.step ms) (combine pairs pairs) (a, b)
  = (a + count (fun p => negb (String.eqb (fst p) "")) pairs,
     b + Z.of_nat (List.length pairs)).
Proof.
  unfold count. revert a b. induction pairs as [|[hs txt] pairs IH]; intros a b.
  - simpl. now rewrite !Z.add_0_r.
  - cbn [combine fold_left]. unfold Summary.step at 2.
    rewrite (summary_compare_strings_self (JStr txt) ms eq_refl).
    rewrite IH. cbn [filter fst List.length]. rewrite String.eqb_refl, andb_diag, andb_true_r.
    destruct (negb (String.eqb hs "")); cbn [List.length]; f_equal; lia.
Qed.

(** The summary evaluator on a plain document against itself. *)
Lemma summary_self (d : list (string * json)) (pairs : list (string * string))
  (ms : spec_float) :
  plain (JDict d) = true ->
  Summary.extract_pairs (JDict d) = Ok pairs ->
  let n := Z.of_nat (List.length pairs) in
  Summary.evaluate (JDict d) (JDict d) ms
  = Ok {| Summary.n_items := n;
          Summary.seller_pct := f_hundred;
          Summary.hs_pct :=
            pct_or_zero (count (fun p => negb (String.eqb (fst p) "")) pairs) n;
          Summary.summary_pct := full_or_zero n;
          Summary.item_count_pct := f_hundred;
          Summary.missing_items := 0;
          Summary.extra_items := 0;
          Summary.pred_hs10_valid_pct :=
            pct_or_zero (count (fun p => Summary.is_valid_hs10 (fst p)) pairs) n |}.
Proof.
  intros Hp E n. unfold Summary.evaluate.
  rewrite !dict_get_field. cbn [bind].
  rewrite summary_compare_strings_self by now apply plain_field.
  rewrite E. cbn [bind].
  rewrite summary_fold_self. rewrite Nat.eqb_refl, Z.sub_diag.
  rewrite !guarded_pct_value. cbn [bind Z.add].
  fold n. rewrite pct_or_zero_same. reflexivity.
Qed.

End SelfMatchSummary.

Section SelfMatchClassification.
Context {B : PyBuiltins}.

Lemma classification_compare_strings_self (t : string) :
  Classification.compare_strings (JStr t) (JStr t) Classification.default_threshold = 1.
Proof. apply classification_compare_strings_eq. simpl. apply String.eqb_refl. Qed.

Lemma score_path_self (m : list (string * string))
  (st : Z * list (string * Classification.tally)) (path : string) :
  In path (dict_keys m) ->
  tallies_ok st ->
  (forall k v, dict_get k (snd st) = Some v ->
               Classification.correct v = Classification.total v) ->
  exists st2,
    Classification.score_path m m st path = Ok st2
    /\ fst st2 = fst st + 1
    /\ tallies_ok st2
    /\ (forall k v, dict_get k (snd st2) = Some v ->
                    Classification.correct v = Classification.total v).
Proof.
  intros Hin Hok Hct. destruct st as [nc stats]. cbn [fst snd] in *.
  apply dict_get_in_keys in Hin.
  destruct (dict_get path m) as [t|] eqn:Et; [clear Hin | congruence].
  assert (Hex : exists st2, Classification.score_path m m (nc, stats) path = Ok st2).
  { unfold Classification.score_path, Classification.lookup. rewrite Et. cbn [bind].
    unfold dict_mem. destruct (dict_get t stats) as [v|] eqn:Ev.
    - rewrite Ev. cbn [bind]. rewrite dict_get_set_same. cbn [bind]. eexists. reflexivity.
    - rewrite dict_get_set_same. cbn [bind]. rewrite dict_get_set_same. cbn [bind].
      eexists. reflexivity. }
  destruct Hex as [st2 H2]. exists st2. split; [exact H2|].
  pose proof (score_path_tallies m m (nc, stats) st2 path Hok H2) as Hok2.
  unfold Classification.score_path, Classification.lookup in H2.
  rewrite Et in H2. cbn [bind] in H2.
  rewrite classification_compare_strings_self in H2.
  set (stats0 := if dict_mem t stats then stats
                 else dict_set t {| Classification.total := 0; Classification.correct := 0 |}
                        stats) in *.
  destruct (dict_get t stats0) as [v|] eqn:E0; [|discriminate]. cbn [bind] in H2.
  rewrite dict_get_set_same in H2. cbn [bind] in H2. injection H2 as <-.
  cbn [fst snd Classification.total Classification.correct].
  split; [reflexivity|]. split; [exact Hok2|].
  assert (Hv : Classification.correct v = Classification.total v).
  { unfold stats0, dict_mem in E0. destruct (dict_get t stats) as [w|] eqn:Ew.
    - apply (Hct t v). congruence.
    - rewrite dict_get_set_same in E0. now injection E0 as <-. }
  intros k w. rewrite !dict_get_set.
  destruct (String.eqb_spec t k) as [->|N].
  - intros [= <-]. cbn. lia.
  - intros Hk. apply (Hct k w). unfold stats0 in Hk.
    destruct (dict_mem t stats); [exact Hk|].
    rewrite dict_get_set_other in Hk by congruence. exact Hk.
Qed.

Lemma score_paths_self (m : list (string * string)) (paths : list string)
  (st : Z * list (string * Classification.tally)) :
  (forall p, In p paths -> In p (dict_keys m)) ->
  tallies_ok st ->
  (forall k v, dict_get k (snd st) = Some v ->
               Classification.correct v = Classification.total v) ->
  exists st2,
    foldM (Classification.score_path m m) paths st = Ok st2
    /\ fst st2 = fst st + Z.of_nat (List.length paths)
    /\ tallies_ok st2
    /\ (forall k v, dict_get k (snd st2) = Some v ->
                    Classification.correct v = Classification.total v).
Proof.
  revert st. induction paths as [|p paths IH]; intros st Hin Hok Hct.
  - exists st. cbn [foldM List.length Z.of_nat]. rewrite Z.add_0_r.
    split; [reflexivity|]. split; [reflexivity|]. split; assumption.
  - destruct (score_path_self m st p (Hin p (or_introl eq_refl)) Hok Hct)
      as (st1 & E1 & F1 & Ok1 & Ct1).
    destruct (IH st1 (fun q Hq => Hin q (or_intror Hq)) Ok1 Ct1) as (st2 & E2 & F2 & Ok2 & Ct2).
    exists st2. cbn [foldM]. rewrite E1. cbn [bind]. rewrite E2.
    split; [reflexivity|]. split; [|split; assumption].
    rewrite F2, F1. cbn [List.length]. lia.
Qed.

Lemma inter_self (m : list (string * string)) :
  Classification.inter (dict_keys m) m = dict_keys m.
Proof.
  unfold Classification.inter. apply forallb_filter_id. apply forallb_forall.
  intros p Hp. now apply dict_mem_in_keys.
Qed.

Lemma diff_self (m : list (string * string)) : Classification.diff (dict_keys m) m = [].
Proof.
  unfold Classification.diff.
  assert (H : forall l, (forall p, In p l -> In p (dict_keys m)) ->
                        filter (fun p => negb (dict_mem p m)) l = []).
  { induction l as [|p l IH]; intros Hl; [reflexivity|]. cbn [filter].
    rewrite (proj2 (dict_mem_in_keys _ p m) (Hl p (or_introl eq_refl))). cbn [negb].
    apply IH. intros q Hq. apply Hl. now right. }
  apply H. auto.
Qed.

Lemma per_type_full (stats : list (string * Classification.tally)) :
  (forall k v, In (k, v) stats ->
               1 <= Classification.total v
               /\ Classification.correct v = Classification.total v) ->
  mapM (fun tv : string * Classification.tally =>
          q <- int_truediv (Classification.correct (snd tv)) (Classification.total (snd tv)) ;;
          Ok (fst tv, fmul q f_hundred)) stats
  = Ok (map (fun tv => (fst tv, f_hundred)) stats).
Proof.
  intros H. apply mapM_pure. intros [k v] Hin. cbn [fst snd].
  destruct (H k v Hin) as [H1 ->]. rewrite int_truediv_same by lia. reflexivity.
Qed.

(** The classification evaluator on a document against itself. *)
Lemma classification_self (D : json) (m : list (string * string)) :
  Classification.build_path_map D = Ok m ->
  let n := Z.of_nat (List.length m) in
  exists types,
    Classification.evaluate D D
    = Ok {| Classification.n_items := n;
            Classification.accuracy := full_or_zero n;
            Classification.n_correct := n;
            Classification.missing_items := 0;
            Classification.extra_items := 0;
            Classification.per_type := map (fun t => (t, f_hundred)) types |}.
Proof.
  intros Em n. unfold Classification.evaluate. rewrite Em. cbn [bind].
  rewrite inter_self, diff_self.
  destruct (score_paths_self m (dict_keys m) (0, []) (fun p H => H))
    as ([nc stats] & E & F & [ND Ht] & Ct).
  { split; [constructor | discriminate]. }
  { discriminate. }
  cbn [fst snd] in *. rewrite E. cbn [bind].
  unfold dict_keys in F. rewrite length_map in F. cbn [Z.add] in F. subst nc.
  fold n. rewrite guarded_pct_value, pct_or_zero_same. cbn [bind].
  rewrite (per_type_full stats).
  - cbn [bind List.length Z.of_nat]. exists (map fst stats). rewrite map_map. reflexivity.
  - intros k v Hin. pose proof (in_dict_get _ _ _ _ ND Hin) as Hg. split; eauto.
Qed.

End SelfMatchClassification.

Section SelfMatchParser.
Context {B : PyBuiltins}.

Lemma walk_plain (keys : list string) (d v : json) :
  Parser.walk d keys = Ok v -> plain d = true -> plain v = true.
Proof.
  revert d. induction keys as [|k keys IH]; intros d H Hp.
  - now injection H as <-.
  - cbn [Parser.walk] in H. destruct (is_none d); [now injection H as <-|].
    inv_bind H. destruct (negb v0); [now injection H as <-|].
    inv_bind H. apply (IH v1 H).
    destruct d; try discriminate. cbn [py_getitem] in E0.
    destruct (dict_get k d) as [w|] eqn:Ew; [|discriminate]. injection E0 as <-.
    now apply (plain_dict_get d k w).
Qed.

Lemma parser_compare_strings_self (x : json) (t : spec_float) :
  plain x = true -> Parser.compare_strings x x t = 1.
Proof. intros Hx. unfold Parser.compare_strings. now rewrite py_eq_refl. Qed.

Lemma check_field_self (D : json) (st : list (string * Z) * Z) (f : string) :
  plain D = true ->
  is_ok (Parser.safe_get D f) = true ->
  Parser.check_field D D st f = Ok (dict_set f 1 (fst st), snd st + 1).
Proof.
  intros Hp Hok. destruct st as [results nc]. unfold Parser.check_field.
  destruct (Parser.safe_get D f) as [v|] eqn:E; [|discriminate]. cbn [bind].
  rewrite parser_compare_strings_self; [reflexivity|].
  unfold Parser.safe_get in E. now apply (walk_plain _ D v E).
Qed.

(** The generic-field evaluator on a plain document against itself, when
    every checked path resolves. *)
Lemma parser_self (D : json) :
  plain D = true ->
  (forall f, In f Parser.fields_to_check -> is_ok (Parser.safe_get D f) = true) ->
  Parser.evaluate D D = Ok (map (fun f => (f, 1)) Parser.fields_to_check, f_hundred).
Proof.
  intros Hp Hall. unfold Parser.evaluate.
  rewrite (foldM_pure _ _ _ (fun st f => (dict_set f 1 (fst st), snd st + 1)))
    by (intros st f Hf; apply check_field_self; auto).
  cbn [bind]. reflexivity.
Qed.

End SelfMatchParser.

Lemma count_all (A : Type) (f : A -> bool) (l : list A) :
  forallb f l = true -> count f l = Z.of_nat (List.length l).
Proof. intros H. unfold count. now rewrite forallb_filter_id. Qed.

(** C1 (amended).  For a document [D] used as both inputs:
    - invoice, on a plain [D] whose items are records: every field and item
      comparison scores 1, [missing_items = extra_items = 0], and the
      percentages of [main] are 100%, the per-item ones being 0% when [D] has
      no item;
    - commodity codes, on a [D] whose items are records: the seller
      percentage is 100% and the item-name percentage 100% (0% without
      items); the prefix accuracy at [k] is the share of items whose
      normalized code has at least [k] digits, so it is 100% only when every
      code is that long; the two validity percentages of the prediction
      equal those of the ground truth;
    - summary, on a plain [D]: seller, summary and item-count percentages are
      100% (summary 0% without items), [missing_items = extra_items = 0], and
      the code percentage is the share of pairs with a non-empty code;
    - classification, when the path map can be built: [missing_items =
      extra_items = 0], [correct = n_items], every per-type accuracy is 100%
      and the accuracy is 100% (0% without files);
    - generic fields, on a plain [D] on which every checked path resolves:
      every field scores 1 and the accuracy is 100%. *)
Theorem self_match_report {B : PyBuiltins} (d : list (string * json)) (ms : spec_float) :
  (forall its,
      plain (JDict d) = true ->
      items_of (JDict d) = Ok (JList its) ->
      forallb is_record its = true ->
      let n := Z.of_nat (List.length its) in
      let res :=
        {| Invoice.seller_name := 1;
           Invoice.sum_total_quantity := 1;
           Invoice.sum_total_price := 1;
           Invoice.currency := 1;
           Invoice.n_items := n;
           Invoice.item_count_match := 1;
           Invoice.missing_items := 0;
           Invoice.extra_items := 0;
           Invoice.items :=
             {| Invoice.item_name := n; Invoice.quantity := n;
                Invoice.unit_price := n; Invoice.total_price := n |} |} in
      Invoice.evaluate (JDict d) (JDict d) = Ok res
      /\ Invoice.main_result res
         = Ok {| Invoice.pct_seller_name := f_hundred;
                 Invoice.pct_sum_total_quantity := f_hundred;
                 Invoice.pct_sum_total_price := f_hundred;
                 Invoice.pct_currency := f_hundred;
                 Invoice.pct_item_count_match := f_hundred;
                 Invoice.pct_missing_items := f_zero;
                 Invoice.pct_extra_items := f_zero;
                 Invoice.pct_item_name := full_or_zero n;
                 Invoice.pct_quantity := full_or_zero n;
                 Invoice.pct_unit_price := full_or_zero n;
                 Invoice.pct_total_price := full_or_zero n |})
  /\ (forall its,
        items_of (JDict d) = Ok (JList its) ->
        forallb is_record its = true ->
        let n := Z.of_nat (List.length its) in
        exists r,
          Hscode.evaluate (JDict d) (JDict d) ms = Ok r
          /\ Hscode.n_items r = n
          /\ Hscode.seller_name_match r = f_hundred
          /\ Hscode.item_name_match_table r = full_or_zero n
          /\ Hscode.pred_10_match_table r = Hscode.y_10_match_table r
          /\ Hscode.pred_6_match_table r = Hscode.y_6_match_table r
          /\ Hscode.accuracy_10 r = pct_or_zero (count (long_enough 10) its) n
          /\ Hscode.accuracy_6 r = pct_or_zero (count (long_enough 6) its) n
          /\ Hscode.metadata r
             = map (fun k => (k, pct_or_zero (count (long_enough k) its) n))
                 Hscode.prefix_lengths
          /\ (forallb (long_enough 10) its = true -> Hscode.accuracy_10 r = full_or_zero n)
          /\ (forallb (long_enough 6) its = true -> Hscode.accuracy_6 r = full_or_zero n))
  /\ (forall pairs,
        plain (JDict d) = true ->
        Summary.extract_pairs (JDict d) = Ok pairs ->
        let n := Z.of_nat (List.length pairs) in
        Summary.evaluate (JDict d) (JDict d) ms
        = Ok {| Summary.n_items := n;
                Summary.seller_pct := f_hundred;
                Summary.hs_pct :=
                  pct_or_zero (count (fun p => negb (String.eqb (fst p) "")) pairs) n;
                Summary.summary_pct := full_or_zero n;
                Summary.item_count_pct := f_hundred;
                Summary.missing_items := 0;
                Summary.extra_items := 0;
                Summary.pred_hs10_valid_pct :=
                  pct_or_zero (count (fun p => Summary.is_valid_hs10 (fst p)) pairs) n |})
  /\ (forall m,
        Classification.build_path_map (JDict d) = Ok m ->
        let n := Z.of_nat (List.length m) in
        exists types,
          Classification.evaluate (JDict d) (JDict d)
          = Ok {| Classification.n_items := n;
                  Classification.accuracy := full_or_zero n;
                  Classification.n_correct := n;
                  Classification.missing_items := 0;
                  Classification.extra_items := 0;
                  Classification.per_type := map (fun t => (t, f_hundred)) types |})
  /\ (plain (JDict d) = true ->
      (forall f, In f Parser.fields_to_check -> is_ok (Parser.safe_get (JDict d) f) = true) ->
      Parser.evaluate (JDict d) (JDict d)
      = Ok (map (fun f => (f, 1)) Parser.fields_to_check, f_hundred)).
Proof.
  split; [|split; [|split; [|split]]].
  - intros its Hp E R n res. split.
    + apply (invoice_self d its Hp E R).
    + apply main_result_self. lia.
  - intros its E R n. eexists.
    split; [apply (hscode_self d its ms E R)|].
    cbn [Hscode.n_items Hscode.seller_name_match Hscode.item_name_match_table
         Hscode.pred_10_match_table Hscode.y_10_match_table Hscode.pred_6_match_table
         Hscode.y_6_match_table Hscode.accuracy_10 Hscode.accuracy_6 Hscode.metadata].
    fold n. repeat conj_step ltac:(reflexivity).
    split; intros Hall; rewrite (count_all _ _ _ Hall); apply pct_or_zero_same.
  - intros pairs Hp E n. apply (summary_self d pairs ms Hp E).
  - intros m E n. apply (classification_self (JDict d) m E).
  - intros Hp Hall. apply (parser_self (JDict d) Hp Hall).
Qed.

Lemma self_match_report_witness :
  (exists res, Invoice.evaluate (B := CPython.builtins) (JDict sample_gt) (JDict sample_gt)
               = Ok res
               /\ Invoice.missing_items res = 0 /\ Invoice.extra_items res = 0
               /\ Invoice.item_name (Invoice.items res) = 3)
  /\ (exists r, Hscode.evaluate (B := CPython.builtins) (JDict sample_gt) (JDict sample_gt)
                  (dec64 85 100) = Ok r
                /\ Hscode.item_name_match_table r = f_hundred
                /\ Hscode.accuracy_6 r = f_hundred)
  /\ (exists r, Summary.evaluate (B := CPython.builtins) (JDict sample_summary)
                  (JDict sample_summary) (dec64 85 100) = Ok r
                /\ Summary.summary_pct r = f_hundred
                /\ Summary.missing_items r = 0)
  /\ (exists r, Classification.evaluate (B := CPython.builtins) scenario_gt scenario_gt = Ok r
                /\ Classification.accuracy r = f_hundred
                /\ Classification.missing_items r = 0)
  /\ Parser.evaluate (B := CPython.builtins) (JDict sample_form) (JDict sample_form)
     = Ok (map (fun f => (f, 1)) Parser.fields_to_check, f_hundred).
Proof.
  pose proof (self_match_report (B := CPython.builtins) sample_gt (dec64 85 100))
    as (Hinv & Hhs & _).
  pose proof (self_match_report (B := CPython.builtins) sample_summary (dec64 85 100))
    as (_ & _ & Hsum & _).
  pose proof (self_match_report (B := CPython.builtins)
                [("files", JList [JDict [("path", JStr "a.pdf"); ("type", JStr "invoice")];
                                  JDict [("path", JStr "b.pdf"); ("type", JStr "receipt")]])]
                (dec64 85 100))
    as (_ & _ & _ & Hcl & _).
  pose proof (self_match_report (B := CPython.builtins) sample_form (dec64 85 100))
    as (_ & _ & _ & _ & Hform).
  split; [|split; [|split; [|split]]].
  - destruct (Hinv sample_three eq_refl eq_refl eq_refl) as [Hres _].
    eexists. split; [exact Hres|]. repeat split.
  - destruct (Hhs sample_three eq_refl eq_refl)
      as (r & Hr & _ & _ & Hn & _ & _ & _ & _ & _ & _ & H6).
    exists r. split; [exact Hr|]. split; [exact Hn|]. apply H6. reflexivity.
  - eexists. split; [apply (Hsum _ eq_refl eq_refl)|]. split; reflexivity.
  - destruct (Hcl _ eq_refl) as (types & Hr).
    eexists. split; [exact Hr|]. split; reflexivity.
  - apply Hform; [reflexivity|].
    intros f Hf. cbv in Hf.
    repeat (destruct Hf as [<-|Hf]; [reflexivity|]). contradiction.
Defined.

(** C1, as stated, fails: against itself, a document with a six-digit code
    has a prefix accuracy at 10 of 1/3, a document without items has an
    item-name percentage of 0, and an invoice whose quantity is a NaN does
    not match its own quantity. *)
Lemma self_match_report_counterexample :
  (exists r, Hscode.evaluate (B := CPython.builtins) (JDict sample_gt) (JDict sample_gt)
               (dec64 85 100) = Ok r
             /\ Hscode.accuracy_10 r = percent 1 3
             /\ SFeqb (Hscode.accuracy_10 r) f_hundred = false)
  /\ (exists r, Hscode.evaluate (B := CPython.builtins)
                  (JDict [("seller_name", JStr "ACME Ltd"); ("items", JList [])])
                  (JDict [("seller_name", JStr "ACME Ltd"); ("items", JList [])])
                  (dec64 85 100) = Ok r
                /\ Hscode.item_name_match_table r = f_zero
                /\ SFeqb (Hscode.item_name_match_table r) f_hundred = false)
  /\ (exists res, Invoice.evaluate (B := CPython.builtins) (JDict sample_nan)
                    (JDict sample_nan) = Ok res
                  /\ Invoice.n_items res = 1
                  /\ Invoice.quantity (Invoice.items res) = 0).
Proof.
  split; [|split]; eexists; (split; [vm_compute; reflexivity|]); split; vm_compute; reflexivity.
Qed.

(** ** The work list of [get_matching_blocks] empties within its fuel *)

Section MatcherFuel.
Variables a b : list ascii.

Local Open Scope nat_scope.

Lemma j2len_get_le (n j : nat) (j2len : list (nat * nat)) :
  Forall (fun jk => snd jk <= n) j2len -> Difflib.j2len_get j j2len <= n.
Proof.
  induction 1 as [|[j' k] l Hk _ IH]; simpl; [lia|].
  destruct (Nat.eqb j j'); [exact Hk | exact IH].
Qed.

Lemma scan_row_within (alo i blo bhi : nat) (j2len : list (nat * nat)) (js : list nat)
  (best : Difflib.block) (newj2len : list (nat * nat)) :
  alo <= i ->
  Forall (fun jk => snd jk <= i - alo) j2len ->
  Forall (fun jk => snd jk <= i + 1 - alo) newj2len ->
  block_within alo (i + 1) best ->
  block_within alo (i + 1) (fst (Difflib.scan_row i blo bhi j2len js best newj2len))
  /\ Forall (fun jk => snd jk <= i + 1 - alo)
       (snd (Difflib.scan_row i blo bhi j2len js best newj2len)).
Proof.
  intros Hi Hold. revert best newj2len.
  induction js as [|j js IH]; intros best newj2len Hnew Hbest; simpl; [now split|].
  destruct (j <? blo); [now apply IH|].
  destruct (bhi <=? j); [now split|].
  set (k := S match j with O => 0 | S j' => Difflib.j2len_get j' j2len end).
  assert (Hk : k <= i + 1 - alo).
  { unfold k. destruct j as [|j']; [lia|].
    pose proof (j2len_get_le (i - alo) j' j2len Hold). lia. }
  apply IH.
  - constructor; [exact Hk | exact Hnew].
  - destruct (Difflib.bestsize best <? k); [|exact Hbest].
    unfold block_within. simpl. lia.
Qed.

Lemma scan_rows_within (alo blo bhi n i : nat) (best : Difflib.block)
  (j2len : list (nat * nat)) :
  alo <= i ->
  Forall (fun jk => snd jk <= i - alo) j2len ->
  block_within alo i best ->
  block_within alo (i + n) (Difflib.scan_rows a b (seq i n) blo bhi best j2len).
Proof.
  revert i best j2len. induction n as [|n IH]; intros i best j2len Hi Hold Hbest.
  - simpl. now rewrite Nat.add_0_r.
  - cbn [seq Difflib.scan_rows].
    assert (Hbest1 : block_within alo (i + 1) best).
    { unfold block_within in *. lia. }
    pose proof (scan_row_within alo i blo bhi j2len (Difflib.b2j b (Difflib.elt a i))
                  best [] Hi Hold (Forall_nil _) Hbest1) as [H1 H2].
    destruct (Difflib.scan_row i blo bhi j2len (Difflib.b2j b (Difflib.elt a i)) best [])
      as [best' newj2len].
    cbn [fst snd] in H1, H2.
    replace (i + S n) with (S i + n) by lia. apply IH; [lia | |].
    + replace (S i - alo) with (i + 1 - alo) by lia. exact H2.
    + replace (S i) with (i + 1) by lia. exact H1.
Qed.

Lemma extend_back_within (n alo blo hi : nat) (m : Difflib.block) :
  block_within alo hi m -> block_within alo hi (Difflib.extend_back a b n alo blo m).
Proof.
  revert m. induction n as [|n IH]; intros m Hm; simpl; [exact Hm|].
  destruct (alo <? Difflib.besti m) eqn:E1; simpl; [|exact Hm].
  destruct (blo <? Difflib.bestj m); simpl; [|exact Hm].
  destruct (Ascii.eqb _ _); [|exact Hm].
  apply IH. apply Nat.ltb_lt in E1. unfold block_within in *. simpl. lia.
Qed.

Lemma extend_forward_within (n alo ahi bhi : nat) (m : Difflib.block) :
  block_within alo ahi m -> block_within alo ahi (Difflib.extend_forward a b n ahi bhi m).
Proof.
  revert m. induction n as [|n IH]; intros m Hm; simpl; [exact Hm|].
  destruct (Difflib.besti m + Difflib.bestsize m <? ahi) eqn:E1; simpl; [|exact Hm].
  destruct (Difflib.bestj m + Difflib.bestsize m <? bhi); simpl; [|exact Hm].
  destruct (Ascii.eqb _ _); [|exact Hm].
  apply IH. apply Nat.ltb_lt in E1. unfold block_within in *. simpl. lia.
Qed.

Lemma find_longest_match_within (alo ahi blo bhi : nat) :
  alo <= ahi -> block_within alo ahi (Difflib.find_longest_match a b alo ahi blo bhi).
Proof.
  intros H. unfold Difflib.find_longest_match.
  apply extend_forward_within, extend_back_within.
  pose proof (scan_rows_within alo blo bhi (ahi - alo) alo
                {| Difflib.besti := alo; Difflib.bestj := blo; Difflib.bestsize := 0 |} [])
    as Hscan.
  replace (alo + (ahi - alo)) with ahi in Hscan by lia.
  apply Hscan; [lia | constructor |].
  unfold block_within. simpl. lia.
Qed.

(** Any two amounts of fuel that cover the weight of the work list give
    the same blocks: the fuel [2 * len(a) + 1] never runs out. *)
Lemma matching_blocks_fuel (fuel fuel' : nat) (queue : list (nat * nat * nat * nat))
  (found : list Difflib.block) :
  Forall range_ok queue ->
  queue_weight queue <= fuel ->
  queue_weight queue <= fuel' ->
  Difflib.matching_blocks a b fuel queue found
  = Difflib.matching_blocks a b fuel' queue found.
Proof.
  revert fuel' queue found.
  induction fuel as [|fuel IH]; intros fuel' queue found Hq H1 H2.
  - destruct queue as [|[[[alo ahi] blo] bhi] rest]; [now destruct fuel'|].
    simpl in H1. lia.
  - destruct queue as [|[[[alo ahi] blo] bhi] rest]; [now destruct fuel'|].
    destruct fuel' as [|fuel']; [simpl in H2; lia|].
    inversion Hq as [|r l Hr Hrest]; subst. simpl in Hr.
    cbn [Difflib.matching_blocks]. cbn [queue_weight range_weight] in H1, H2.
    pose proof (find_longest_match_within alo ahi blo bhi Hr) as [Hlo Hhi].
    set (m := Difflib.find_longest_match a b alo ahi blo bhi) in *.
    destruct (Nat.eqb_spec (Difflib.bestsize m) 0) as [E0|N0].
    + apply IH; [exact Hrest | lia | lia].
    + destruct (alo <? Difflib.besti m) eqn:Ea; destruct (blo <? Difflib.bestj m) eqn:Eb;
        destruct (Difflib.besti m + Difflib.bestsize m <? ahi) eqn:Ec;
        destruct (Difflib.bestj m + Difflib.bestsize m <? bhi) eqn:Ed;
        cbn [andb];
        try apply Nat.ltb_lt in Ea; try apply Nat.ltb_lt in Ec;
        (apply IH; [repeat constructor; simpl; try lia; exact Hrest
                   | cbn [queue_weight range_weight]; lia
                   | cbn [queue_weight range_weight]; lia]).
Qed.

Lemma get_matching_blocks_fuel (extra : nat) :
  Difflib.get_matching_blocks a b
  = Difflib.matching_blocks a b (2 * List.length a + 1 + extra)
      [(0, List.length a, 0, List.length b)] [].
Proof.
  unfold Difflib.get_matching_blocks. apply matching_blocks_fuel.
  - repeat constructor. simpl. lia.
  - simpl. lia.
  - simpl. lia.
Qed.

End MatcherFuel.

(** ** Commodity codes (benchmark_hscode.py, benchmark_summary.py) *)

Lemma forallb_filter_same (A : Type) (f : A -> bool) (l : list A) :
  forallb f (filter f l) = true.
Proof.
  induction l as [|x l IH]; simpl; [reflexivity|].
  destruct (f x) eqn:E; simpl; [rewrite E|]; assumption.
Qed.

Lemma decimal_isdigit (c : ascii) : is_decimal c = true -> char_isdigit c = true.
Proof. unfold char_isdigit. intros ->. reflexivity. Qed.

Lemma decimal_not_space (c : ascii) : is_decimal c = true -> is_space c = false.
Proof.
  unfold is_decimal, is_space. cbv zeta. generalize (nat_of_ascii c). intros n H.
  apply andb_prop in H as [H1 H2]. apply Nat.leb_le in H1, H2.
  destruct (Nat.leb_spec 9 n), (Nat.leb_spec n 13), (Nat.leb_spec 28 n),
    (Nat.leb_spec n 32), (Nat.eqb_spec n 133), (Nat.eqb_spec n 160);
    simpl; try reflexivity; lia.
Qed.

Lemma rstrip_no_space (s : string) :
  forallb (fun c => negb (is_space c)) (chars s) = true -> rstrip s = s.
Proof.
  induction s as [|c s IH]; simpl; [reflexivity|].
  intros H. apply andb_prop in H as [Hc Hs]. apply negb_true_iff in Hc.
  rewrite (IH Hs). destruct s; [now rewrite Hc | reflexivity].
Qed.

Lemma strip_no_space (s : string) :
  forallb (fun c => negb (is_space c)) (chars s) = true -> strip s = s.
Proof.
  intros H. unfold strip.
  assert (L : lstrip s = s).
  { destruct s as [|c s]; [reflexivity|]. simpl in H |- *.
    apply andb_prop in H as [Hc _]. apply negb_true_iff in Hc. now rewrite Hc. }
  rewrite L. now apply rstrip_no_space.
Qed.

Lemma strip_digits (l : list ascii) :
  forallb is_decimal l = true -> strip (text l) = text l.
Proof.
  intros H. apply strip_no_space. rewrite chars_text.
  rewrite forallb_forall in H |- *. intros c Hc.
  apply negb_true_iff, decimal_not_space, H, Hc.
Qed.

Lemma isdigit_decimal (s : string) :
  forallb is_decimal (chars s) = true -> isdigit s = negb (Nat.eqb (str_len s) 0).
Proof.
  intros H. unfold isdigit. rewrite <- length_chars.
  destruct (chars s) as [|c l] eqn:E; [reflexivity|]. rewrite <- E in *.
  simpl. rewrite E. rewrite E in H. cbn [List.length Nat.eqb negb].
  rewrite forallb_forall in H |- *. intros x Hx. apply decimal_isdigit, H, Hx.
Qed.

Lemma digits_only_decimal (s : string) :
  forallb is_decimal (chars (Hscode.digits_only s)) = true.
Proof. unfold Hscode.digits_only. rewrite chars_text. apply forallb_filter_same. Qed.

Lemma normalize_hs_decimal {B : PyBuiltins} (code : json) :
  forallb is_decimal (chars (Hscode.normalize_hs code)) = true.
Proof.
  unfold Hscode.normalize_hs. destruct code; try apply digits_only_decimal. reflexivity.
Qed.

Lemma summary_normalize_hs_eq {B : PyBuiltins} (code : json) :
  Summary.normalize_hs code = Hscode.normalize_hs code.
Proof. reflexivity. Qed.

Lemma valid_10_decimal (s : string) :
  forallb is_decimal (chars s) = true ->
  Hscode.is_valid_hs_10 s = Nat.eqb (str_len s) 10.
Proof.
  intros H. unfold Hscode.is_valid_hs_10. rewrite (isdigit_decimal s H).
  destruct (Nat.eqb_spec (str_len s) 10) as [E|N]; [rewrite E|]; reflexivity.
Qed.

Lemma forallb_firstn (A : Type) (f : A -> bool) (n : nat) (l : list A) :
  forallb f l = true -> forallb f (firstn n l) = true.
Proof.
  revert n. induction l as [|x l IH]; intros [|n]; simpl; try reflexivity.
  intros H. apply andb_prop in H as [Hx Hl]. now rewrite Hx, IH.
Qed.

Lemma valid_6plus_decimal (s : string) :
  forallb is_decimal (chars s) = true ->
  Hscode.is_valid_hs_6plus s = (6 <=? str_len s)%nat.
Proof.
  intros H. unfold Hscode.is_valid_hs_6plus.
  destruct (Nat.leb_spec 6 (str_len s)) as [L|L]; [|reflexivity].
  rewrite slice_to_nonneg by lia.
  rewrite isdigit_decimal by (rewrite chars_text; now apply forallb_firstn).
  unfold str_len at 1. rewrite <- (length_chars (text _)), chars_text, length_firstn.
  rewrite length_chars. change (Z.to_nat 6) with 6%nat.
  rewrite Nat.min_l by lia. reflexivity.
Qed.

(** X1.  Whatever value is given as a code, the normalized code holds
    decimal digits only, so on a normalized code the two validity checks
    only look at the length: ten digits, or at least six. *)
Theorem normalize_hs_digits_only {B : PyBuiltins} (code : json) :
  forallb is_decimal (chars (Hscode.normalize_hs code)) = true
  /\ Hscode.is_valid_hs_10 (Hscode.normalize_hs code)
     = Nat.eqb (str_len (Hscode.normalize_hs code)) 10
  /\ Hscode.is_valid_hs_6plus (Hscode.normalize_hs code)
     = (6 <=? str_len (Hscode.normalize_hs code))%nat
  /\ Summary.is_valid_hs10 (Summary.normalize_hs code)
     = Nat.eqb (str_len (Summary.normalize_hs code)) 10.
Proof.
  pose proof (normalize_hs_decimal code) as H.
  split; [exact H|]. split; [now apply valid_10_decimal|].
  split; [now apply valid_6plus_decimal|].
  rewrite summary_normalize_hs_eq. now apply valid_10_decimal.
Qed.

(** X2.  Normalizing a code that is already normalized changes nothing, in
    both scripts that normalize codes. *)
Theorem normalize_hs_idempotent {B : PyBuiltins} (code : json) :
  Hscode.normalize_hs (JStr (Hscode.normalize_hs code)) = Hscode.normalize_hs code
  /\ Summary.normalize_hs (JStr (Summary.normalize_hs code)) = Summary.normalize_hs code.
Proof.
  assert (H : Hscode.normalize_hs (JStr (Hscode.normalize_hs code))
              = Hscode.normalize_hs code).
  { pose proof (normalize_hs_decimal code) as D.
    unfold Hscode.normalize_hs at 1. cbn [py_str].
    rewrite <- (text_chars (Hscode.normalize_hs code)) at 1.
    rewrite strip_digits by exact D.
    unfold Hscode.digits_only. rewrite chars_text.
    rewrite forallb_filter_id by exact D. apply text_chars. }
  split; [exact H|]. rewrite !summary_normalize_hs_eq. exact H.
Qed.

(** X3.  A code that passes the ten-digit check also passes the check for
    six or more digits. *)
Theorem valid_hs_10_is_valid_hs_6plus (code_digits : string) :
  Hscode.is_valid_hs_10 code_digits = true ->
  Hscode.is_valid_hs_6plus code_digits = true.
Proof.
  unfold Hscode.is_valid_hs_10, Hscode.is_valid_hs_6plus. intros H.
  apply andb_prop in H as [L D]. apply Nat.eqb_eq in L. rewrite L. simpl.
  rewrite slice_to_nonneg by lia. unfold isdigit in *. rewrite chars_text.
  rewrite <- length_chars in L.
  destruct (chars code_digits) as [|c l]; [discriminate|].
  change (Z.to_nat 6) with 6%nat.
  pose proof (forallb_firstn _ char_isdigit 6 (c :: l) D) as F.
  destruct (firstn 6 (c :: l)) eqn:E; [discriminate E | exact F].
Qed.

Lemma valid_hs_10_is_valid_hs_6plus_witness :
  Hscode.is_valid_hs_10 "3816000009" = true
  /\ Hscode.is_valid_hs_6plus "3816000009" = true.
Proof.
  split; [reflexivity|]. apply (valid_hs_10_is_valid_hs_6plus "3816000009"). reflexivity.
Defined.

Lemma firstn_whole (A : Type) (l : list A) : firstn (List.length l) l = l.
Proof. apply firstn_all. Qed.

(** X4.  [prefix_match] does not depend on which code is the ground truth,
    and on two codes that both pass the ten-digit check the ten-digit
    prefix matches exactly when the codes are equal. *)
Theorem prefix_match_full_length (gt_digits pred_digits : string) (k : Z) :
  Hscode.prefix_match gt_digits pred_digits k = Hscode.prefix_match pred_digits gt_digits k
  /\ (Hscode.is_valid_hs_10 gt_digits = true ->
      Hscode.is_valid_hs_10 pred_digits = true ->
      Hscode.prefix_match gt_digits pred_digits 10
      = (if String.eqb gt_digits pred_digits then 1 else 0)).
Proof.
  split.
  - unfold Hscode.prefix_match. rewrite orb_comm, String.eqb_sym. reflexivity.
  - intros Hg Hp.
    apply andb_prop in Hg as [Lg _]. apply andb_prop in Hp as [Lp _].
    apply Nat.eqb_eq in Lg, Lp.
    unfold Hscode.prefix_match. rewrite Lg, Lp.
    change (Z.of_nat 10 <? 10) with false. cbn [orb].
    rewrite !slice_to_nonneg by lia. change (Z.to_nat 10) with 10%nat.
    rewrite <- Lg at 1. rewrite <- Lp. rewrite <- !length_chars, !firstn_whole, !text_chars.
    reflexivity.
Qed.

Lemma prefix_match_full_length_witness :
  Hscode.prefix_match "3816000009" "3816000010" 4
  = Hscode.prefix_match "3816000010" "3816000009" 4
  /\ Hscode.prefix_match "3816000009" "3816000010" 10 = 0.
Proof.
  destruct (prefix_match_full_length "3816000009" "3816000010" 4) as [S E].
  split; [exact S|]. apply E; reflexivity.
Defined.

(** ** Thresholds and tolerances *)

Lemma SFleb_trans (a b c : spec_float) :
  SFleb a b = true -> SFleb b c = true -> SFleb a c = true.
Proof.
  unfold SFleb.
  destruct a as [sa|sa| |sa ma ea], b as [sb|sb| |sb mb eb], c as [sc|sc| |sc mc ec];
    try destruct sa; try destruct sb; try destruct sc;
    cbn [SFcompare]; try reflexivity; try discriminate;
    change (Pos.compare_cont Eq) with Pos.compare;
    destruct (Z.compare_spec ea eb), (Z.compare_spec eb ec), (Z.compare_spec ea ec);
    try reflexivity; try discriminate; try lia;
    destruct (Pos.compare_spec ma mb), (Pos.compare_spec mb mc), (Pos.compare_spec ma mc);
    cbn [CompOpp]; try reflexivity; try discriminate; lia.
Qed.

(** X5.  Lowering the similarity threshold never turns a match into a miss:
    in each of the five scripts, what [compare_strings] returns at the
    higher threshold is at most what it returns at the lower one. *)
Theorem compare_strings_threshold_monotone {B : PyBuiltins} (y pred : json)
  (t t' : spec_float) :
  SFleb t t' = true ->
  Classification.compare_strings y pred t' <= Classification.compare_strings y pred t
  /\ Hscode.compare_strings y pred t' <= Hscode.compare_strings y pred t
  /\ Invoice.compare_strings y pred t' <= Invoice.compare_strings y pred t
  /\ Parser.compare_strings y pred t' <= Parser.compare_strings y pred t
  /\ Summary.compare_strings y pred t' <= Summary.compare_strings y pred t.
Proof.
  intros H.
  assert (M : forall s, (if SFleb t' s then 1 else 0) <= (if SFleb t s then 1 else 0)).
  { intros s. destruct (SFleb t' s) eqn:E.
    - rewrite (SFleb_trans t t' s H E). lia.
    - destruct (SFleb t s); lia. }
  unfold Classification.compare_strings, Hscode.compare_strings, Invoice.compare_strings,
    Parser.compare_strings, Summary.compare_strings.
  destruct (py_eq y pred), (is_none y || is_none pred),
    (option_text_eqb (Hscode.norm_text y) (Hscode.norm_text pred)),
    (Hscode.norm_text y), (Hscode.norm_text pred);
    repeat split; try apply M; lia.
Qed.

Lemma compare_strings_threshold_monotone_witness :
  SFleb Invoice.default_threshold Classification.default_threshold = true
  /\ Invoice.compare_strings (B := CPython.builtins) (JStr "copper wire") (JStr "copper wires")
       Classification.default_threshold
     <= Invoice.compare_strings (B := CPython.builtins) (JStr "copper wire")
          (JStr "copper wires") Invoice.default_threshold.
Proof.
  split; [reflexivity|].
  apply (compare_strings_threshold_monotone (B := CPython.builtins)
           (JStr "copper wire") (JStr "copper wires")
           Invoice.default_threshold Classification.default_threshold).
  reflexivity.
Defined.

(** X6.  Widening the tolerance never turns a numeric match into a miss:
    [compare_numbers] returns at both tolerances, and the result at the
    smaller tolerance is at most the result at the larger one. *)
Theorem compare_numbers_tolerance_monotone {B : PyBuiltins} (y pred : json)
  (tol tol' : spec_float) :
  SFleb tol tol' = true ->
  exists a b,
    Invoice.compare_numbers y pred tol = Ok a
    /\ Invoice.compare_numbers y pred tol' = Ok b
    /\ a <= b.
Proof.
  intros H. unfold Invoice.compare_numbers.
  destruct (py_eq y pred); [exists 1, 1; repeat split; lia|].
  unfold Invoice.compare_coerced.
  destruct (Invoice.coerce y) as [y_f|e]; cbn [bind try_except];
    [|exists 0, 0; repeat split; lia].
  destruct (Invoice.coerce pred) as [p_f|e]; cbn [bind try_except];
    [|exists 0, 0; repeat split; lia].
  destruct (SFeqb y_f f_zero && SFeqb p_f f_zero); cbn [bind try_except];
    [exists 1, 1; repeat split; lia|].
  destruct (float_truediv _ _) as [rel|e]; cbn [bind try_except];
    [|exists 0, 0; repeat split; lia].
  destruct (SFleb rel tol) eqn:E.
  - rewrite (SFleb_trans rel tol tol' E H). exists 1, 1; repeat split; lia.
  - destruct (SFleb rel tol'); [exists 0, 1 | exists 0, 0]; repeat split; lia.
Qed.

Lemma compare_numbers_tolerance_monotone_witness :
  SFleb Invoice.default_tolerance (dec64 1 100) = true
  /\ exists a b,
       Invoice.compare_numbers (B := CPython.builtins) (JInt 1000) (JInt 1005)
         Invoice.default_tolerance = Ok a
       /\ Invoice.compare_numbers (B := CPython.builtins) (JInt 1000) (JInt 1005)
            (dec64 1 100) = Ok b
       /\ a <= b.
Proof.
  split; [reflexivity|].
  apply (compare_numbers_tolerance_monotone (B := CPython.builtins)
           (JInt 1000) (JInt 1005) Invoice.default_tolerance (dec64 1 100)).
  reflexivity.
Defined.

(** ** The generic-field script (benchmark_parser.py) *)

Lemma walk_ok_or_type_error (d : json) (keys : list string) :
  (exists v, Parser.walk d keys = Ok v) \/ Parser.walk d keys = Raise TypeError.
Proof.
  revert d. induction keys as [|k keys IH]; intros d; [left; now exists d|].
  destruct d as [|b|n|f|s|l|m]; cbn [Parser.walk is_none py_contains bind];
    try (right; reflexivity); try (left; now exists JNull).
  - destruct (is_infix k s); cbn [negb py_getitem bind];
      [right; reflexivity | left; now exists JNull].
  - destruct (existsb _ l); cbn [negb py_getitem bind];
      [right; reflexivity | left; now exists JNull].
  - unfold dict_mem. destruct (dict_get k m) as [v|] eqn:E; cbn [negb].
    + cbn [py_getitem]. rewrite E. cbn [bind]. apply IH.
    + left. now exists JNull.
Qed.

(** X7.  Whatever the document and the path, [safe_get] either returns a
    value or raises [TypeError]: the membership test guards every
    subscript, so no [KeyError], [IndexError] or [AttributeError] comes
    out of it. *)
Theorem safe_get_raises_only_type_error (d : json) (path : string) :
  (exists v, Parser.safe_get d path = Ok v) \/ Parser.safe_get d path = Raise TypeError.
Proof. apply walk_ok_or_type_error. Qed.

Lemma walk_descend (d : json) (keys : list string) :
  objects_along d keys = true -> Parser.walk d keys = Ok (descend d keys).
Proof.
  revert d. induction keys as [|k keys IH]; intros d; [reflexivity|].
  destruct d as [|b|n|f|s|l|m]; cbn [objects_along]; try discriminate; [reflexivity|].
  intros H. cbn [Parser.walk is_none py_contains bind descend]. unfold dict_mem.
  destruct (dict_get k m) as [v|] eqn:E; cbn [negb]; [|reflexivity].
  cbn [py_getitem]. rewrite E. cbn [bind]. now apply IH.
Qed.

(** X8.  When every node on the way is an object or [None], [safe_get]
    returns without raising, and what it returns is the value at the end
    of the chain of keys, or [None] where a key is missing or a node is
    [None]. *)
Theorem safe_get_through_objects (d : json) (path : string) :
  objects_along d (str_split "." path) = true ->
  Parser.safe_get d path = Ok (descend d (str_split "." path)).
Proof. apply walk_descend. Qed.

Lemma safe_get_through_objects_witness :
  objects_along (JDict sample_form) (str_split "." "fields.field_10.subfield_a") = true
  /\ Parser.safe_get (JDict sample_form) "fields.field_10.subfield_a" = Ok (JStr "DE")
  /\ Parser.safe_get (JDict sample_form) "fields.field_17a.subfield_b" = Ok JNull.
Proof.
  split; [reflexivity|]. split.
  - apply (safe_get_through_objects (JDict sample_form) "fields.field_10.subfield_a").
    reflexivity.
  - apply (safe_get_through_objects (JDict sample_form) "fields.field_17a.subfield_b").
    reflexivity.
Defined.

Lemma dict_set_fresh (V : Type) (k : string) (v : V) (d : list (string * V)) :
  ~ In k (dict_keys d) -> dict_set k v d = (d ++ [(k, v)])%list.
Proof.
  induction d as [|[k' v'] d IH]; simpl; [reflexivity|]. intros H.
  destruct (String.eqb_spec k k') as [E|N]; [exfalso; apply H; now left|].
  rewrite IH; [reflexivity|]. intros C. apply H. now right.
Qed.

Section ParserReport.
Context {B : PyBuiltins}.

Lemma parser_compare_strings_bit (y pred : json) (t : spec_float) :
  is_bit (Parser.compare_strings y pred t).
Proof.
  unfold Parser.compare_strings, is_bit.
  destruct (py_eq y pred); [now right|]. destruct (_ || _); [now left|].
  destruct (SFleb _ _); [now right | now left].
Qed.

Lemma check_fields_fold (gt pred : json) (fields : list string) :
  forall (results : list (string * Z)) (n : Z) (res : list (string * Z)) (n' : Z),
    NoDup fields ->
    (forall f, In f fields -> ~ In f (dict_keys results)) ->
    foldM (Parser.check_field gt pred) fields (results, n) = Ok (res, n') ->
    exists new,
      res = (results ++ new)%list /\ map fst new = fields /\ n' = n + sumZ (map snd new)
      /\ forall f m, In (f, m) new -> field_score gt pred f m.
Proof.
  induction fields as [|f fields IH]; intros results n res n' ND Fresh H.
  - cbn [foldM] in H. injection H as <- <-. exists []. rewrite List.app_nil_r. simpl.
    repeat split; [lia | contradiction].
  - cbn [foldM] in H. unfold Parser.check_field at 1 in H.
    destruct (Parser.safe_get gt f) as [g|e] eqn:Eg; cbn [bind] in H; [|discriminate].
    destruct (Parser.safe_get pred f) as [p|e] eqn:Ep; cbn [bind] in H; [|discriminate].
    inversion ND as [|? ? Hf ND']; subst.
    rewrite dict_set_fresh in H by (apply Fresh; now left).
    apply IH in H; [|exact ND'|].
    + destruct H as (new & -> & Hk & -> & Hs).
      exists ((f, Parser.compare_strings g p Parser.default_threshold) :: new).
      rewrite <- app_assoc. cbn [app map fst snd sumZ]. rewrite Hk.
      repeat split; [lia|]. intros f' m [[= <- <-]|Hin]; [|now apply Hs].
      now exists g, p.
    + intros f' Hin. unfold dict_keys. rewrite map_app, in_app_iff. cbn [map fst In].
      intros [C|[C|[]]]; [apply (Fresh f'); [now right | exact C]|].
      subst f'. contradiction.
Qed.

(** X9.  When [evaluate] returns, the field results list the eighteen
    checked fields once each, in the order of [fields_to_check]; each
    score is the 0 or 1 [compare_strings] gives for the two values
    [safe_get] found; and the overall accuracy is the sum of the scores
    over 18, times 100. *)
Theorem parser_evaluate_report (gt pred : json) (results : list (string * Z))
  (acc : spec_float) :
  Parser.evaluate gt pred = Ok (results, acc) ->
  map fst results = Parser.fields_to_check
  /\ List.length results = 18%nat
  /\ (forall f m, In (f, m) results -> field_score gt pred f m /\ is_bit m)
  /\ 0 <= sumZ (map snd results) <= 18
  /\ acc = percent (sumZ (map snd results)) 18.
Proof.
  unfold Parser.evaluate. intros H.
  destruct (foldM _ _ _) as [[res n]|e] eqn:E; cbn [bind] in H; [|discriminate].
  apply check_fields_fold in E;
    [|apply distinct_NoDup; reflexivity | intros f _ []].
  destruct E as (new & -> & Hk & -> & Hs). cbn [app] in H |- *.
  change (int_truediv (0 + sumZ (map snd new)) (Z.of_nat (List.length Parser.fields_to_check)))
    with (Ok (fdiv (exactZ (0 + sumZ (map snd new))) (exactZ 18))) in H.
  cbn [bind] in H. injection H as <- <-.
  assert (Hb : forall f m, In (f, m) new -> is_bit m).
  { intros f m Hin. destruct (Hs f m Hin) as (g & p & _ & _ & ->).
    apply parser_compare_strings_bit. }
  assert (Hl : List.length new = 18%nat).
  { rewrite <- (length_map fst), Hk. reflexivity. }
  split; [exact Hk|]. split; [exact Hl|]. split; [intros f m Hin; split; eauto|].
  split; [|reflexivity].
  assert (G : 0 <= sumZ (map snd new) <= Z.of_nat (List.length new)).
  { clear Hk Hl Hs. induction new as [|[f m] new IH]; [simpl; lia|].
    cbn [map snd sumZ List.length].
    destruct (Hb f m (or_introl eq_refl)) as [-> | ->];
      specialize (IH (fun f' m' Hin => Hb f' m' (or_intror Hin))); lia. }
  rewrite Hl in G. exact G.
Qed.

End ParserReport.

Lemma parser_evaluate_report_witness :
  exists results acc,
    Parser.evaluate (B := CPython.builtins) (JDict sample_form) (JDict sample_summary)
    = Ok (results, acc)
    /\ map fst results = Parser.fields_to_check
    /\ acc = percent (sumZ (map snd results)) 18.
Proof.
  destruct (Parser.evaluate (B := CPython.builtins) (JDict sample_form) (JDict sample_summary))
    as [[results acc]|e] eqn:E; [|discriminate E].
  exists results, acc. split; [reflexivity|].
  destruct (parser_evaluate_report (B := CPython.builtins) _ _ _ _ E) as (K & _ & _ & _ & A).
  split; [exact K | exact A].
Defined.

(** ** Counts of the classification report (benchmark_classification.py) *)

Lemma filter_split_length (A : Type) (f : A -> bool) (l : list A) :
  (List.length (filter f l) + List.length (filter (fun x => negb (f x)) l)
   = List.length l)%nat.
Proof.
  induction l as [|x l IH]; simpl; [reflexivity|].
  destruct (f x); simpl; lia.
Qed.

Lemma common_length_swap (V W : Type) (a : list (string * V)) (b : list (string * W)) :
  NoDup (dict_keys a) -> NoDup (dict_keys b) ->
  List.length (filter (fun p => dict_mem p b) (dict_keys a))
  = List.length (filter (fun p => dict_mem p a) (dict_keys b)).
Proof.
  intros Na Nb. apply Nat.le_antisymm; apply NoDup_incl_length;
    try (apply NoDup_filter; assumption);
    intros x Hx; apply filter_In in Hx as [Hk Hm]; apply filter_In;
    (split; [now apply dict_mem_in_keys | now apply dict_mem_in_keys]).
Qed.

Section ClassificationCounts.
Context {B : PyBuiltins}.

Lemma add_file_NoDup (result result' : list (string * string)) (f : json) :
  Classification.add_file result f = Ok result' ->
  NoDup (dict_keys result) -> NoDup (dict_keys result').
Proof.
  unfold Classification.add_file. intros H ND. inv_bind H. inv_bind H.
  injection H as <-. destruct (negb _); [now apply dict_set_NoDup | exact ND].
Qed.

Lemma build_path_map_NoDup (obj : json) (m : list (string * string)) :
  Classification.build_path_map obj = Ok m -> NoDup (dict_keys m).
Proof.
  unfold Classification.build_path_map. intros H. inv_bind H. inv_bind H.
  apply (foldM_invariant _ _ (fun r => NoDup (dict_keys r)) _ _ _ _) with (3 := H);
    [constructor|].
  intros s1 x s2 _ ND Ea. now apply (add_file_NoDup s1 s2 x).
Qed.

Lemma classification_compare_strings_bit (y pred : json) (t : spec_float) :
  is_bit (Classification.compare_strings y pred t).
Proof.
  unfold Classification.compare_strings, is_bit.
  destruct (py_eq y pred); [now right|]. destruct (_ || _); [now left|].
  destruct (SFleb _ _); [now right | now left].
Qed.

Lemma score_path_common (gm pm : list (string * string))
  (st : Z * list (string * Classification.tally)) (path : string) :
  In path (dict_keys gm) -> dict_mem path pm = true ->
  exists st2,
    Classification.score_path gm pm st path = Ok st2 /\ fst st <= fst st2 <= fst st + 1.
Proof.
  intros Hg Hp. destruct st as [nc stats]. unfold Classification.score_path.
  unfold Classification.lookup at 1 2.
  apply dict_get_in_keys in Hg.
  destruct (dict_get path gm) as [gt_type|]; [|congruence]. cbn [bind].
  unfold dict_mem in Hp.
  destruct (dict_get path pm) as [pred_type|]; [|discriminate]. cbn [bind].
  set (stats0 := if dict_mem gt_type stats then stats
                 else dict_set gt_type
                        {| Classification.total := 0; Classification.correct := 0 |} stats).
  assert (Hv : exists v, dict_get gt_type stats0 = Some v).
  { unfold stats0, dict_mem. destruct (dict_get gt_type stats) as [t|] eqn:E.
    - rewrite E. now exists t.
    - rewrite dict_get_set_same. eauto. }
  destruct Hv as [v Ev]. unfold Classification.lookup. rewrite Ev. cbn [bind].
  rewrite dict_get_set_same. cbn [bind].
  eexists. split; [reflexivity|]. cbn [fst].
  destruct (classification_compare_strings_bit (JStr gt_type) (JStr pred_type)
              Classification.default_threshold) as [-> | ->]; lia.
Qed.

Lemma score_paths_common (gm pm : list (string * string)) (paths : list string) :
  forall st : Z * list (string * Classification.tally),
    (forall p, In p paths -> In p (dict_keys gm) /\ dict_mem p pm = true) ->
    exists st2,
      foldM (Classification.score_path gm pm) paths st = Ok st2
      /\ fst st <= fst st2 <= fst st + Z.of_nat (List.length paths).
Proof.
  induction paths as [|p paths IH]; intros st H.
  - exists st. split; [reflexivity | simpl; lia].
  - destruct (H p (or_introl eq_refl)) as [Hg Hp].
    destruct (score_path_common gm pm st p Hg Hp) as (st1 & E1 & B1).
    destruct (IH st1 (fun q Hq => H q (or_intror Hq))) as (st2 & E2 & B2).
    exists st2. cbn [foldM]. rewrite E1. cbn [bind]. split; [exact E2|].
    cbn [List.length]. lia.
Qed.

Lemma classification_evaluate_shape (gt pred : json) (gm pm : list (string * string)) :
  Classification.build_path_map gt = Ok gm ->
  Classification.build_path_map pred = Ok pm ->
  exists r,
    Classification.evaluate gt pred = Ok r
    /\ Classification.n_items r = Z.of_nat (List.length gm)
    /\ Classification.missing_items r
       = Z.of_nat (List.length (Classification.diff (dict_keys gm) pm))
    /\ Classification.extra_items r
       = Z.of_nat (List.length (Classification.diff (dict_keys pm) gm))
    /\ 0 <= Classification.n_correct r
       <= Z.of_nat (List.length (Classification.inter (dict_keys gm) pm))
    /\ Classification.accuracy r
       = pct_or_zero (Classification.n_correct r) (Classification.n_items r)
    /\ NoDup (map fst (Classification.per_type r)).
Proof.
  intros Eg Ep. unfold Classification.evaluate. rewrite Eg, Ep. cbn [bind].
  destruct (score_paths_common gm pm (Classification.inter (dict_keys gm) pm) (0, []))
    as (st & E & Bd).
  { intros p Hp. apply filter_In in Hp. exact Hp. }
  rewrite E. cbn [bind].
  assert (Hok : tallies_ok st).
  { apply (foldM_invariant _ _ tallies_ok _ _ _ _) with (3 := E).
    - split; [constructor | discriminate].
    - intros s1 x s2 _. apply score_path_tallies. }
  destruct st as [nc stats]. destruct Hok as [ND Ht]. cbn [fst snd] in *.
  rewrite guarded_pct_value. cbn [bind].
  rewrite (mapM_pure _ _ _
             (fun tv : string * Classification.tally =>
                (fst tv, fmul (fdiv (exactZ (Classification.correct (snd tv)))
                                 (exactZ (Classification.total (snd tv)))) f_hundred))).
  - cbn [bind]. eexists. split; [reflexivity|].
    cbn [Classification.n_items Classification.missing_items Classification.extra_items
         Classification.n_correct Classification.accuracy Classification.per_type].
    repeat split; try lia. rewrite map_map. cbn [fst]. exact ND.
  - intros [k v] Hin. cbn [fst snd].
    pose proof (Ht k v (in_dict_get _ _ _ _ ND Hin)) as Hv.
    unfold int_truediv. destruct (Z.eqb_spec (Classification.total v) 0); [lia | reflexivity].
Qed.

(** X10.  Whenever the two path maps can be built, [evaluate] returns, and
    in its report: [n_items] is the number of ground-truth paths; the paths
    both sides have are counted the same from either side
    ([n_items - missing_items] equals the number of predicted paths minus
    [extra_items]); [n_correct] is at most that number of common paths; the
    accuracy is [n_correct] over [n_items] (0 for no items); and every
    category is reported once. *)
Theorem classification_report_counts (gt pred : json) (gm pm : list (string * string)) :
  Classification.build_path_map gt = Ok gm ->
  Classification.build_path_map pred = Ok pm ->
  exists r,
    Classification.evaluate gt pred = Ok r
    /\ Classification.n_items r = Z.of_nat (List.length gm)
    /\ Classification.n_items r - Classification.missing_items r
       = Z.of_nat (List.length pm) - Classification.extra_items r
    /\ 0 <= Classification.missing_items r <= Classification.n_items r
    /\ 0 <= Classification.n_correct r
       <= Classification.n_items r - Classification.missing_items r
    /\ Classification.accuracy r
       = pct_or_zero (Classification.n_correct r) (Classification.n_items r)
    /\ NoDup (map fst (Classification.per_type r)).
Proof.
  intros Eg Ep.
  destruct (classification_evaluate_shape gt pred gm pm Eg Ep)
    as (r & E & Hn & Hm & Hx & Hc & Ha & Hp).
  pose proof (build_path_map_NoDup gt gm Eg) as Ng.
  pose proof (build_path_map_NoDup pred pm Ep) as Np.
  pose proof (filter_split_length _ (fun p => dict_mem p pm) (dict_keys gm)) as Sg.
  pose proof (filter_split_length _ (fun p => dict_mem p gm) (dict_keys pm)) as Sp.
  pose proof (common_length_swap _ _ gm pm Ng Np) as Sw.
  unfold dict_keys in Sg at 3. unfold dict_keys in Sp at 3. rewrite length_map in Sg, Sp.
  unfold Classification.diff, Classification.inter in *.
  exists r. split; [exact E|].
  repeat split; try assumption; lia.
Qed.

(** X11.  Exchanging the roles of the two documents exchanges the missing
    and the extra paths: when [evaluate] returns on a pair it also returns
    on the swapped pair, with [missing_items] and [extra_items] swapped
    and the same number of common paths. *)
Theorem classification_swap_roles (gt pred : json) (r : Classification.report) :
  Classification.evaluate gt pred = Ok r ->
  exists r',
    Classification.evaluate pred gt = Ok r'
    /\ Classification.missing_items r' = Classification.extra_items r
    /\ Classification.extra_items r' = Classification.missing_items r
    /\ Classification.n_items r' - Classification.missing_items r'
       = Classification.n_items r - Classification.missing_items r.
Proof.
  intros H. pose proof H as H0. unfold Classification.evaluate in H0.
  apply bind_ok in H0 as (gm & Eg & H0). apply bind_ok in H0 as (pm & Ep & _).
  destruct (classification_evaluate_shape gt pred gm pm Eg Ep)
    as (r1 & E1 & Hn1 & Hm1 & Hx1 & _).
  rewrite H in E1. injection E1 as <-.
  destruct (classification_evaluate_shape pred gt pm gm Ep Eg)
    as (r' & E' & Hn' & Hm' & Hx' & _).
  pose proof (build_path_map_NoDup gt gm Eg) as Ng.
  pose proof (build_path_map_NoDup pred pm Ep) as Np.
  pose proof (filter_split_length _ (fun p => dict_mem p pm) (dict_keys gm)) as Sg.
  pose proof (filter_split_length _ (fun p => dict_mem p gm) (dict_keys pm)) as Sp.
  pose proof (common_length_swap _ _ gm pm Ng Np) as Sw.
  unfold dict_keys in Sg at 3. unfold dict_keys in Sp at 3. rewrite length_map in Sg, Sp.
  unfold Classification.diff in *.
  exists r'. split; [exact E'|]. repeat split; lia.
Qed.

End ClassificationCounts.

Lemma classification_report_counts_witness :
  Classification.build_path_map (B := CPython.builtins) scenario_gt
  = Ok [("a.pdf", "invoice"); ("b.pdf", "receipt")]
  /\ Classification.build_path_map (B := CPython.builtins) scenario_pred
     = Ok [("a.pdf", "invoice"); ("c.pdf", "receipt")]
  /\ exists r,
       Classification.evaluate (B := CPython.builtins) scenario_gt scenario_pred = Ok r
       /\ Classification.n_items r - Classification.missing_items r
          = 2 - Classification.extra_items r.
Proof.
  split; [reflexivity|]. split; [reflexivity|].
  destruct (classification_report_counts (B := CPython.builtins) scenario_gt scenario_pred
              [("a.pdf", "invoice"); ("b.pdf", "receipt")]
              [("a.pdf", "invoice"); ("c.pdf", "receipt")] eq_refl eq_refl)
    as (r & E & _ & C & _).
  exists r. split; [exact E | exact C].
Defined.

Lemma classification_swap_roles_witness :
  exists r r',
    Classification.evaluate (B := CPython.builtins) scenario_gt scenario_pred = Ok r
    /\ Classification.evaluate (B := CPython.builtins) scenario_pred scenario_gt = Ok r'
    /\ Classification.missing_items r' = Classification.extra_items r
    /\ Classification.extra_items r' = Classification.missing_items r.
Proof.
  destruct (Classification.evaluate (B := CPython.builtins) scenario_gt scenario_pred)
    as [r|e] eqn:E; [|discriminate E].
  destruct (classification_swap_roles (B := CPython.builtins) scenario_gt scenario_pred r E)
    as (r' & E' & M & X & _).
  exists r, r'. repeat split; assumption.
Defined.

(** ** The summary report (benchmark_summary.py) and the item counts *)

Section SummaryReport.
Context {B : PyBuiltins}.

Lemma summary_compare_strings_bit (y pred : json) (t : spec_float) :
  is_bit (Summary.compare_strings y pred t).
Proof.
  unfold Summary.compare_strings, is_bit.
  destruct (py_eq y pred); [now right|]. destruct (_ || _); [now left|].
  destruct (SFleb _ _); [now right | now left].
Qed.

Lemma summary_fold (ms : spec_float) (rows : list ((string * string) * (string * string)))
  (a b : Z) :
  fold_left (Summary.step ms) rows (a, b)
  = (a + sumZ (map sum_hs_hit rows), b + sumZ (map (sum_text_hit ms) rows)).
Proof.
  revert a b. induction rows as [|[[g_hs g_txt] [p_hs p_txt]] rows IH]; intros a b.
  - simpl. now rewrite !Z.add_0_r.
  - cbn [fold_left]. unfold Summary.step at 2. rewrite IH.
    cbn [map sumZ]. unfold sum_hs_hit at 2, sum_text_hit at 2. cbn [fst snd].
    f_equal; lia.
Qed.

Lemma sumZ_combine_bound (A C : Type) (f : A * C -> Z) (xs : list A) (ys : list C) :
  (forall r, is_bit (f r)) ->
  0 <= sumZ (map f (combine xs ys))
    <= Z.min (Z.of_nat (List.length xs)) (Z.of_nat (List.length ys)).
Proof.
  intros Hb.
  assert (H : 0 <= sumZ (map f (combine xs ys))
              <= Z.of_nat (List.length (combine xs ys))).
  { apply sumZ_bits. intros r _. apply Hb. }
  rewrite length_combine in H. lia.
Qed.

Lemma sum_hs_hit_bit (gp : (string * string) * (string * string)) : is_bit (sum_hs_hit gp).
Proof. unfold sum_hs_hit, is_bit. destruct (_ && _); [now right | now left]. Qed.

Lemma extract_pairs_list (d : list (string * json)) (l : list json) :
  items_of (JDict d) = Ok (JList l) ->
  Summary.extract_pairs (JDict d) = Ok (flat_map Summary.pairs_of_item l).
Proof.
  intros E. apply items_of_dict in E. unfold Summary.extract_pairs.
  change (py_get (JDict d) "items" (JList []))
    with (Ok match dict_get "items" d with Some v => v | None => JList [] end).
  cbn [bind]. rewrite E. reflexivity.
Qed.

Lemma summary_evaluate_value (dg dp : list (string * json))
  (gp pp : list (string * string)) (ms : spec_float) :
  Summary.extract_pairs (JDict dg) = Ok gp ->
  Summary.extract_pairs (JDict dp) = Ok pp ->
  let n := Z.of_nat (List.length gp) in
  Summary.evaluate (JDict dg) (JDict dp) ms
  = Ok {| Summary.n_items := n;
          Summary.seller_pct :=
            fmul (Z2SF (Summary.compare_strings (field (JDict dg) "seller_name")
                          (field (JDict dp) "seller_name") ms)) f_hundred;
          Summary.hs_pct := pct_or_zero (sumZ (map sum_hs_hit (combine gp pp))) n;
          Summary.summary_pct := pct_or_zero (sumZ (map (sum_text_hit ms) (combine gp pp))) n;
          Summary.item_count_pct :=
            fmul (Z2SF (if Nat.eqb (List.length gp) (List.length pp) then 1 else 0)) f_hundred;
          Summary.missing_items :=
            Z.max 0 (Z.of_nat (List.length gp) - Z.of_nat (List.length pp));
          Summary.extra_items :=
            Z.max 0 (Z.of_nat (List.length pp) - Z.of_nat (List.length gp));
          Summary.pred_hs10_valid_pct :=
            pct_or_zero (count (fun p => Summary.is_valid_hs10 (fst p)) pp) n |}.
Proof.
  intros Eg Ep n. unfold Summary.evaluate.
  rewrite !dict_get_field. cbn [bind]. rewrite Eg, Ep. cbn [bind].
  rewrite summary_fold. rewrite !guarded_pct_value. cbn [bind Z.add]. reflexivity.
Qed.

Lemma extract_pairs_object (obj : json) (pairs : list (string * string)) :
  Summary.extract_pairs obj = Ok pairs -> exists d, obj = JDict d.
Proof.
  unfold Summary.extract_pairs. destruct obj; try discriminate. intros _. eauto.
Qed.

Lemma pct_or_zero_none (n : Z) : 0 <= n -> pct_or_zero 0 n = f_zero.
Proof.
  intros H. pose proof (guarded_pct_none n H) as G. rewrite guarded_pct_value in G.
  now injection G.
Qed.

(** X12.  For any two objects whose items are lists, whatever the list
    elements are, [main] gets a report from [process_file] and [evaluate]:
    an element that is not an object counts as one empty pair and an
    object as one pair per key.  All three percentages are over the number
    of ground-truth pairs; code and text hits are counted on the pairs at
    common positions, while the ten-digit validity count runs over every
    predicted pair, also those beyond the ground truth; and when no
    ground-truth key holds a digit the code percentage is 0. *)
Theorem summary_report_on_item_lists (dg dp : list (string * json)) (gs ps : list json)
  (ms : spec_float) :
  items_of (JDict dg) = Ok (JList gs) ->
  items_of (JDict dp) = Ok (JList ps) ->
  let gp := flat_map Summary.pairs_of_item gs in
  let pp := flat_map Summary.pairs_of_item ps in
  let n := Z.of_nat (List.length gp) in
  let hs := sumZ (map sum_hs_hit (combine gp pp)) in
  let txt := sumZ (map (sum_text_hit ms) (combine gp pp)) in
  exists r,
    Summary.main_res (JDict dg) (JDict dp) ms = Ok r
    /\ Summary.n_items r = n
    /\ Summary.hs_pct r = pct_or_zero hs n
    /\ Summary.summary_pct r = pct_or_zero txt n
    /\ Summary.pred_hs10_valid_pct r
       = pct_or_zero (count (fun p => Summary.is_valid_hs10 (fst p)) pp) n
    /\ 0 <= hs <= Z.min n (Z.of_nat (List.length pp))
    /\ 0 <= txt <= Z.min n (Z.of_nat (List.length pp))
    /\ ((forall p, In p gp -> fst p = "") -> Summary.hs_pct r = f_zero).
Proof.
  intros Eg Ep gp pp n hs txt.
  apply extract_pairs_list in Eg. apply extract_pairs_list in Ep.
  unfold Summary.main_res. cbn [Summary.process_file bind].
  rewrite (summary_evaluate_value dg dp gp pp ms Eg Ep).
  eexists. split; [reflexivity|].
  cbn [Summary.n_items Summary.hs_pct Summary.summary_pct Summary.pred_hs10_valid_pct].
  repeat (split; [reflexivity|]).
  split; [apply sumZ_combine_bound; apply sum_hs_hit_bit|].
  split; [apply sumZ_combine_bound; intros r; apply summary_compare_strings_bit|].
  intros Hnone. fold hs.
  assert (Z0 : hs = 0).
  { unfold hs. apply (sumZ_zeros _ sum_hs_hit). intros [g p] Hin.
    apply in_combine_l in Hin. unfold sum_hs_hit. cbn [fst snd].
    rewrite (Hnone g Hin). reflexivity. }
  rewrite Z0. apply pct_or_zero_none. lia.
Qed.

(** X13.  In the reports of the summary and the invoice evaluators,
    [missing_items] and [extra_items] are never both positive, neither
    exceeds what it counts from, and the item-count cell is full (100 %
    in the summary report, 1 in the invoice result) exactly when both are
    0. *)
Theorem missing_and_extra_exclude_each_other (gt pred : json) (ms : spec_float) :
  (forall r, Summary.evaluate gt pred ms = Ok r ->
     Z.min (Summary.missing_items r) (Summary.extra_items r) = 0
     /\ 0 <= Summary.missing_items r <= Summary.n_items r
     /\ 0 <= Summary.extra_items r
     /\ Summary.item_count_pct r
        = if Summary.missing_items r + Summary.extra_items r =? 0 then f_hundred else f_zero)
  /\ (forall res, Invoice.evaluate gt pred = Ok res ->
        Z.min (Invoice.missing_items res) (Invoice.extra_items res) = 0
        /\ 0 <= Invoice.missing_items res <= Invoice.n_items res
        /\ 0 <= Invoice.extra_items res
        /\ Invoice.item_count_match res
           = if Invoice.missing_items res + Invoice.extra_items res =? 0 then 1 else 0).
Proof.
  split.
  - intros r H. pose proof H as H0. unfold Summary.evaluate in H0.
    inv_bind H0. inv_bind H0. inv_bind H0. inv_bind H0. clear H0.
    destruct (extract_pairs_object gt _ E1) as [dg ->].
    destruct (extract_pairs_object pred _ E2) as [dp ->].
    rewrite (summary_evaluate_value dg dp _ _ ms E1 E2) in H. injection H as <-.
    cbn [Summary.missing_items Summary.extra_items Summary.n_items Summary.item_count_pct].
    destruct (Nat.eqb_spec (List.length v1) (List.length v2)) as [L|L].
    + rewrite L, Z.sub_diag. cbn [Z.max Z.add Z.eqb Z.min Z.compare].
      repeat split; try lia.
    + destruct (Z.eqb_spec (Z.max 0 (Z.of_nat (List.length v1) - Z.of_nat (List.length v2))
                            + Z.max 0 (Z.of_nat (List.length v2) - Z.of_nat (List.length v1)))
                  0) as [C|C]; [lia|].
      repeat split; try lia.
  - intros res H. unfold Invoice.evaluate in H.
    inv_bind H. inv_bind H. inv_bind H. inv_bind H. inv_bind H.
    inv_bind H. inv_bind H. inv_bind H. inv_bind H. injection H as <-.
    cbn [Invoice.missing_items Invoice.extra_items Invoice.n_items Invoice.item_count_match].
    destruct (Nat.eqb_spec v1 v2) as [L|L].
    + rewrite L, Z.sub_diag. cbn [Z.max Z.add Z.eqb Z.min Z.compare]. repeat split; lia.
    + destruct (Z.eqb_spec (Z.max 0 (Z.of_nat v1 - Z.of_nat v2)
                            + Z.max 0 (Z.of_nat v2 - Z.of_nat v1)) 0) as [C|C]; [lia|].
      repeat split; lia.
Qed.

End SummaryReport.

Lemma summary_report_on_item_lists_witness :
  items_of (JDict sample_summary)
  = Ok (JList [JDict [("3816000009", JStr "refractory cement")];
               JDict [("n/a", JStr "unclassified goods")]])
  /\ items_of (JDict [("items", JList [JStr "3816000009"; JInt 7; JDict []])])
     = Ok (JList [JStr "3816000009"; JInt 7; JDict []])
  /\ exists r,
       Summary.main_res (B := CPython.builtins) (JDict sample_summary)
         (JDict [("items", JList [JStr "3816000009"; JInt 7; JDict []])]) (dec64 85 100)
       = Ok r
       /\ Summary.n_items r = 2.
Proof.
  split; [reflexivity|]. split; [reflexivity|].
  destruct (summary_report_on_item_lists (B := CPython.builtins) sample_summary
              [("items", JList [JStr "3816000009"; JInt 7; JDict []])]
              [JDict [("3816000009", JStr "refractory cement")];
               JDict [("n/a", JStr "unclassified goods")]]
              [JStr "3816000009"; JInt 7; JDict []] (dec64 85 100) eq_refl eq_refl)
    as (r & E & N & _).
  exists r. split; [exact E | exact N].
Defined.

Lemma missing_and_extra_exclude_each_other_witness :
  exists res,
    Invoice.evaluate (B := CPython.builtins) (JDict sample_gt) (JDict sample_pred) = Ok res
    /\ Z.min (Invoice.missing_items res) (Invoice.extra_items res) = 0
    /\ Invoice.item_count_match res
       = if Invoice.missing_items res + Invoice.extra_items res =? 0 then 1 else 0.
Proof.
  destruct (Invoice.evaluate (B := CPython.builtins) (JDict sample_gt) (JDict sample_pred))
    as [res|e] eqn:E; [|discriminate E].
  exists res. split; [reflexivity|].
  destruct (missing_and_extra_exclude_each_other (B := CPython.builtins)
              (JDict sample_gt) (JDict sample_pred) (dec64 85 100)) as [_ I].
  destruct (I res E) as (M & _ & _ & C). split; [exact M | exact C].
Defined.

(** ** Item shapes in the commodity-code evaluator (benchmark_hscode.py) *)

Lemma foldM_ext_in (A St : Type) (f g : St -> A -> outcome St) (xs : list A) (s : St) :
  (forall s' x, In x xs -> f s' x = g s' x) -> foldM f xs s = foldM g xs s.
Proof.
  revert s. induction xs as [|x xs IH]; intros s H; [reflexivity|].
  cbn [foldM]. rewrite (H s x (or_introl eq_refl)).
  destruct (g s x) as [s1|e]; cbn [bind]; [|reflexivity].
  apply IH. intros s' y Hy. apply H. now right.
Qed.

Lemma foldM_raises (A St : Type) (f : St -> A -> outcome St) (e : pyexn)
  (xs : list A) (x0 : A) (s : St) :
  In x0 xs ->
  (forall s', f s' x0 = Raise e) ->
  (forall s' x, In x xs -> (exists s2, f s' x = Ok s2) \/ f s' x = Raise e) ->
  foldM f xs s = Raise e.
Proof.
  revert s. induction xs as [|x xs IH]; intros s Hin Hbad Hall; [contradiction|].
  cbn [foldM].
  destruct (Hall s x (or_introl eq_refl)) as [[s2 E]|E]; rewrite E; cbn [bind];
    [|reflexivity].
  destruct Hin as [->|Hin]; [rewrite Hbad in E; discriminate|].
  apply IH; [exact Hin | exact Hbad |]. intros s' y Hy. apply Hall. now right.
Qed.

Lemma forallb_false_nth (A : Type) (f : A -> bool) (l : list A) :
  forallb f l = false -> exists i x, nth_error l i = Some x /\ f x = false.
Proof.
  induction l as [|a l IH]; [discriminate|]. cbn [forallb].
  destruct (f a) eqn:E; cbn [andb].
  - intros H. destruct (IH H) as (i & x & Hn & Hx). now exists (S i), x.
  - intros _. now exists 0%nat, a.
Qed.

Lemma nth_error_firstn_some (A : Type) (n i : nat) (l : list A) (x : A) :
  nth_error (firstn n l) i = Some x <-> (i < n)%nat /\ nth_error l i = Some x.
Proof.
  revert n l. induction i as [|i IH]; intros [|n] [|a l]; cbn [firstn nth_error];
    try (split; [discriminate | intros [H1 H2]; try discriminate; lia]).
  - split; [intros H; split; [lia | exact H] | intros [_ H]; exact H].
  - rewrite IH. split; intros [H1 H2]; split; try lia; assumption.
Qed.

Lemma align_firstn (gs ps : list json) :
  align gs (firstn (List.length gs) ps) = align gs ps.
Proof.
  revert ps. induction gs as [|g gs IH]; intros ps; [reflexivity|].
  destruct ps as [|p ps]; cbn [List.length firstn align]; [reflexivity|].
  now rewrite IH.
Qed.

Lemma not_record_get (x : json) (k : string) :
  is_record x = false -> py_get (py_or x (JDict [])) k JNull = Raise AttributeError.
Proof.
  unfold is_record, py_or. destruct x; try discriminate;
    intros H; apply negb_false_iff in H; rewrite H; reflexivity.
Qed.

Section HscodeShapes.
Context {B : PyBuiltins}.

Lemma hs_step_surplus (gs ps : list json) (ms : spec_float) (c : Hscode.counters) (i : nat) :
  (i < List.length gs)%nat ->
  Hscode.step (JList gs) (JList ps) (List.length ps) ms c i
  = Hscode.step (JList gs) (JList (firstn (List.length gs) ps))
      (List.length (firstn (List.length gs) ps)) ms c i.
Proof.
  intros Hi. unfold Hscode.step. cbn [py_item].
  destruct (nth_error gs i) as [g|]; cbn [bind]; [|reflexivity].
  destruct (py_get (py_or g (JDict [])) "hs_code" JNull) as [g_code|e]; cbn [bind];
    [|reflexivity].
  rewrite length_firstn.
  assert (L : (i <? Nat.min (List.length gs) (List.length ps))%nat
              = (i <? List.length ps)%nat).
  { destruct (Nat.ltb_spec i (List.length ps));
      [apply Nat.ltb_lt | apply Nat.ltb_ge]; lia. }
  rewrite L. destruct (i <? List.length ps)%nat; [|reflexivity].
  assert (N : nth_error (firstn (List.length gs) ps) i = nth_error ps i).
  { destruct (nth_error ps i) as [p|] eqn:E.
    - now apply nth_error_firstn_some.
    - apply nth_error_None. rewrite length_firstn. apply nth_error_None in E. lia. }
  rewrite N. reflexivity.
Qed.

Lemma hs_loop_surplus (gs ps : list json) (ms : spec_float) (c : Hscode.counters) :
  foldM (Hscode.step (JList gs) (JList ps) (List.length ps) ms) (seq 0 (List.length gs)) c
  = foldM (Hscode.step (JList gs) (JList (firstn (List.length gs) ps))
             (List.length (firstn (List.length gs) ps)) ms) (seq 0 (List.length gs)) c.
Proof.
  apply foldM_ext_in. intros c' i Hi. apply in_seq in Hi. apply hs_step_surplus. lia.
Qed.

Lemma hs_step_cases (gs ps : list json) (ms : spec_float) (c : Hscode.counters) (i : nat) :
  (i < List.length gs)%nat ->
  (exists c', Hscode.step (JList gs) (JList ps) (List.length ps) ms c i = Ok c')
  \/ Hscode.step (JList gs) (JList ps) (List.length ps) ms c i = Raise AttributeError.
Proof.
  intros Hi. unfold Hscode.step. cbn [py_item].
  destruct (nth_error gs i) as [g|] eqn:Eg; [|apply nth_error_None in Eg; lia].
  cbn [bind]. destruct (is_record g) eqn:Rg.
  - rewrite (record_get g "hs_code" Rg). cbn [bind].
    destruct (Nat.ltb_spec i (List.length ps)) as [Hp|Hp]; [|left; eauto].
    destruct (nth_error ps i) as [p|] eqn:Ep; [|apply nth_error_None in Ep; lia].
    cbn [bind]. rewrite (record_get g "item_name" Rg). cbn [bind].
    destruct (is_record p) eqn:Rp.
    + rewrite !(record_get p _ Rp). cbn [bind]. left. eauto.
    + rewrite (not_record_get p "item_name" Rp). right. reflexivity.
  - rewrite (not_record_get g "hs_code" Rg). right. reflexivity.
Qed.

Lemma hs_step_bad (gs ps : list json) (ms : spec_float) (c : Hscode.counters) (i : nat)
  (x : json) :
  (i < List.length gs)%nat ->
  nth_error gs i = Some x \/ nth_error ps i = Some x ->
  is_record x = false ->
  Hscode.step (JList gs) (JList ps) (List.length ps) ms c i = Raise AttributeError.
Proof.
  intros Hi Hx Rx. unfold Hscode.step. cbn [py_item].
  destruct (nth_error gs i) as [g|] eqn:Eg; [|apply nth_error_None in Eg; lia].
  cbn [bind]. destruct (is_record g) eqn:Rg;
    [|rewrite (not_record_get g "hs_code" Rg); reflexivity].
  destruct Hx as [Hx|Hx]; [congruence|].
  rewrite (record_get g "hs_code" Rg). cbn [bind].
  assert (Hp : (i <? List.length ps)%nat = true).
  { apply Nat.ltb_lt, nth_error_Some. congruence. }
  rewrite Hp, Hx. cbn [bind]. rewrite (record_get g "item_name" Rg). cbn [bind].
  rewrite (not_record_get x "item_name" Rx). reflexivity.
Qed.

Lemma hs_loop_bad (gs ps : list json) (ms : spec_float) (c : Hscode.counters) :
  forallb is_record gs && forallb is_record (firstn (List.length gs) ps) = false ->
  foldM (Hscode.step (JList gs) (JList ps) (List.length ps) ms) (seq 0 (List.length gs)) c
  = Raise AttributeError.
Proof.
  intros H.
  assert (Hbad : exists i x, (i < List.length gs)%nat
                             /\ (nth_error gs i = Some x \/ nth_error ps i = Some x)
                             /\ is_record x = false).
  { apply andb_false_iff in H. destruct H as [H|H];
      apply forallb_false_nth in H; destruct H as (i & x & Hn & Hx); exists i, x.
    - split; [apply nth_error_Some; congruence|]. split; [now left | exact Hx].
    - apply nth_error_firstn_some in Hn. destruct Hn as [Hi Hn].
      split; [exact Hi|]. split; [now right | exact Hx]. }
  destruct Hbad as (i & x & Hi & Hx & Rx).
  apply (foldM_raises _ _ _ AttributeError _ i).
  - apply in_seq. lia.
  - intros c'. now apply (hs_step_bad gs ps ms c' i x).
  - intros c' j Hj. apply in_seq in Hj. apply hs_step_cases. lia.
Qed.

Lemma hs_loop_common (gs ps : list json) (ms : spec_float) :
  forallb is_record gs = true ->
  forallb is_record (firstn (List.length gs) ps) = true ->
  foldM (Hscode.step (JList gs) (JList ps) (List.length ps) ms)
    (seq 0 (List.length gs)) Hscode.counters0
  = Ok (fold_left (hs_row ms) (align gs ps) Hscode.counters0).
Proof.
  intros Rg Rp. rewrite hs_loop_surplus, (hs_loop gs _ ms Rg Rp), align_firstn. reflexivity.
Qed.

Lemma hscode_evaluate_loop (dg dp : list (string * json)) (gs ps : list json)
  (ms : spec_float) :
  items_of (JDict dg) = Ok (JList gs) ->
  items_of (JDict dp) = Ok (JList ps) ->
  Hscode.evaluate (JDict dg) (JDict dp) ms
  = (c <- foldM (Hscode.step (JList gs) (JList ps) (List.length ps) ms)
            (seq 0 (List.length gs)) Hscode.counters0 ;;
     let n := Z.of_nat (List.length gs) in
     gt_10_pct <- guarded_pct (Hscode.gt_valid_10 c) n ;;
     gt_6_pct <- guarded_pct (Hscode.gt_valid_6 c) n ;;
     pr_10_pct <- guarded_pct (Hscode.pr_valid_10 c) n ;;
     pr_6_pct <- guarded_pct (Hscode.pr_valid_6 c) n ;;
     acc <- mapM (fun kh : Z * Z => p <- guarded_pct (snd kh) n ;; Ok (fst kh, p))
              (Hscode.prefix_hits c) ;;
     item_name_pct <- guarded_pct (Hscode.item_name_matches c) n ;;
     acc10 <- Hscode.acc_at acc 10 ;;
     acc6 <- Hscode.acc_at acc 6 ;;
     Ok {| Hscode.n_items := n;
           Hscode.seller_name_match :=
             fmul (Z2SF (Hscode.compare_strings (field (JDict dg) "seller_name")
                           (field (JDict dp) "seller_name") ms)) f_hundred;
           Hscode.item_name_match_table := item_name_pct;
           Hscode.y_10_match_table := gt_10_pct;
           Hscode.y_6_match_table := gt_6_pct;
           Hscode.pred_10_match_table := pr_10_pct;
           Hscode.pred_6_match_table := pr_6_pct;
           Hscode.accuracy_10 := acc10;
           Hscode.accuracy_6 := acc6;
           Hscode.metadata := acc |}).
Proof.
  intros Eg Ep. apply items_of_dict in Eg. apply items_of_dict in Ep.
  unfold Hscode.evaluate.
  change (py_get (JDict dg) "items" (JList []))
    with (Ok match dict_get "items" dg with Some v => v | None => JList [] end).
  change (py_get (JDict dp) "items" (JList []))
    with (Ok match dict_get "items" dp with Some v => v | None => JList [] end).
  cbn [bind]. rewrite Eg, Ep. cbn [py_len bind].
  rewrite !dict_get_field. cbn [bind]. reflexivity.
Qed.

End HscodeShapes.

Lemma sumZ_le (A : Type) (f g : A -> Z) (l : list A) :
  (forall x, In x l -> f x <= g x) -> sumZ (map f l) <= sumZ (map g l).
Proof.
  induction l as [|x l IH]; intros H; cbn [map sumZ]; [lia|].
  pose proof (H x (or_introl eq_refl)).
  specialize (IH (fun y Hy => H y (or_intror Hy))). lia.
Qed.

Lemma prefix_match_le (gt pred : string) (k k' : Z) :
  0 <= k -> k <= k' ->
  Hscode.prefix_match gt pred k' <= Hscode.prefix_match gt pred k.
Proof.
  intros Hk Hkk.
  destruct (prefix_match_bit gt pred k') as [E'|E']; rewrite E';
    [destruct (prefix_match_bit gt pred k) as [E|E]; rewrite E; lia|].
  apply (prefix_match_spec gt pred k' ltac:(lia)) in E'. destruct E' as (Lg & Lp & F).
  assert (E : Hscode.prefix_match gt pred k = 1).
  { apply (prefix_match_spec gt pred k Hk). repeat split; try lia.
    apply (firstn_shorter _ _ (Z.to_nat k')); [lia | exact F]. }
  rewrite E. lia.
Qed.

Section HscodeCurve.
Context {B : PyBuiltins}.

(** On two objects whose items are lists in which every ground-truth item
    and every predicted item at a ground-truth position is a record,
    [evaluate] returns this report. *)
Lemma hscode_evaluate_common (dg dp : list (string * json)) (gs ps : list json)
  (ms : spec_float) :
  items_of (JDict dg) = Ok (JList gs) ->
  items_of (JDict dp) = Ok (JList ps) ->
  forallb is_record gs = true ->
  forallb is_record (firstn (List.length gs) ps) = true ->
  let n := Z.of_nat (List.length gs) in
  let rows := align gs ps in
  Hscode.evaluate (JDict dg) (JDict dp) ms
  = Ok {| Hscode.n_items := n;
          Hscode.seller_name_match :=
            fmul (Z2SF (Hscode.compare_strings (field (JDict dg) "seller_name")
                          (field (JDict dp) "seller_name") ms)) f_hundred;
          Hscode.item_name_match_table := pct_or_zero (sumZ (map (name_hit ms) rows)) n;
          Hscode.y_10_match_table := pct_or_zero (sumZ (map gt_10_hit rows)) n;
          Hscode.y_6_match_table := pct_or_zero (sumZ (map gt_6_hit rows)) n;
          Hscode.pred_10_match_table := pct_or_zero (sumZ (map pr_10_hit rows)) n;
          Hscode.pred_6_match_table := pct_or_zero (sumZ (map pr_6_hit rows)) n;
          Hscode.accuracy_10 := pct_or_zero (sumZ (map (prefix_hit 10) rows)) n;
          Hscode.accuracy_6 := pct_or_zero (sumZ (map (prefix_hit 6) rows)) n;
          Hscode.metadata :=
            map (fun k => (k, pct_or_zero (sumZ (map (prefix_hit k) rows)) n))
              Hscode.prefix_lengths |}.
Proof.
  intros Eg Ep Rg Rp n rows.
  rewrite (hscode_evaluate_loop dg dp gs ps ms Eg Ep).
  rewrite (hs_loop_common gs ps ms Rg Rp). cbn [bind].
  rewrite hs_fold_fields. fold rows.
  cbn [Hscode.item_name_matches Hscode.gt_valid_10 Hscode.gt_valid_6 Hscode.pr_valid_10
       Hscode.pr_valid_6 Hscode.prefix_hits Hscode.counters0].
  cbv zeta. fold n.
  rewrite !guarded_pct_value. cbn [bind].
  rewrite (mapM_pure _ _ _ (fun kh : Z * Z => (fst kh, pct_or_zero (snd kh) n)))
    by (intros x _; rewrite guarded_pct_value; reflexivity).
  cbn [bind]. unfold Hscode.prefix_lengths. cbn [map fst snd Z.add].
  unfold Hscode.acc_at. cbn [find fst snd Z.eqb Pos.eqb]. cbn [bind].
  reflexivity.
Qed.

(** X14.  On two objects whose items are lists, the commodity-code run
    returns a report exactly when every ground-truth item, and every
    predicted item at a ground-truth position, is an object or a value
    that [x or {}] replaces by the empty object; otherwise it raises
    [AttributeError]. *)
Theorem hscode_evaluate_item_shapes (dg dp : list (string * json)) (gs ps : list json)
  (ms : spec_float) :
  items_of (JDict dg) = Ok (JList gs) ->
  items_of (JDict dp) = Ok (JList ps) ->
  if forallb is_record gs && forallb is_record (firstn (List.length gs) ps)
  then exists r, Hscode.main_res (JDict dg) (JDict dp) ms = Ok r
                 /\ Hscode.n_items r = Z.of_nat (List.length gs)
  else Hscode.main_res (JDict dg) (JDict dp) ms = Raise AttributeError.
Proof.
  intros Eg Ep. unfold Hscode.main_res. cbn [Hscode.load_json bind].
  destruct (forallb is_record gs && forallb is_record (firstn (List.length gs) ps)) eqn:R.
  - apply andb_prop in R as [Rg Rp].
    rewrite (hscode_evaluate_common dg dp gs ps ms Eg Ep Rg Rp).
    eexists. split; reflexivity.
  - rewrite (hscode_evaluate_loop dg dp gs ps ms Eg Ep).
    rewrite (hs_loop_bad gs ps ms _ R). reflexivity.
Qed.

(** X15.  Predicted items beyond the last ground-truth position are never
    read: cutting the predicted list down to the ground-truth length
    changes nothing in what [evaluate] returns or raises. *)
Theorem hscode_surplus_predictions_ignored (dg dp dp' : list (string * json))
  (gs ps : list json) (ms : spec_float) :
  items_of (JDict dg) = Ok (JList gs) ->
  items_of (JDict dp) = Ok (JList ps) ->
  items_of (JDict dp') = Ok (JList (firstn (List.length gs) ps)) ->
  field (JDict dp') "seller_name" = field (JDict dp) "seller_name" ->
  Hscode.evaluate (JDict dg) (JDict dp') ms = Hscode.evaluate (JDict dg) (JDict dp) ms.
Proof.
  intros Eg Ep Ep' Es.
  rewrite (hscode_evaluate_loop dg dp gs ps ms Eg Ep).
  rewrite (hscode_evaluate_loop dg dp' gs _ ms Eg Ep').
  rewrite Es, <- hs_loop_surplus. reflexivity.
Qed.

(** X16.  The prefix accuracies come from hit counts that never grow with
    the prefix length: in the report of [evaluate], the entry for each k
    from 1 to 10 is [hits k / n_items * 100] (0 for no items), where
    [hits k] counts the aligned pairs whose codes agree on k digits, and
    [hits k' <= hits k] whenever [k <= k']. *)
Theorem hscode_hit_counts_non_increasing (dg dp : list (string * json))
  (gs ps : list json) (ms : spec_float) :
  items_of (JDict dg) = Ok (JList gs) ->
  items_of (JDict dp) = Ok (JList ps) ->
  forallb is_record gs = true ->
  forallb is_record (firstn (List.length gs) ps) = true ->
  let n := Z.of_nat (List.length gs) in
  let hits := fun k => sumZ (map (prefix_hit k) (align gs ps)) in
  exists r,
    Hscode.evaluate (JDict dg) (JDict dp) ms = Ok r
    /\ Hscode.metadata r = map (fun k => (k, pct_or_zero (hits k) n)) Hscode.prefix_lengths
    /\ Hscode.accuracy_10 r = pct_or_zero (hits 10) n
    /\ Hscode.accuracy_6 r = pct_or_zero (hits 6) n
    /\ (forall k k', 1 <= k -> k <= k' -> 0 <= hits k' <= hits k)
    /\ (forall k, hits k <= count (fun gp => long_enough k (fst gp)) (align gs ps)).
Proof.
  intros Eg Ep Rg Rp n hits.
  rewrite (hscode_evaluate_common dg dp gs ps ms Eg Ep Rg Rp).
  eexists. split; [reflexivity|].
  cbn [Hscode.metadata Hscode.accuracy_10 Hscode.accuracy_6].
  repeat (split; [reflexivity|]). split.
  - intros k k' H1 Hkk. split.
    + apply (sumZ_bits _ (prefix_hit k')). intros gp _. apply prefix_hit_bit.
    + apply sumZ_le. intros [g o] _. unfold prefix_hit. cbn [fst snd].
      destruct o as [p|]; [apply prefix_match_le; lia | lia].
  - intros k. rewrite <- sumZ_count. apply sumZ_le. intros [g o] _.
    unfold prefix_hit, long_enough. cbn [fst snd].
    destruct o as [p|]; [|destruct (_ <=? _); lia].
    destruct (Z.leb_spec k (Z.of_nat (str_len (hs_code_of g)))) as [L|L].
    + destruct (prefix_match_bit (hs_code_of g) (hs_code_of p) k) as [-> | ->]; lia.
    + unfold Hscode.prefix_match.
      destruct (Z.ltb_spec (Z.of_nat (str_len (hs_code_of g))) k); [cbn [orb]; lia | lia].
Qed.

End HscodeCurve.

Lemma hscode_evaluate_item_shapes_witness :
  items_of (JDict sample_gt) = Ok (JList sample_three)
  /\ items_of (JDict [("items", JList [JDict []; JStr "7408.11"])])
     = Ok (JList [JDict []; JStr "7408.11"])
  /\ Hscode.main_res (B := CPython.builtins) (JDict sample_gt)
       (JDict [("items", JList [JDict []; JStr "7408.11"])]) (dec64 85 100)
     = Raise AttributeError.
Proof.
  split; [reflexivity|]. split; [reflexivity|].
  apply (hscode_evaluate_item_shapes (B := CPython.builtins) sample_gt
           [("items", JList [JDict []; JStr "7408.11"])] sample_three
           [JDict []; JStr "7408.11"] (dec64 85 100) eq_refl eq_refl).
Defined.

Lemma hscode_surplus_predictions_ignored_witness :
  items_of (JDict sample_gt) = Ok (JList sample_three)
  /\ items_of (JDict sample_pred) = Ok (JList sample_five)
  /\ Hscode.evaluate (B := CPython.builtins) (JDict sample_gt)
       (JDict [("seller_name", JStr "ACME Ltd."); ("items", JList (firstn 3 sample_five))])
       (dec64 85 100)
     = Hscode.evaluate (B := CPython.builtins) (JDict sample_gt) (JDict sample_pred)
         (dec64 85 100).
Proof.
  split; [reflexivity|]. split; [reflexivity|].
  apply (hscode_surplus_predictions_ignored (B := CPython.builtins) sample_gt sample_pred
           [("seller_name", JStr "ACME Ltd."); ("items", JList (firstn 3 sample_five))]
           sample_three sample_five (dec64 85 100)); reflexivity.
Defined.

Lemma hscode_hit_counts_non_increasing_witness :
  items_of (JDict sample_gt) = Ok (JList sample_three)
  /\ items_of (JDict sample_pred) = Ok (JList sample_five)
  /\ forallb is_record sample_three = true
  /\ forallb is_record (firstn (List.length sample_three) sample_five) = true
  /\ exists r,
       Hscode.evaluate (B := CPython.builtins) (JDict sample_gt) (JDict sample_pred)
         (dec64 85 100) = Ok r
       /\ Hscode.accuracy_6 r
          = pct_or_zero (sumZ (map (prefix_hit (B := CPython.builtins) 6)
                                 (align sample_three sample_five))) 3.
Proof.
  split; [reflexivity|]. split; [reflexivity|]. split; [reflexivity|].
  split; [reflexivity|].
  destruct (hscode_hit_counts_non_increasing (B := CPython.builtins) sample_gt sample_pred
              sample_three sample_five (dec64 85 100) eq_refl eq_refl eq_refl eq_refl)
    as (r & E & _ & _ & A6 & _).
  exists r. split; [exact E | exact A6].
Defined.

(** ** Shapes the path map and the field checks accept *)

Lemma foldM_ok_or_raise (A St : Type) (f : St -> A -> outcome St) (e : pyexn)
  (xs : list A) (s : St) :
  (forall s' x, In x xs -> (exists s2, f s' x = Ok s2) \/ f s' x = Raise e) ->
  (exists s2, foldM f xs s = Ok s2) \/ foldM f xs s = Raise e.
Proof.
  revert s. induction xs as [|x xs IH]; intros s H; [left; now exists s|].
  cbn [foldM].
  destruct (H s x (or_introl eq_refl)) as [[s2 E]|E]; rewrite E; cbn [bind];
    [|now right].
  apply IH. intros s' y Hy. apply H. now right.
Qed.

Lemma objects_are_dicts (fs : list json) :
  forallb is_object fs = true -> exists ds, fs = map JDict ds.
Proof.
  induction fs as [|f fs IH]; [now exists []|]. cbn [forallb]. intros H.
  apply andb_prop in H as [Hf Hfs]. destruct (IH Hfs) as [ds ->].
  destruct f; try discriminate. now exists (d :: ds).
Qed.

Section PathMapShapes.
Context {B : PyBuiltins}.

Lemma add_file_not_object (result : list (string * string)) (f : json) :
  is_object f = false -> Classification.add_file result f = Raise AttributeError.
Proof. destruct f; try discriminate; reflexivity. Qed.

Lemma add_file_cases (result : list (string * string)) (f : json) :
  (exists r, Classification.add_file result f = Ok r)
  \/ Classification.add_file result f = Raise AttributeError.
Proof.
  destruct (is_object f) eqn:E; [|right; now apply add_file_not_object].
  destruct f; try discriminate. left. rewrite add_file_entry. eauto.
Qed.

Lemma add_files_bad (fs : list json) (acc : list (string * string)) :
  forallb is_object fs = false ->
  foldM Classification.add_file fs acc = Raise AttributeError.
Proof.
  intros H. apply forallb_false_nth in H. destruct H as (i & x & Hn & Hx).
  apply (foldM_raises _ _ _ AttributeError _ x).
  - eapply nth_error_In; eauto.
  - intros r. now apply add_file_not_object.
  - intros r y _. apply add_file_cases.
Qed.

(** X17.  What [build_path_map] does with each shape of document.  A
    document that is not an object raises [AttributeError].  In an object,
    a missing ["files"] key gives the empty map; a list of objects gives a
    map with at most one entry per list element; a list with any element
    that is not an object (also [None]) raises [AttributeError]; a text
    or an object in place of the list gives the empty map when empty and
    raises [AttributeError] otherwise; [None], a Boolean or a number in
    place of the list raises [TypeError]. *)
Theorem build_path_map_entry_shapes (obj : json) :
  match obj with
  | JDict d =>
      match dict_get "files" d with
      | None => Classification.build_path_map obj = Ok []
      | Some (JList fs) =>
          if forallb is_object fs
          then exists m, Classification.build_path_map obj = Ok m
                         /\ (List.length m <= List.length fs)%nat
          else Classification.build_path_map obj = Raise AttributeError
      | Some (JStr s) =>
          Classification.build_path_map obj
          = if String.eqb s "" then Ok [] else Raise AttributeError
      | Some (JDict m) =>
          Classification.build_path_map obj
          = if Nat.eqb (List.length m) 0 then Ok [] else Raise AttributeError
      | Some _ => Classification.build_path_map obj = Raise TypeError
      end
  | _ => Classification.build_path_map obj = Raise AttributeError
  end.
Proof.
  destruct obj as [|b|n|f|s|l|d]; try reflexivity.
  unfold Classification.build_path_map. cbn [py_get bind].
  destruct (dict_get "files" d) as [v|]; [|reflexivity].
  destruct v as [|b|n|f|s|fs|m]; try reflexivity.
  - destruct s as [|c s]; reflexivity.
  - cbn [py_iter bind]. destruct (forallb is_object fs) eqn:E.
    + destruct (objects_are_dicts fs E) as [ds ->]. rewrite foldM_add_file.
      eexists. split; [reflexivity|].
      rewrite path_map_length, length_map.
      pose proof (nodup_length_le (nonempty_paths ds)).
      pose proof (nonempty_paths_length ds). lia.
    + now apply add_files_bad.
  - destruct m as [|[k v] m]; reflexivity.
Qed.

End PathMapShapes.

Section ParserOutcomes.
Context {B : PyBuiltins}.

Lemma check_field_cases (gt pred : json) (st : list (string * Z) * Z) (f : string) :
  (exists st2, Parser.check_field gt pred st f = Ok st2)
  \/ Parser.check_field gt pred st f = Raise TypeError.
Proof.
  destruct st as [results n]. unfold Parser.check_field, Parser.safe_get.
  destruct (walk_ok_or_type_error gt (str_split "." f)) as [[g ->]| ->]; cbn [bind];
    [|now right].
  destruct (walk_ok_or_type_error pred (str_split "." f)) as [[p ->]| ->]; cbn [bind];
    [|now right].
  left. eauto.
Qed.

Lemma check_field_objects (gt pred : json) (st : list (string * Z) * Z) (f : string) :
  objects_along gt (str_split "." f) && objects_along pred (str_split "." f) = true ->
  exists st2, Parser.check_field gt pred st f = Ok st2.
Proof.
  intros H. apply andb_prop in H as [Hg Hp].
  destruct st as [results n]. unfold Parser.check_field, Parser.safe_get.
  rewrite (walk_descend gt _ Hg), (walk_descend pred _ Hp). cbn [bind]. eauto.
Qed.

Lemma check_fields_objects (gt pred : json) (fields : list string) :
  forall st : list (string * Z) * Z,
    forallb (fun f => objects_along gt (str_split "." f)
                      && objects_along pred (str_split "." f)) fields = true ->
    exists st2, foldM (Parser.check_field gt pred) fields st = Ok st2.
Proof.
  induction fields as [|f fields IH]; intros st H; [now exists st|].
  cbn [forallb] in H. apply andb_prop in H as [Hf Hfs].
  destruct (check_field_objects gt pred st f Hf) as [st1 E1].
  cbn [foldM]. rewrite E1. cbn [bind]. now apply IH.
Qed.

(** X18.  The generic-field [evaluate] either returns or raises
    [TypeError], nothing else; and it returns whenever, on each of the
    eighteen paths, every node visited in both documents is an object or
    [None]. *)
Theorem parser_evaluate_outcomes (gt pred : json) :
  ((exists res, Parser.evaluate gt pred = Ok res)
   \/ Parser.evaluate gt pred = Raise TypeError)
  /\ (forallb (fun f => objects_along gt (str_split "." f)
                        && objects_along pred (str_split "." f))
        Parser.fields_to_check = true ->
      exists res, Parser.evaluate gt pred = Ok res).
Proof.
  split.
  - unfold Parser.evaluate.
    destruct (foldM_ok_or_raise _ _ (Parser.check_field gt pred) TypeError
                Parser.fields_to_check ([], 0)
                (fun st f _ => check_field_cases gt pred st f)) as [[[res n] ->]| ->];
      [left | now right].
    cbn [bind]. eexists. reflexivity.
  - intros H. unfold Parser.evaluate.
    destruct (check_fields_objects gt pred Parser.fields_to_check ([], 0) H)
      as [[res n] ->].
    cbn [bind]. eexists. reflexivity.
Qed.

End ParserOutcomes.

Lemma parser_evaluate_outcomes_witness :
  forallb (fun f => objects_along (JDict sample_form) (str_split "." f)
                    && objects_along (JDict sample_summary) (str_split "." f))
    Parser.fields_to_check = true
  /\ exists res,
       Parser.evaluate (B := CPython.builtins) (JDict sample_form) (JDict sample_summary)
       = Ok res.
Proof.
  split; [reflexivity|].
  apply (parser_evaluate_outcomes (B := CPython.builtins) (JDict sample_form)
           (JDict sample_summary)).
  reflexivity.
Defined.

(** ** Item shapes in the invoice evaluator (benchmark_invoice.py) *)

Section InvoiceShapes.
Context {B : PyBuiltins}.

Lemma inv_step_row_at (ys ps : list json) (c : Invoice.item_counts) (i : nat) (y p : json) :
  nth_error ys i = Some y -> nth_error ps i = Some p ->
  is_record y = true -> is_record p = true ->
  Invoice.step (JList ys) (JList ps) c i = Ok (inv_row c (y, p)).
Proof.
  intros Ey Ep Ry Rp.
  unfold Invoice.step, inv_row, inv_text_hit, inv_number_hit.
  cbn [py_item fst snd]. rewrite Ey, Ep. cbn [bind].
  rewrite !(record_get y _ Ry), !(record_get p _ Rp). cbn [bind].
  rewrite !compare_numbers_value. cbn [bind]. reflexivity.
Qed.

Lemma inv_step_bad (ys ps : list json) (c : Invoice.item_counts) (i : nat) (y p : json) :
  nth_error ys i = Some y -> nth_error ps i = Some p ->
  is_record y && is_record p = false ->
  Invoice.step (JList ys) (JList ps) c i = Raise AttributeError.
Proof.
  intros Ey Ep R. unfold Invoice.step. cbn [py_item]. rewrite Ey, Ep. cbn [bind].
  destruct (is_record y) eqn:Ry;
    [|rewrite (not_record_get y "item_name" Ry); reflexivity].
  rewrite (record_get y "item_name" Ry). cbn [bind].
  cbn [andb] in R. rewrite (not_record_get p "item_name" R). reflexivity.
Qed.

Lemma inv_step_cases (ys ps : list json) (c : Invoice.item_counts) (i : nat) :
  (i < Nat.min (List.length ys) (List.length ps))%nat ->
  (exists c', Invoice.step (JList ys) (JList ps) c i = Ok c')
  \/ Invoice.step (JList ys) (JList ps) c i = Raise AttributeError.
Proof.
  intros Hi.
  destruct (nth_error ys i) as [y|] eqn:Ey; [|apply nth_error_None in Ey; lia].
  destruct (nth_error ps i) as [p|] eqn:Ep; [|apply nth_error_None in Ep; lia].
  destruct (is_record y && is_record p) eqn:R.
  - apply andb_prop in R as [Ry Rp]. left.
    rewrite (inv_step_row_at ys ps c i y p Ey Ep Ry Rp). eauto.
  - right. now apply (inv_step_bad ys ps c i y p).
Qed.

Lemma inv_loop_common (ys ps : list json) :
  forallb is_record (firstn (List.length ps) ys) = true ->
  forallb is_record (firstn (List.length ys) ps) = true ->
  foldM (Invoice.step (JList ys) (JList ps))
    (seq 0 (Nat.min (List.length ys) (List.length ps)))
    {| Invoice.item_name := 0; Invoice.quantity := 0;
       Invoice.unit_price := 0; Invoice.total_price := 0 |}
  = Ok (fold_left inv_row (combine ys ps)
          {| Invoice.item_name := 0; Invoice.quantity := 0;
             Invoice.unit_price := 0; Invoice.total_price := 0 |}).
Proof.
  intros Ry Rp. rewrite <- length_combine.
  apply foldM_rows. intros c i [y p] Hn.
  pose proof Hn as Hc. apply combine_nth in Hc. destruct Hc as [Ey Ep].
  assert (Hy : (i < List.length ys)%nat) by (apply nth_error_Some; congruence).
  assert (Hp : (i < List.length ps)%nat) by (apply nth_error_Some; congruence).
  apply inv_step_row_at; try assumption.
  - apply (nth_error_record (firstn (List.length ps) ys) i y Ry).
    now apply nth_error_firstn_some.
  - apply (nth_error_record (firstn (List.length ys) ps) i p Rp).
    now apply nth_error_firstn_some.
Qed.

Lemma inv_loop_bad (ys ps : list json) (c : Invoice.item_counts) :
  forallb is_record (firstn (List.length ps) ys)
  && forallb is_record (firstn (List.length ys) ps) = false ->
  foldM (Invoice.step (JList ys) (JList ps))
    (seq 0 (Nat.min (List.length ys) (List.length ps))) c
  = Raise AttributeError.
Proof.
  intros H.
  assert (Hbad : exists i y p, nth_error ys i = Some y /\ nth_error ps i = Some p
                               /\ is_record y && is_record p = false).
  { apply andb_false_iff in H. destruct H as [H|H];
      apply forallb_false_nth in H; destruct H as (i & x & Hn & Hx);
      apply nth_error_firstn_some in Hn; destruct Hn as [Hi Hn].
    - destruct (nth_error ps i) as [p|] eqn:Ep; [|apply nth_error_None in Ep; lia].
      exists i, x, p. rewrite Hx. now repeat split.
    - destruct (nth_error ys i) as [y|] eqn:Ey; [|apply nth_error_None in Ey; lia].
      exists i, y, x. rewrite Hx, andb_false_r. now repeat split. }
  destruct Hbad as (i & y & p & Ey & Ep & R).
  apply (foldM_raises _ _ _ AttributeError _ i).
  - apply in_seq.
    assert ((i < List.length ys)%nat) by (apply nth_error_Some; congruence).
    assert ((i < List.length ps)%nat) by (apply nth_error_Some; congruence). lia.
  - intros c'. now apply (inv_step_bad ys ps c' i y p).
  - intros c' j Hj. apply in_seq in Hj. apply inv_step_cases. lia.
Qed.

Lemma invoice_evaluate_loop (dy dp : list (string * json)) (ys ps : list json) :
  items_of (JDict dy) = Ok (JList ys) ->
  items_of (JDict dp) = Ok (JList ps) ->
  Invoice.evaluate (JDict dy) (JDict dp)
  = (c <- foldM (Invoice.step (JList ys) (JList ps))
            (seq 0 (Nat.min (List.length ys) (List.length ps)))
            {| Invoice.item_name := 0; Invoice.quantity := 0;
               Invoice.unit_price := 0; Invoice.total_price := 0 |} ;;
     Ok {| Invoice.seller_name :=
             Invoice.compare_strings (field (JDict dy) "seller_name")
               (field (JDict dp) "seller_name") Invoice.default_threshold;
           Invoice.sum_total_quantity :=
             number_match (field (JDict dy) "sum_total_quantity")
               (field (JDict dp) "sum_total_quantity");
           Invoice.sum_total_price :=
             number_match (field (JDict dy) "sum_total_price")
               (field (JDict dp) "sum_total_price");
           Invoice.currency :=
             Invoice.compare_strings (field (JDict dy) "currency")
               (field (JDict dp) "currency") Invoice.default_threshold;
           Invoice.n_items := Z.of_nat (List.length ys);
           Invoice.item_count_match :=
             if Nat.eqb (List.length ys) (List.length ps) then 1 else 0;
           Invoice.missing_items :=
             Z.max 0 (Z.of_nat (List.length ys) - Z.of_nat (List.length ps));
           Invoice.extra_items :=
             Z.max 0 (Z.of_nat (List.length ps) - Z.of_nat (List.length ys));
           Invoice.items := c |}).
Proof.
  intros Ey Ep. apply items_of_dict in Ey. apply items_of_dict in Ep.
  unfold Invoice.evaluate, Invoice.text_field, Invoice.number_field.
  change (py_get (JDict dy) "items" (JList []))
    with (Ok match dict_get "items" dy with Some v => v | None => JList [] end).
  change (py_get (JDict dp) "items" (JList []))
    with (Ok match dict_get "items" dp with Some v => v | None => JList [] end).
  cbn [bind]. rewrite Ey, Ep. cbn [py_len bind].
  destruct (foldM _ _ _) as [c|e]; cbn [bind]; [|reflexivity].
  rewrite !dict_get_field. cbn [bind].
  rewrite !compare_numbers_value. cbn [bind]. reflexivity.
Qed.

(** X19.  On two objects whose items are lists, the invoice [evaluate]
    reads the items at the positions both lists have and nothing beyond:
    it returns exactly when each of those items, on both sides, is an
    object or a value that [x or {}] replaces by the empty object, and
    then the four item counts are sums over the pairs at those positions;
    otherwise it raises [AttributeError]. *)
Theorem invoice_evaluate_item_shapes (dy dp : list (string * json)) (ys ps : list json) :
  items_of (JDict dy) = Ok (JList ys) ->
  items_of (JDict dp) = Ok (JList ps) ->
  if forallb is_record (firstn (List.length ps) ys)
     && forallb is_record (firstn (List.length ys) ps)
  then exists res,
         Invoice.evaluate (JDict dy) (JDict dp) = Ok res
         /\ Invoice.n_items res = Z.of_nat (List.length ys)
         /\ Invoice.items res
            = {| Invoice.item_name := sumZ (map (inv_text_hit "item_name") (combine ys ps));
                 Invoice.quantity := sumZ (map (inv_number_hit "quantity") (combine ys ps));
                 Invoice.unit_price :=
                   sumZ (map (inv_number_hit "unit_price") (combine ys ps));
                 Invoice.total_price :=
                   sumZ (map (inv_number_hit "total_price") (combine ys ps)) |}
  else Invoice.evaluate (JDict dy) (JDict dp) = Raise AttributeError.
Proof.
  intros Ey Ep. rewrite (invoice_evaluate_loop dy dp ys ps Ey Ep).
  destruct (forallb is_record (firstn (List.length ps) ys)
            && forallb is_record (firstn (List.length ys) ps)) eqn:R.
  - apply andb_prop in R as [Ry Rp]. rewrite (inv_loop_common ys ps Ry Rp). cbn [bind].
    eexists. split; [reflexivity|]. split; [reflexivity|].
    cbn [Invoice.items]. rewrite inv_fold_fields. reflexivity.
  - rewrite (inv_loop_bad ys ps _ R). reflexivity.
Qed.

End InvoiceShapes.

Lemma invoice_evaluate_item_shapes_witness :
  items_of (JDict sample_gt) = Ok (JList sample_three)
  /\ items_of (JDict [("items", JList [JDict []; JNull; JDict []; JInt 4])])
     = Ok (JList [JDict []; JNull; JDict []; JInt 4])
  /\ exists res,
       Invoice.evaluate (B := CPython.builtins) (JDict sample_gt)
         (JDict [("items", JList [JDict []; JNull; JDict []; JInt 4])]) = Ok res
       /\ Invoice.n_items res = 3.
Proof.
  split; [reflexivity|]. split; [reflexivity|].
  destruct (invoice_evaluate_item_shapes (B := CPython.builtins) sample_gt
              [("items", JList [JDict []; JNull; JDict []; JInt 4])] sample_three
              [JDict []; JNull; JDict []; JInt 4] eq_refl eq_refl)
    as (res & E & N & _).
  exists res. split; [exact E | exact N].
Defined.

(** ** Exchanging the two values of a numeric comparison (benchmark_invoice.py) *)

Lemma SFcompare_antisym (a b : spec_float) :
  SFcompare b a = option_map CompOpp (SFcompare a b).
Proof.
  destruct a as [sa|sa| |sa ma ea], b as [sb|sb| |sb mb eb];
    try destruct sa; try destruct sb; cbn [SFcompare option_map CompOpp]; try reflexivity;
    rewrite (Z.compare_antisym ea eb); destruct (ea ?= eb); cbn [CompOpp]; try reflexivity;
    change (Pos.compare_cont Eq) with Pos.compare;
    rewrite (Pos.compare_antisym ma mb); destruct (ma ?= mb)%positive; reflexivity.
Qed.

Lemma SFeqb_sym (a b : spec_float) : SFeqb a b = SFeqb b a.
Proof.
  unfold SFeqb. rewrite (SFcompare_antisym a b).
  destruct (SFcompare a b) as [[| |]|]; reflexivity.
Qed.

Lemma SFabs_binary_normalize_opp (m e : Z) :
  SFabs (binary_normalize prec emax (- m) e false)
  = SFabs (binary_normalize prec emax m e false).
Proof.
  destruct m as [|p|p]; cbn [Z.opp binary_normalize]; try reflexivity;
    unfold binary_round, binary_round_aux;
    destruct (shl_align p e _) as [mz ez];
    destruct (shr_fexp prec emax (Z.pos mz) ez loc_Exact) as [mrs e'];
    destruct (shr_fexp prec emax _ e' loc_Exact) as [mrs2 e2];
    destruct (shr_m mrs2); try reflexivity; destruct (_ <=? _); reflexivity.
Qed.

Lemma SFabs_fsub_sym (a b : spec_float) : SFabs (fsub a b) = SFabs (fsub b a).
Proof.
  unfold fsub.
  destruct a as [sa|sa| |sa ma ea], b as [sb|sb| |sb mb eb];
    try destruct sa; try destruct sb; try reflexivity;
    cbn [SFsub]; change IntDef.Z.min with Z.min; rewrite (Z.min_comm eb ea);
    match goal with
    | |- SFabs (binary_normalize _ _ (?x - ?y) _ _) = _ =>
        replace (y - x) with (- (x - y)) by lia
    end; symmetry; apply SFabs_binary_normalize_opp.
Qed.

Lemma SFcompare_abs_eq (a b : spec_float) :
  SFcompare (SFabs a) (SFabs b) = Some Eq -> SFabs a = SFabs b.
Proof.
  destruct a as [sa|sa| |sa ma ea], b as [sb|sb| |sb mb eb];
    cbn [SFabs SFcompare]; try discriminate; try reflexivity.
  change (Pos.compare_cont Eq) with Pos.compare.
  destruct (Z.compare_spec ea eb); try discriminate. subst.
  destruct (Pos.compare_spec ma mb); try discriminate. now subst.
Qed.

Lemma float_max_sym (a b : spec_float) :
  is_nan a || is_nan b = false ->
  (if SFltb (SFabs a) (SFabs b) then SFabs b else SFabs a)
  = (if SFltb (SFabs b) (SFabs a) then SFabs a else SFabs b).
Proof.
  intros N. unfold SFltb. rewrite (SFcompare_antisym (SFabs a) (SFabs b)).
  destruct (SFcompare (SFabs a) (SFabs b)) as [[| |]|] eqn:E; cbn [option_map CompOpp];
    try reflexivity.
  - now apply SFcompare_abs_eq.
  - destruct a, b; try discriminate N; discriminate E.
Qed.

Lemma fsub_nan (a b : spec_float) : is_nan a || is_nan b = true -> fsub a b = S754_nan.
Proof. destruct a, b; try discriminate; reflexivity. Qed.

Lemma num_eq_sym (a b : pynum) : num_eq a b = num_eq b a.
Proof.
  destruct a, b; cbn [num_eq]; try reflexivity; [apply Z.eqb_sym | apply SFeqb_sym].
Qed.

Lemma py_eq_scalar_sym (y p : json) :
  is_scalar y = true -> is_scalar p = true -> py_eq y p = py_eq p y.
Proof.
  destruct y, p; try discriminate; intros _ _; cbn [py_eq as_number];
    try reflexivity; try apply num_eq_sym. apply String.eqb_sym.
Qed.

(** X20.  On scalar values (null, Booleans, numbers, text) the numeric
    comparison does not depend on which value is the ground truth:
    [compare_numbers(y, pred)] and [compare_numbers(pred, y)] give the
    same result at every tolerance, NaN and infinities included. *)
Theorem compare_numbers_symmetric {B : PyBuiltins} (y pred : json) (tol : spec_float) :
  is_scalar y = true -> is_scalar pred = true ->
  Invoice.compare_numbers y pred tol = Invoice.compare_numbers pred y tol.
Proof.
  intros Sy Sp. unfold Invoice.compare_numbers.
  rewrite (py_eq_scalar_sym pred y Sp Sy).
  destruct (py_eq y pred); [reflexivity|]. unfold Invoice.compare_coerced.
  destruct (Invoice.coerce y) as [a|ea], (Invoice.coerce pred) as [b|eb];
    cbn [bind try_except]; try reflexivity.
  rewrite (andb_comm (SFeqb b f_zero)).
  destruct (SFeqb a f_zero && SFeqb b f_zero); [reflexivity|].
  unfold float_truediv. rewrite !denominator_not_zero. cbn [bind try_except].
  rewrite (SFabs_fsub_sym b a).
  destruct (is_nan a || is_nan b) eqn:N.
  - rewrite (fsub_nan a b N). reflexivity.
  - unfold float_max3. rewrite (float_max_sym a b N). reflexivity.
Qed.

Lemma compare_numbers_symmetric_witness :
  is_scalar (JStr "1000") = true
  /\ is_scalar (JFloat (dec64 10005 10)) = true
  /\ Invoice.compare_numbers (B := CPython.builtins) (JStr "1000") (JFloat (dec64 10005 10))
       Invoice.default_tolerance
     = Invoice.compare_numbers (B := CPython.builtins) (JFloat (dec64 10005 10)) (JStr "1000")
         Invoice.default_tolerance.
Proof.
  split; [reflexivity|]. split; [reflexivity|].
  apply (compare_numbers_symmetric (B := CPython.builtins)); reflexivity.
Defined.
